(** * A shallow embedding of the Apache Jira scraper (main.py)

    The scraper pages through a remote issue tracker, enriches every issue
    with its comments, appends one normalised record per line to a sink file
    and keeps a checkpoint and a run status on disk.

    Layout of this development:
    - [Py]      : the JSON values the program manipulates and the handful of
                  Python primitives it applies to them, with the exceptions
                  they raise;
    - [Scraper] : the world (files, global status, clock, effect trace), a
                  small state-and-exception monad, and main.py function by
                  function; the [while True] of [scrape_project] runs on
                  fuel, and the remote server is a parameter;
    - [Spec]    : the predicates the theorems are phrased in;
    - [Samples] : concrete worlds and servers;
    - theorems about the checkpoint store, the status tracker, the retrying
      fetcher, the comment enricher, the statistics route and the ingestion
      engine;
    - further properties (X1 to X20) of the same components and of the
      record normaliser and the transform route.

    Not modelled: [print], the TLS and timeout settings of a request, the
    text of the JSON documents on disk (a line holds the value it parses
    to, or is marked as not parsing; a last line without its newline is
    kept apart, since appending to it does not start a new line),
    floating-point numbers, and the interleaving of the routes with a run
    in progress. *)

From Stdlib Require Import ZArith List String Ascii Bool Lia.
Import ListNotations.
Local Open Scope Z_scope.
Set Warnings "-register-all".


(* ===================================================================== *)
(** * Python values and primitives                                        *)
(* ===================================================================== *)

Module Py.

(** Values produced by [json.load] / [resp.json()].  [JNull] is Python's
    [None]; numbers are the integers (floats do not occur in the offsets and
    counters the program computes with); a dict is an association list in
    insertion order whose keys are pairwise distinct. *)
Inductive json : Type :=
| JNull
| JBool (b : bool)
| JNum (n : Z)
| JStr (s : string)
| JArr (items : list json)
| JObj (members : list (string * json)).

(** The exceptions that can travel through main.py. *)
Inductive exn : Type :=
| TypeError
| AttributeError
| KeyError
| JSONDecodeError
| ClientError                 (* aiohttp transport failure or timeout *)
| HTTPException (status_code : Z).

Inductive result (A : Type) : Type :=
| Ok (a : A)
| Err (e : exn).
Arguments Ok {A} a.
Arguments Err {A} e.

Definition rbind {A B} (r : result A) (k : A -> result B) : result B :=
  match r with
  | Ok a => k a
  | Err e => Err e
  end.

(** Truth value of an object, as tested by [if x], [not x], [x and y]. *)
Definition truthy (v : json) : bool :=
  match v with
  | JNull => false
  | JBool b => b
  | JNum n => negb (n =? 0)
  | JStr s => negb (s =? EmptyString)%string
  | JArr items => match items with [] => false | _ :: _ => true end
  | JObj members => match members with [] => false | _ :: _ => true end
  end.

(** Dict lookup by key. *)
Fixpoint lookup (k : string) (members : list (string * json)) : option json :=
  match members with
  | [] => None
  | (k', v) :: rest => if (k =? k')%string then Some v else lookup k rest
  end.

(** [d[k] = v] on a dict: overwrite in place, or append a new key. *)
Fixpoint store (k : string) (v : json) (members : list (string * json))
  : list (string * json) :=
  match members with
  | [] => [(k, v)]
  | (k', v') :: rest =>
      if (k =? k')%string then (k', v) :: rest else (k', v') :: store k v rest
  end.

(** [x.get(k, default)]: only a dict has the method. *)
Definition get (x : json) (k : string) (default : json) : result json :=
  match x with
  | JObj members =>
      match lookup k members with
      | Some v => Ok v
      | None => Ok default
      end
  | _ => Err AttributeError
  end.

(** [x[k]] with a string subscript. *)
Definition getitem (x : json) (k : string) : result json :=
  match x with
  | JObj members =>
      match lookup k members with
      | Some v => Ok v
      | None => Err KeyError
      end
  | _ => Err TypeError
  end.

(** [x[k] = v] with a string subscript. *)
Definition setitem (x : json) (k : string) (v : json) : result json :=
  match x with
  | JObj members => Ok (JObj (store k v members))
  | _ => Err TypeError
  end.

(** [needle in hay] for strings. *)
Fixpoint substring_of (needle hay : string) : bool :=
  String.prefix needle hay ||
  match hay with
  | EmptyString => false
  | String _ rest => substring_of needle rest
  end.

Definition is_str (k : string) (v : json) : bool :=
  match v with
  | JStr s => (k =? s)%string
  | _ => false
  end.

(** [k in x] for a string [k]: key membership on a dict, element membership
    on a list, substring test on a string, TypeError on anything else. *)
Definition contains (k : string) (x : json) : result bool :=
  match x with
  | JObj members =>
      Ok (match lookup k members with Some _ => true | None => false end)
  | JArr items => Ok (existsb (is_str k) items)
  | JStr s => Ok (substring_of k s)
  | _ => Err TypeError
  end.

(** [for v in x]: the sequence a value iterates over. *)
Definition iterate (x : json) : result (list json) :=
  match x with
  | JArr items => Ok items
  | JObj members => Ok (map (fun kv => JStr (fst kv)) members)
  | JStr s => Ok (map (fun c => JStr (String c EmptyString)) (list_ascii_of_string s))
  | _ => Err TypeError
  end.

(** [len(x)]. *)
Definition len (x : json) : result Z :=
  match x with
  | JArr items => Ok (Z.of_nat (List.length items))
  | JObj members => Ok (Z.of_nat (List.length members))
  | JStr s => Ok (Z.of_nat (String.length s))
  | _ => Err TypeError
  end.

(** [bool] is a subclass of [int]. *)
Definition as_int (v : json) : option Z :=
  match v with
  | JNum n => Some n
  | JBool b => Some (if b then 1 else 0)
  | _ => None
  end.

(** [x + n] for an int [n] (the [start_at += len(issues)] of the loop). *)
Definition add_int (x : json) (n : Z) : result json :=
  match as_int x with
  | Some m => Ok (JNum (m + n))
  | None => Err TypeError
  end.

(** [a == b]. *)
Fixpoint py_eq (a b : json) {struct a} : bool :=
  match a, b with
  | JNull, JNull => true
  | JStr s, JStr t => (s =? t)%string
  | JArr l, JArr m =>
      (fix go (l m : list json) {struct l} : bool :=
         match l, m with
         | [], [] => true
         | x :: l', y :: m' => py_eq x y && go l' m'
         | _, _ => false
         end) l m
  | JObj l, JObj m =>
      (List.length l =? List.length m)%nat &&
      (fix go (l : list (string * json)) : bool :=
         match l with
         | [] => true
         | (k, v) :: l' =>
             match lookup k m with
             | Some v' => py_eq v v'
             | None => false
             end && go l'
         end) l
  | _, _ =>
      match as_int a, as_int b with
      | Some x, Some y => x =? y
      | _, _ => false
      end
  end.

(** Three-way ordering behind [<], [>], [>=]: ints with ints, strings with
    strings, lists lexicographically on the first pair of unequal elements;
    every other pairing raises TypeError. *)
Fixpoint py_compare (a b : json) {struct a} : result comparison :=
  match a, b with
  | JStr s, JStr t => Ok (String.compare s t)
  | JArr l, JArr m =>
      (fix go (l m : list json) {struct l} : result comparison :=
         match l, m with
         | [], [] => Ok Eq
         | [], _ :: _ => Ok Lt
         | _ :: _, [] => Ok Gt
         | x :: l', y :: m' => if py_eq x y then go l' m' else py_compare x y
         end) l m
  | _, _ =>
      match as_int a, as_int b with
      | Some x, Some y => Ok (x ?= y)
      | _, _ => Err TypeError
      end
  end.

Definition py_lt (a b : json) : result bool :=
  rbind (py_compare a b) (fun c => Ok (match c with Lt => true | _ => false end)).

Definition py_gt (a b : json) : result bool :=
  rbind (py_compare a b) (fun c => Ok (match c with Gt => true | _ => false end)).

Definition py_ge (a b : json) : result bool :=
  rbind (py_compare a b) (fun c => Ok (match c with Lt => false | _ => true end)).

End Py.

(* ===================================================================== *)
(** * The program                                                         *)
(* ===================================================================== *)

Module Scraper.
Import Py.

(** ** Configuration constants *)

Definition JIRA_API_URL : string := "https://issues.apache.org/jira/rest/api/2".
Definition PROJECTS : list string := ["SPARK"; "HADOOP"; "KAFKA"]%string.
Definition MAX_RESULTS : Z := 10.
Definition OUTPUT_FILE : string := "output.jsonl".
Definition CHECKPOINT_FILE : string := "checkpoint.json".
Definition STATUS_FILE : string := "status.json".

(** ** The outside world *)

(** The two URLs the program builds.  [SearchUrl p s m] stands for
    [f"{JIRA_API_URL}/search?jql=project={p}&startAt={s}&maxResults={m}"] and
    [CommentUrl k] for [f"{JIRA_API_URL}/issue/{k}/comment"]; the holes are
    kept as values instead of being formatted into the text. *)
Inductive url : Type :=
| SearchUrl (project : string) (start_at : json) (max_results : Z)
| CommentUrl (issue_key : json).

(** What one GET produces: a response with its status and a body on which
    [resp.json()] either yields a value or raises, or an exception raised by
    the transport. *)
Inductive response : Type :=
| Response (status : Z) (body : option json)
| Failure (e : exn).

(** What follows the last newline of a file that does not end with one:
    whitespace only, or other text, which [json.loads] decodes or not. *)
Inductive fragment : Type :=
| Blank
| Partial (parsed : option json).

(** Text held by a file or by one line of it, seen through [json.loads].
    A line normally ends with its newline: [Parsed j] when the text decodes
    to [j], [Unparsable] when it does not.  [Unfinished f] is a last line
    that lacks its newline; in a list of lines it is meant for the last
    position, and only there does writing treat it as unfinished. *)
Inductive content : Type :=
| Parsed (j : json)
| Unparsable
| Unfinished (f : fragment).

(** [json.loads(text)]. *)
Definition loads (c : content) : result json :=
  match c with
  | Parsed j => Ok j
  | Unparsable => Err JSONDecodeError
  | Unfinished Blank => Err JSONDecodeError
  | Unfinished (Partial (Some j)) => Ok j
  | Unfinished (Partial None) => Err JSONDecodeError
  end.

(** The line that results when [json.dumps(record) + "\n"] is written right
    after an unfinished line.  After blank text the record still decodes.
    After any other text the line is no JSON document: the object literal
    either follows a complete value, or leaves an array or object of the
    old text unclosed, or has its first quote close a string the old text
    left open. *)
Definition glue (f : fragment) (record : json) : content :=
  match f with
  | Blank => Parsed record
  | Partial _ => Unparsable
  end.

(** The lines of a file after [f.write(json.dumps(record) + "\n")] in append
    mode: the bytes go to the end of the file, so they start a line of
    their own only when the last line has its newline. *)
Fixpoint append_record (lines : list content) (record : json) : list content :=
  match lines with
  | [] => [Parsed record]
  | line :: rest =>
      match rest with
      | [] =>
          match line with
          | Unfinished f => [glue f record]
          | _ => [line; Parsed record]
          end
      | _ :: _ => line :: append_record rest record
      end
  end.

(** The global [scraping_status] dict; a timestamp is a clock reading. *)
Record status : Type := mkStatus {
  is_running : bool;
  start_time : option Z;
  current_project : option string;
  projects_completed : list string
}.

(** Effects worth observing after the fact, most recent first. *)
Inductive event : Type :=
| EvGet (u : url)
| EvSleep (seconds : Z)
| EvAppend (record : json)
| EvSaveCheckpoint (state : json).

Record world : Type := mkWorld {
  output_file : option (list content);     (* OUTPUT_FILE, line by line *)
  checkpoint_file : option content;        (* CHECKPOINT_FILE *)
  status_file : option status;             (* STATUS_FILE *)
  scraping_status : status;                (* the module-level global *)
  clock : Z;                               (* datetime.now() *)
  trace : list event
}.

Definition set_output (f : option (list content)) (w : world) : world :=
  mkWorld f (checkpoint_file w) (status_file w) (scraping_status w) (clock w) (trace w).
Definition set_checkpoint (f : option content) (w : world) : world :=
  mkWorld (output_file w) f (status_file w) (scraping_status w) (clock w) (trace w).
Definition set_status_file (f : option status) (w : world) : world :=
  mkWorld (output_file w) (checkpoint_file w) f (scraping_status w) (clock w) (trace w).
Definition set_scraping_status (s : status) (w : world) : world :=
  mkWorld (output_file w) (checkpoint_file w) (status_file w) s (clock w) (trace w).
Definition set_clock (t : Z) (w : world) : world :=
  mkWorld (output_file w) (checkpoint_file w) (status_file w) (scraping_status w) t (trace w).
Definition log (e : event) (w : world) : world :=
  mkWorld (output_file w) (checkpoint_file w) (status_file w) (scraping_status w)
          (clock w) (e :: trace w).

(** The value of [scraping_status] when the module is loaded. *)
Definition idle_status : status := mkStatus false None None [].

(** ** Computations: state, exceptions, and loops that may not end *)

Inductive outcome (A : Type) : Type :=
| Returned (a : A)
| Raised (e : exn)
| Diverged.                   (* the fuel of a [while True] ran out *)
Arguments Returned {A} a.
Arguments Raised {A} e.
Arguments Diverged {A}.

Definition M (A : Type) : Type := world -> outcome A * world.

Definition ret {A} (a : A) : M A := fun w => (Returned a, w).

Definition bind {A B} (c : M A) (k : A -> M B) : M B :=
  fun w =>
    match c w with
    | (Returned a, w') => k a w'
    | (Raised e, w') => (Raised e, w')
    | (Diverged, w') => (Diverged, w')
    end.

Definition raise {A} (e : exn) : M A := fun w => (Raised e, w).

Definition diverge {A} : M A := fun w => (Diverged, w).

Definition lift {A} (r : result A) : M A :=
  match r with
  | Ok a => ret a
  | Err e => raise e
  end.

(** [try: c except Exception as e: handler(e)]. *)
Definition try_except {A} (c : M A) (handler : exn -> M A) : M A :=
  fun w =>
    match c w with
    | (Raised e, w') => handler e w'
    | r => r
    end.

(** [try: c finally: cleanup]: the cleanup runs whether [c] returned or
    raised, and the outcome of [c] is then resumed. *)
Definition try_finally {A} (c : M A) (cleanup : M unit) : M A :=
  fun w =>
    match c w with
    | (Diverged, w') => (Diverged, w')
    | (r, w') =>
        match cleanup w' with
        | (Returned _, w'') => (r, w'')
        | (Raised e, w'') => (Raised e, w'')
        | (Diverged, w'') => (Diverged, w'')
        end
    end.

Declare Scope scraper_scope.
Delimit Scope scraper_scope with scraper.
Notation "x <- c1 ;; c2" := (bind c1 (fun x => c2))
  (at level 61, c1 at next level, right associativity) : scraper_scope.
Notation "c1 ;; c2" := (bind c1 (fun _ => c2))
  (at level 61, right associativity) : scraper_scope.
Local Open Scope scraper_scope.

(** [for x in xs: body(x)]. *)
Fixpoint for_each {A} (xs : list A) (body : A -> M unit) : M unit :=
  match xs with
  | [] => ret tt
  | x :: rest => body x ;; for_each rest body
  end.

(** [await asyncio.sleep(seconds)]. *)
Definition sleep (seconds : Z) : M unit :=
  fun w => (Returned tt, log (EvSleep seconds) (set_clock (clock w + seconds) w)).

(** ** Utility functions *)

Definition zero_offsets : json := JObj (map (fun p => (p, JNum 0)) PROJECTS).

Definition load_checkpoint : M json :=
  fun w =>
    match output_file w with
    | None => (Returned zero_offsets, w)
    | Some _ =>
        match checkpoint_file w with
        | Some c => lift (loads c) w
        | None => (Returned zero_offsets, w)
        end
    end.

Definition save_checkpoint (state : json) : M unit :=
  fun w => (Returned tt, log (EvSaveCheckpoint state) (set_checkpoint (Some (Parsed state)) w)).

(** The in-memory part of [update_status], at clock reading [now]. *)
Definition updated_status (now : Z) (running : option bool)
    (current completed : option string) (s : status) : status :=
  let s1 :=
    match running with
    | Some true => mkStatus true (Some now) (current_project s) []
    | Some false => mkStatus false None None (projects_completed s)
    | None => s
    end in
  let s2 :=
    match current with
    | Some p => mkStatus (is_running s1) (start_time s1) (Some p) (projects_completed s1)
    | None => s1
    end in
  match completed with
  | Some p =>
      if negb (p =? EmptyString)%string && negb (existsb (String.eqb p) (projects_completed s2))
      then mkStatus (is_running s2) (start_time s2) (current_project s2)
                    (projects_completed s2 ++ [p])
      else s2
  | None => s2
  end.

Definition update_status (running : option bool) (current completed : option string)
  : M unit :=
  fun w =>
    let s := updated_status (clock w) running current completed (scraping_status w) in
    (Returned tt, set_status_file (Some s) (set_scraping_status s w)).

(** ** Retrying fetcher, comment enricher, normaliser, ingestion loop *)

Section Network.

(** The remote server: the response to the [n]-th GET of the process
    (counting from zero) when it asks for [u]. *)
Variable net : nat -> url -> response.

(** Python's [str(x)] as used by an f-string, and [str.strip]. *)
Variable py_str : json -> string.
Variable py_strip : string -> string.

Definition is_get (e : event) : bool :=
  match e with
  | EvGet _ => true
  | _ => false
  end.

Definition requests_so_far (w : world) : nat :=
  List.length (filter is_get (trace w)).

(** [session.get(url, ssl=False, timeout=30)]: status and body of the
    response, or the transport's exception. *)
Definition http_get (u : url) : M (Z * option json) :=
  fun w =>
    match net (requests_so_far w) u with
    | Response st body => (Returned (st, body), log (EvGet u) w)
    | Failure e => (Raised e, log (EvGet u) w)
    end.

(** [await resp.json()]. *)
Definition resp_json (body : option json) : M json :=
  match body with
  | Some j => ret j
  | None => raise JSONDecodeError
  end.

(** One turn of the [for attempt in range(retries)] loop: [Some v] when the
    function returns [v], [None] when the loop goes on. *)
Definition attempt_once (u : url) (attempt : nat) : M (option json) :=
  try_except
    (resp <- http_get u ;;
     let st := fst resp in
     if st =? 429 then
       sleep 10 ;; ret None
     else if (500 <=? st) && (st <? 600) then
       sleep (2 ^ Z.of_nat attempt) ;; ret None
     else if st =? 404 then
       ret (Some JNull)
     else
       v <- resp_json (snd resp) ;; ret (Some v))
    (fun _ => sleep (2 ^ Z.of_nat attempt) ;; ret None).

Fixpoint fetch_attempts (u : url) (attempt remaining : nat) : M json :=
  match remaining with
  | O => ret JNull
  | S k =>
      r <- attempt_once u attempt ;;
      match r with
      | Some v => ret v
      | None => fetch_attempts u (S attempt) k
      end
  end.

Definition fetch_with_retry (u : url) (retries : nat) : M json :=
  fetch_attempts u 0 retries.

Definition DEFAULT_RETRIES : nat := 5.

(** The comprehension of [fetch_comments]: for every [c] of [items] whose
    ["body"] is truthy, that body (looked up with the empty string as
    default) stripped. *)
Fixpoint comment_bodies (items : list json) : result (list string) :=
  match items with
  | [] => Ok []
  | c :: rest =>
      rbind (get c "body" JNull) (fun b =>
      if truthy b then
        rbind (get c "body" (JStr EmptyString)) (fun b' =>
        rbind (match b' with
               | JStr s => Ok (py_strip s)
               | _ => Err AttributeError
               end) (fun s =>
        rbind (comment_bodies rest) (fun bodies => Ok (s :: bodies))))
      else comment_bodies rest)
  end.

Definition fetch_comments (issue_key : json) : M (list string) :=
  data <- fetch_with_retry (CommentUrl issue_key) DEFAULT_RETRIES ;;
  if negb (truthy data) then ret []
  else
    present <- lift (contains "comments" data) ;;
    if negb present then ret []
    else
      comments <- lift (getitem data "comments") ;;
      items <- lift (iterate comments) ;;
      lift (comment_bodies items).

(** [fields.get(k, {}).get(sub)]. *)
Definition nested (fields : json) (k sub : string) : result json :=
  rbind (get fields k (JObj [])) (fun inner => get inner sub JNull).

(** [fields.get(k, {}).get("displayName") if fields.get(k) else None]. *)
Definition display_name (fields : json) (k : string) : result json :=
  rbind (get fields k JNull) (fun person =>
  if truthy person then nested fields k "displayName" else Ok JNull).

(** [x or default]. *)
Definition or_else (x default : json) : json :=
  if truthy x then x else default.

Definition extract_fields (issue : json) (comments : list string) : result json :=
  rbind (get issue "fields" (JObj [])) (fun fields =>
  rbind (get issue "id" JNull) (fun id =>
  rbind (get issue "key" JNull) (fun key =>
  rbind (get fields "summary" JNull) (fun title =>
  rbind (nested fields "project" "key") (fun project =>
  rbind (nested fields "status" "name") (fun status =>
  rbind (nested fields "priority" "name") (fun priority =>
  rbind (display_name fields "reporter") (fun reporter =>
  rbind (display_name fields "assignee") (fun assignee =>
  rbind (get fields "labels" (JArr [])) (fun labels =>
  rbind (get fields "created" JNull) (fun created =>
  rbind (get fields "updated" JNull) (fun updated =>
  rbind (get fields "description" JNull) (fun description =>
  Ok (JObj
    [ ("metadata", JObj
        [ ("id", id); ("key", key); ("title", title); ("project", project);
          ("status", status); ("priority", priority); ("reporter", reporter);
          ("assignee", assignee); ("labels", labels); ("created", created);
          ("updated", updated) ]);
      ("content", JObj
        [ ("description", or_else description (JStr EmptyString));
          ("comments", JArr (map JStr comments)) ]);
      ("derived_tasks", JObj
        [ ("summarization", JStr "Summarize the issue and its discussion.");
          ("classification",
           JStr "Classify the issue as bug, improvement, or feature.");
          ("qna", JObj
            [ ("question",
               JStr ("What is the main problem discussed in issue "
                     ++ py_str key ++ "?"));
              ("answer",
               or_else description (JStr "No description available.")) ]) ])
    ]%string)))))))))))))).

(** [with open(OUTPUT_FILE, "a")]: the file exists from here on. *)
Definition open_append : M unit :=
  fun w =>
    (Returned tt,
     match output_file w with
     | None => set_output (Some []) w
     | Some _ => w
     end).

(** [f.write(json.dumps(record) + "\n")]. *)
Definition write_line (record : json) : M unit :=
  fun w =>
    (Returned tt,
     log (EvAppend record)
         (set_output (Some (append_record (match output_file w with
                                           | None => []
                                           | Some lines => lines
                                           end) record)) w)).

(** Body of [for issue in issues]. *)
Definition write_issue (issue : json) : M unit :=
  issue_key <- lift (get issue "key" JNull) ;;
  comments <- fetch_comments issue_key ;;
  cleaned <- lift (extract_fields issue comments) ;;
  write_line cleaned.

(** The [with open(OUTPUT_FILE, "a")] block of one page. *)
Definition write_page (issues : json) : M unit :=
  open_append ;;
  items <- lift (iterate issues) ;;
  for_each items write_issue.

(** How one turn of a [while True] ends: at a [break], or at the bottom of
    the body with the values the next turn starts from. *)
Inductive turn : Type :=
| Break
| Again (start_at checkpoint : json).

(** Body of the [while True] of [scrape_project]. *)
Definition page_body (project : string) (start_at checkpoint : json) : M turn :=
  data <- fetch_with_retry (SearchUrl project start_at MAX_RESULTS) DEFAULT_RETRIES ;;
  if negb (truthy data) then ret Break
  else
    present <- lift (contains "issues" data) ;;
    if negb present then ret Break
    else
      issues <- lift (getitem data "issues") ;;
      if negb (truthy issues) then ret Break
      else
        write_page issues ;;
        n <- lift (len issues) ;;
        start_at' <- lift (add_int start_at n) ;;
        checkpoint' <- lift (setitem checkpoint project start_at') ;;
        save_checkpoint checkpoint' ;;
        total <- lift (get data "total" JNull) ;;
        sleep 1 ;;
        if truthy total then
          done <- lift (py_ge start_at' total) ;;
          if done then ret Break else ret (Again start_at' checkpoint')
        else ret (Again start_at' checkpoint').

(** The loop itself; every turn uses one unit of fuel. *)
Fixpoint scrape_pages (fuel : nat) (project : string) (start_at checkpoint : json)
  : M unit :=
  match fuel with
  | O => diverge
  | S fuel' =>
      t <- page_body project start_at checkpoint ;;
      match t with
      | Break => ret tt
      | Again start_at' checkpoint' => scrape_pages fuel' project start_at' checkpoint'
      end
  end.

Definition scrape_project (fuel : nat) (project : string) : M unit :=
  checkpoint <- load_checkpoint ;;
  start_at <- lift (get checkpoint project (JNum 0)) ;;
  update_status None (Some project) None ;;
  scrape_pages fuel project start_at checkpoint ;;
  update_status None None (Some project).

Definition run_scraper (fuel : nat) : M unit :=
  try_finally
    (for_each PROJECTS (scrape_project fuel))
    (update_status (Some false) None None).

End Network.

(** ** Statistics *)

(** Keys of the [defaultdict(int)] counters: what a JSON value hashes to
    ([True] and [1] are the same key). *)
Inductive key : Type :=
| KStr (s : string)
| KInt (n : Z)
| KNone.

Definition to_key (v : json) : result key :=
  match v with
  | JStr s => Ok (KStr s)
  | JNum n => Ok (KInt n)
  | JBool b => Ok (KInt (if b then 1 else 0))
  | JNull => Ok KNone
  | JArr _ | JObj _ => Err TypeError        (* unhashable *)
  end.

Definition key_eqb (a b : key) : bool :=
  match a, b with
  | KStr s, KStr t => (s =? t)%string
  | KInt n, KInt m => n =? m
  | KNone, KNone => true
  | _, _ => false
  end.

(** [counter[k] += 1]. *)
Fixpoint bump (k : key) (counter : list (key * Z)) : list (key * Z) :=
  match counter with
  | [] => [(k, 1)]
  | (k', n) :: rest =>
      if key_eqb k k' then (k', n + 1) :: rest else (k', n) :: bump k rest
  end.

Record stats : Type := mkStats {
  total_issues : Z;
  by_project : list (key * Z);
  by_status : list (key * Z);
  by_priority : list (key * Z);
  earliest : json;
  latest : json;
  total_comments : Z;
  issues_with_comments : Z
}.

Definition empty_stats : stats := mkStats 0 [] [] [] JNull JNull 0 0.

(** [if v: counter[v] += 1]. *)
Definition count_if_truthy (v : json) (counter : list (key * Z))
  : result (list (key * Z)) :=
  if truthy v then rbind (to_key v) (fun k => Ok (bump k counter))
  else Ok counter.

(** [if bound is None or created < bound: bound = created] (and its
    mirror image with [>]). *)
Definition tighten (cmp : json -> json -> result bool) (created bound : json)
  : result json :=
  match bound with
  | JNull => Ok created
  | _ => rbind (cmp created bound) (fun b => Ok (if b then created else bound))
  end.

(** Body of [for line in f]: a line that does not parse is skipped, any
    other exception leaves the function. *)
Definition scan_line (st : stats) (line : content) : result stats :=
  match loads line with
  | Err _ => Ok st
  | Ok issue =>
      rbind (get issue "metadata" (JObj [])) (fun metadata =>
      rbind (get metadata "project" JNull) (fun project =>
      rbind (count_if_truthy project (by_project st)) (fun projects =>
      rbind (get metadata "status" JNull) (fun status =>
      rbind (count_if_truthy status (by_status st)) (fun statuses =>
      rbind (get metadata "priority" JNull) (fun priority =>
      rbind (count_if_truthy priority (by_priority st)) (fun priorities =>
      rbind (get metadata "created" JNull) (fun created =>
      rbind (if truthy created then tighten py_lt created (earliest st)
             else Ok (earliest st)) (fun earliest' =>
      rbind (if truthy created then tighten py_gt created (latest st)
             else Ok (latest st)) (fun latest' =>
      rbind (get issue "content" (JObj [])) (fun content =>
      rbind (get content "comments" (JArr [])) (fun comments =>
      rbind (len comments) (fun n =>
      Ok (mkStats (total_issues st + 1) projects statuses priorities
                  earliest' latest'
                  (total_comments st + n)
                  (if truthy comments then issues_with_comments st + 1
                   else issues_with_comments st)))))))))))))))
  end.

Fixpoint scan (st : stats) (lines : list content) : result stats :=
  match lines with
  | [] => Ok st
  | line :: rest => rbind (scan_line st line) (fun st' => scan st' rest)
  end.

Local Open Scope scraper_scope.

Definition calculate_stats : M (option stats) :=
  fun w =>
    match output_file w with
    | None => (Returned None, w)
    | Some lines => bind (lift (scan empty_stats lines)) (fun st => ret (Some st)) w
    end.

(** ** Routes *)

(** GET /stats: the statistics and the time they were generated at. *)
Definition get_stats : M (stats * Z) :=
  st <- calculate_stats ;;
  match st with
  | None => raise (HTTPException 404)
  | Some st => fun w => (Returned (st, clock w), w)
  end.

(** [if os.path.exists(f): os.remove(f); files_deleted.append(f)]. *)
Definition remove_checkpoint (deleted : list string) : M (list string) :=
  fun w =>
    match checkpoint_file w with
    | Some _ => (Returned (deleted ++ [CHECKPOINT_FILE]), set_checkpoint None w)
    | None => (Returned deleted, w)
    end.

Definition remove_status (deleted : list string) : M (list string) :=
  fun w =>
    match status_file w with
    | Some _ => (Returned (deleted ++ [STATUS_FILE]), set_status_file None w)
    | None => (Returned deleted, w)
    end.

Definition remove_output (deleted : list string) : M (list string) :=
  fun w =>
    match output_file w with
    | Some _ => (Returned (deleted ++ [OUTPUT_FILE]), set_output None w)
    | None => (Returned deleted, w)
    end.

(** DELETE /reset: the names of the files deleted and the timestamp. *)
Definition reset_scraper : M (list string * Z) :=
  files_deleted <- remove_checkpoint [] ;;
  files_deleted <- remove_status files_deleted ;;
  files_deleted <- remove_output files_deleted ;;
  fun w =>
    (Returned (files_deleted, clock w),
     set_scraping_status (mkStatus false None None []) w).

(** POST /scrape, up to the point where the background task is queued. *)
Definition start_scraping : M unit :=
  fun w =>
    if is_running (scraping_status w) then (Raised (HTTPException 409), w)
    else update_status (Some true) None None w.

(** The values [scraping_status] can take: it starts idle and is only ever
    assigned by [update_status] and [reset_scraper]. *)
Inductive reachable_status : status -> Prop :=
| reach_idle : reachable_status idle_status
| reach_update now running current completed s :
    reachable_status s ->
    reachable_status (updated_status now running current completed s).

(** GET /transform.  The route writes a fourth file,
    [transformed_dataset.jsonl], which is kept beside the world. *)
Definition TRANSFORMED_FILE : string := "transformed_dataset.jsonl".

(** [for line in infile: outfile.write(json.dumps(json.loads(line)) + "\n")]:
    the lines written so far and, when [json.loads] refuses a line, the
    exception that ends the loop. *)
Fixpoint transform_lines (lines written : list content)
  : result unit * list content :=
  match lines with
  | [] => (Ok tt, written)
  | line :: rest =>
      match loads line with
      | Ok issue => transform_lines rest (written ++ [Parsed issue])
      | Err e => (Err e, written)
      end
  end.

(** The outcome, the world, and the transformed file after the call; a
    successful call answers with the path and the timestamp. *)
Definition transform_to_jsonl (transformed : option (list content)) (w : world)
  : outcome (string * Z) * world * option (list content) :=
  match output_file w with
  | None => (Raised (HTTPException 404), w, transformed)
  | Some lines =>
      match transform_lines lines [] with
      | (Ok _, written) => (Returned (TRANSFORMED_FILE, clock w), w, Some written)
      | (Err e, written) => (Raised e, w, Some written)
      end
  end.

End Scraper.

(* ===================================================================== *)
(** * Vocabulary of the theorems, and sample inputs                       *)
(* ===================================================================== *)

(** [Spec] holds two statements taken literally from the specification
    and the predicates in which the theorems below are phrased. *)
Module Spec.
Import Py Scraper.

(** "Otherwise returns the persisted mapping, defaulting missing partitions
    to zero": the mapping handed back by [load_checkpoint] has an entry for
    every configured partition, the persisted one or zero. *)
Definition load_fills_missing_partitions (w : world) : Prop :=
  forall lines members,
    output_file w = Some lines ->
    checkpoint_file w = Some (Parsed (JObj members)) ->
    exists loaded,
      fst (load_checkpoint w) = Returned (JObj loaded) /\
      forall p, In p PROJECTS ->
        lookup p loaded =
          Some (match lookup p members with Some v => v | None => JNum 0 end).

(** "GetStats() on an empty/absent sink returns a not-found signal, not an
    empty statistics object". *)
Definition stats_not_found_when_empty_or_absent (w : world) : Prop :=
  output_file w = None \/ output_file w = Some [] ->
  fst (get_stats w) = Raised (HTTPException 404).

(** How [fetch_with_retry] classifies what a GET produced. *)
Definition server_error (r : response) : bool :=
  match r with
  | Response st _ => (500 <=? st) && (st <? 600)
  | Failure _ => false
  end.

Definition success (r : response) : option json :=
  match r with
  | Response st (Some j) => if (200 <=? st) && (st <? 300) then Some j else None
  | _ => None
  end.

(** Outcomes after which the loop moves on to the next attempt: a 429, a
    5xx, an exception from the transport, or a body that does not decode. *)
Definition retryable (r : response) : bool :=
  match r with
  | Failure _ => true
  | Response st body =>
      (st =? 429) || ((500 <=? st) && (st <? 600)) ||
      (negb (st =? 404) && match body with None => true | Some _ => false end)
  end.

(** Events a call of [fetch_with_retry u] may add to the trace. *)
Definition fetch_event (u : url) (e : event) : Prop :=
  e = EvGet u \/ exists seconds, e = EvSleep seconds.

(** [w'] differs from [w] by the clock and by trace entries satisfying
    [P]; files and global status are the same. *)
Definition only_logged (P : event -> Prop) (w w' : world) : Prop :=
  output_file w' = output_file w /\
  checkpoint_file w' = checkpoint_file w /\
  status_file w' = status_file w /\
  scraping_status w' = scraping_status w /\
  exists new, trace w' = new ++ trace w /\ Forall P new.

(** Lines of the sink that [json.loads] accepts. *)
Definition parses (line : content) : bool :=
  match loads line with
  | Ok _ => true
  | Err _ => false
  end.

Definition parsed_lines (lines : list content) : Z :=
  Z.of_nat (List.length (filter parses lines)).

(** Events of the per-issue work: comment requests, back-off sleeps and
    appended records. *)
Definition item_event (e : event) : Prop :=
  (exists k, e = EvGet (CommentUrl k)) \/
  (exists seconds, e = EvSleep seconds) \/
  (exists record, e = EvAppend record).

(** Events of the paging itself: search requests and checkpoint saves. *)
Definition is_paging (e : event) : bool :=
  match e with
  | EvGet (SearchUrl _ _ _) => true
  | EvSaveCheckpoint _ => true
  | _ => false
  end.

(** The paging events of a stretch of trace, oldest first. *)
Definition paging_log (events : list event) : list event :=
  filter is_paging (rev events).

Definition lines_of (w : world) : list content :=
  match output_file w with
  | Some lines => lines
  | None => []
  end.

(** [w'] comes from [w] by per-issue work: only the sink, the clock and
    the trace may differ, the trace by item events. *)
Definition item_step (w w' : world) : Prop :=
  checkpoint_file w' = checkpoint_file w /\
  status_file w' = status_file w /\
  scraping_status w' = scraping_status w /\
  exists new, trace w' = new ++ trace w /\ Forall item_event new.

(** Outcomes answered with the exponential back-off: a 5xx, an exception
    of the transport, a body that does not decode. *)
Definition backs_off (r : response) : bool :=
  match r with
  | Failure _ => true
  | Response st body =>
      negb (st =? 429) &&
      (((500 <=? st) && (st <? 600)) ||
       (negb (st =? 404) && match body with None => true | Some _ => false end))
  end.

Definition rate_limited (r : response) : bool :=
  match r with
  | Response st _ => st =? 429
  | Failure _ => false
  end.

(** A response on which [fetch_with_retry] returns at once, and what it
    returns: [None] on a 404, the decoded body on every status that is
    neither 429 nor 5xx. *)
Definition settles (r : response) : option json :=
  match r with
  | Failure _ => None
  | Response st body =>
      if (st =? 429) || ((500 <=? st) && (st <? 600)) then None
      else if st =? 404 then Some JNull
      else body
  end.

(** A comment as the tracker sends it: an object whose ["body"] is a
    string, null or missing. *)
Definition comment_ok (c : json) : Prop :=
  exists members,
    c = JObj members /\
    (lookup "body" members = None \/
     lookup "body" members = Some JNull \/
     exists s, lookup "body" members = Some (JStr s)).

(** The non-empty body of a comment, if it has one. *)
Definition body_of (c : json) : list string :=
  match c with
  | JObj members =>
      match lookup "body" members with
      | Some (JStr s) => if (s =? EmptyString)%string then [] else [s]
      | _ => []
      end
  | _ => []
  end.

(** A comment on which the comprehension of [fetch_comments] fails: not an
    object, or an object whose body is truthy and not a string. *)
Definition comment_bad (c : json) : Prop :=
  match c with
  | JObj members =>
      exists b, lookup "body" members = Some b /\ truthy b = true /\
                forall s, b <> JStr s
  | _ => True
  end.

(** A member that is missing or is an object; a member that is missing,
    falsy or an object. *)
Definition absent_or_object (v : option json) : Prop :=
  v = None \/ exists members, v = Some (JObj members).

Definition falsy_or_object (v : option json) : Prop :=
  match v with
  | None => True
  | Some x => truthy x = false \/ exists members, x = JObj members
  end.

(** An issue the normaliser accepts: an object whose ["fields"], if any, is
    an object in which project, status and priority are objects or missing
    and reporter and assignee are objects, falsy or missing. *)
Definition well_shaped (issue : json) (members fields : list (string * json)) : Prop :=
  issue = JObj members /\
  (lookup "fields" members = Some (JObj fields) \/
   (lookup "fields" members = None /\ fields = [])) /\
  absent_or_object (lookup "project" fields) /\
  absent_or_object (lookup "status" fields) /\
  absent_or_object (lookup "priority" fields) /\
  falsy_or_object (lookup "reporter" fields) /\
  falsy_or_object (lookup "assignee" fields).

(** The value found under [outer] and then [inner] in a record. *)
Definition member2 (record : json) (outer inner : string) : option json :=
  match record with
  | JObj members =>
      match lookup outer members with
      | Some (JObj inside) => lookup inner inside
      | _ => None
      end
  | _ => None
  end.

(** Sum of the counts of a counter. *)
Definition counter_total (counter : list (key * Z)) : Z :=
  fold_right (fun kv acc => snd kv + acc) 0 counter.

(** The lines before the first one that does not parse, each ended by a
    newline. *)
Fixpoint parsable_prefix (lines : list content) : list content :=
  match lines with
  | [] => []
  | line :: rest =>
      match loads line with
      | Ok j => Parsed j :: parsable_prefix rest
      | Err _ => []
      end
  end.

(** A line with its newline supplied if it lacked one and decodes. *)
Definition finish (line : content) : content :=
  match line with
  | Unfinished (Partial (Some j)) => Parsed j
  | _ => line
  end.

(** The file ends with a newline (or is empty). *)
Fixpoint ends_with_newline (lines : list content) : bool :=
  match lines with
  | [] => true
  | line :: rest =>
      match rest with
      | [] => match line with Unfinished _ => false | _ => true end
      | _ :: _ => ends_with_newline rest
      end
  end.

(** The file after the records have been written to it one after the
    other. *)
Definition extend (lines : list content) (records : list json) : list content :=
  fold_left append_record records lines.

(** The records written during a stretch of trace, oldest first. *)
Definition appended (events : list event) : list json :=
  flat_map (fun e => match e with EvAppend record => [record] | _ => [] end)
           (rev events).

(** Search requests, checkpoint saves and record writes, oldest first. *)
Definition is_engine_event (e : event) : bool :=
  match e with
  | EvGet (SearchUrl _ _ _) => true
  | EvSaveCheckpoint _ => true
  | EvAppend _ => true
  | _ => false
  end.

Definition engine_log (events : list event) : list event :=
  filter is_engine_event (rev events).

(** The offset the checkpoint file holds for a partition. *)
Definition saved_offset (project : string) (w : world) : option json :=
  match checkpoint_file w with
  | Some (Parsed (JObj members)) => lookup project members
  | _ => None
  end.

(** What holds of any statistics the scan produces. *)
Definition stats_consistent (st : stats) : Prop :=
  0 <= issues_with_comments st <= total_issues st /\
  issues_with_comments st <= total_comments st /\
  counter_total (by_project st) <= total_issues st /\
  counter_total (by_status st) <= total_issues st /\
  counter_total (by_priority st) <= total_issues st /\
  (earliest st = JNull <-> latest st = JNull).

(** [d.get(k)] on the members of a dict. *)
Definition member (members : list (string * json)) (k : string) : json :=
  match lookup k members with
  | Some v => v
  | None => JNull
  end.

Section Source.

Variable net : nat -> url -> response.
Variable py_str : json -> string.
Variable py_strip : string -> string.

(** The issue goes through comment fetch, normalisation and write without
    an exception, whenever it is processed. *)
Definition writes_cleanly (issue : json) : Prop :=
  forall w, fst (write_issue net py_str py_strip issue w) = Returned tt.

(** The source answers the search at [offset] for [project] with a page of
    [size] issues, each of which can be written, and reports [total]. *)
Definition serves (project : string) (offset size total : Z) : Prop :=
  exists data items,
    (forall n, net n (SearchUrl project (JNum offset) MAX_RESULTS)
               = Response 200 (Some (JObj data))) /\
    lookup "issues" data = Some (JArr items) /\
    Z.of_nat (List.length items) = size /\
    lookup "total" data = Some (JNum total) /\
    forall issue, In issue items -> writes_cleanly issue.

(** A response after which paging stops: a 404, or a 2xx document whose
    issue list is empty. *)
Definition ends_paging (r : response) : bool :=
  match r with
  | Response st body =>
      (st =? 404) ||
      ((200 <=? st) && (st <? 300) &&
       match body with
       | Some (JObj members) =>
           match lookup "issues" members with
           | Some (JArr []) => true
           | _ => false
           end
       | _ => false
       end)
  | Failure _ => false
  end.

(** The source has no items at or beyond offset [bound]. *)
Definition finite_source (bound : Z) : Prop :=
  forall n project start_at max_results s,
    as_int start_at = Some s ->
    bound <= s ->
    ends_paging (net n (SearchUrl project start_at max_results)) = true.

End Source.

End Spec.

Module Samples.
Import Py Scraper.
Local Open Scope string_scope.

(** The sink was deleted, a checkpoint with progress is still there. *)
Definition sink_deleted : world :=
  mkWorld None
          (Some (Parsed (JObj [("SPARK", JNum 40); ("HADOOP", JNum 10)])))
          None idle_status 0 [].

(** A sink with one record and a checkpoint that only knows SPARK. *)
Definition partial_checkpoint : world :=
  mkWorld (Some [Parsed (JObj [])])
          (Some (Parsed (JObj [("SPARK", JNum 10)])))
          None idle_status 0 [].

(** The sink exists and holds no line. *)
Definition empty_sink : world :=
  mkWorld (Some []) None None idle_status 0 [].

(** Nothing on disk, nothing running. *)
Definition fresh : world :=
  mkWorld None None None idle_status 0 [].

(** A run is under way and SPARK is done. *)
Definition spark_done : status :=
  updated_status 7 None None (Some "SPARK")
    (updated_status 7 None (Some "SPARK") None
      (updated_status 7 (Some true) None None idle_status)).

(** A server that answers 503 twice and then succeeds. *)
Definition flaky (n : nat) (u : url) : response :=
  if (n <? 2)%nat then Response 503 None
  else Response 200 (Some (JObj [("comments", JArr [])])).

(** A server that is down. *)
Definition down (n : nat) (u : url) : response := Response 500 None.

(** A server that knows no issue. *)
Definition not_found (n : nat) (u : url) : response := Response 404 None.

(** A server whose comment documents carry an error message instead of
    the comments. *)
Definition no_comments (n : nat) (u : url) : response :=
  Response 200 (Some (JObj [("errorMessages", JArr [JStr "gone"])])).

(** A server that answers every request with the JSON number 5. *)
Definition five (n : nat) (u : url) : response := Response 200 (Some (JNum 5)).

(** A sink with two SPARK records, one KAFKA record and a line that does
    not decode. *)
Definition record (project created : string) (comments : list json) : json :=
  JObj [("metadata", JObj [("project", JStr project); ("status", JStr "Open");
                           ("priority", JNull); ("created", JStr created)]);
        ("content", JObj [("description", JStr EmptyString); ("comments", JArr comments)])].

Definition small_sink : world :=
  mkWorld (Some [Parsed (record "SPARK" "2020-01-02" [JStr "a"; JStr "b"]);
                 Unparsable;
                 Parsed (record "KAFKA" "2019-05-01" []);
                 Parsed (record "SPARK" "2021-03-04" [JStr "c"])])
          None None idle_status 3 [].

(** A source with 25 issues per project, served in pages of 10, 10 and 5,
    and no comments. *)
Definition issue (k : string) : json :=
  JObj [("id", JStr "1"); ("key", JStr k);
        ("fields", JObj [("summary", JStr "title")])].

Definition page (size : nat) : json :=
  JObj [("issues", JArr (repeat (issue "X-1") size)); ("total", JNum 25)].

Definition three_pages (n : nat) (u : url) : response :=
  match u with
  | SearchUrl _ (JNum s) _ =>
      if (s =? 0)%Z then Response 200 (Some (page 10))
      else if (s =? 10)%Z then Response 200 (Some (page 10))
      else if (s =? 20)%Z then Response 200 (Some (page 5))
      else Response 200 (Some (page 0))
  | SearchUrl _ _ _ => Response 400 None
  | CommentUrl _ => Response 404 None
  end.

(** A source whose first page holds something that is not an issue. *)
Definition broken (n : nat) (u : url) : response :=
  match u with
  | SearchUrl _ _ _ => Response 200 (Some (JObj [("issues", JArr [JNum 5])]))
  | CommentUrl _ => Response 404 None
  end.

(** [str(x)] on the keys that occur in the samples. *)
Definition str_of (j : json) : string :=
  match j with
  | JStr s => s
  | _ => "None"
  end.

(** The world right after POST /scrape on a fresh installation. *)
Definition started : world := snd (start_scraping fresh).

(** A server that throttles every request. *)
Definition throttled (n : nat) (u : url) : response := Response 429 None.

(** A server that fails twice and then refuses with an error document. *)
Definition forbidden (n : nat) (u : url) : response :=
  if (n <? 2)%nat then Failure ClientError
  else Response 403 (Some (JObj [("errorMessages", JArr [JStr "login required"])])).

(** Comments as the tracker sends them, and one with a numeric body. *)
Definition comments_document : list (string * json) :=
  [("comments", JArr [JObj [("body", JStr " first ")];
                      JObj [("author", JStr "nobody")];
                      JObj [("body", JNull)];
                      JObj [("body", JStr EmptyString)];
                      JObj [("body", JStr "second")]])].

Definition with_comments (n : nat) (u : url) : response :=
  Response 200 (Some (JObj comments_document)).

Definition odd_comments_document : list (string * json) :=
  [("comments", JArr [JObj [("body", JStr "fine")]; JObj [("body", JNum 7)]])].

Definition with_odd_comments (n : nat) (u : url) : response :=
  Response 200 (Some (JObj odd_comments_document)).

(** An issue with a reporter and without priority, and one whose priority
    is null. *)
Definition plain_issue : json :=
  JObj [("id", JStr "10"); ("key", JStr "SPARK-7");
        ("fields", JObj [("summary", JStr "Crash on start");
                         ("project", JObj [("key", JStr "SPARK")]);
                         ("reporter", JObj [("displayName", JStr "Ada")]);
                         ("assignee", JNull);
                         ("created", JStr "2020-01-02")])].

Definition null_priority_issue : json :=
  JObj [("key", JStr "SPARK-8"); ("fields", JObj [("priority", JNull)])].


(** A source whose comments endpoint answers with the JSON number 5. *)
Definition scalar_comments (n : nat) (u : url) : response :=
  match u with
  | SearchUrl _ _ _ =>
      Response 200 (Some (JObj [("issues", JArr [issue "X-1"]); ("total", JNum 1)]))
  | CommentUrl _ => Response 200 (Some (JNum 5))
  end.

(** A sink whose only line decodes and lacks its newline, and a source
    with two issues. *)
Definition unterminated_sink : world :=
  mkWorld (Some [Unfinished (Partial (Some (record "SPARK" "2020-01-02" [])))])
          None None idle_status 0 [].

Definition two_issues (n : nat) (u : url) : response :=
  match u with
  | SearchUrl _ _ _ =>
      Response 200 (Some (JObj [("issues", JArr [issue "X-1"; issue "X-2"]);
                                ("total", JNum 2)]))
  | CommentUrl _ => Response 404 None
  end.

End Samples.

(* ===================================================================== *)
(** * Checkpoint store                                                    *)
(* ===================================================================== *)

Import Py Scraper.
Local Open Scope scraper_scope.

(** C2. When the sink file does not exist, [load_checkpoint] returns the
    mapping that has exactly the configured partitions as keys, each at
    offset zero, whatever the checkpoint file holds; nothing is modified. *)
Theorem load_checkpoint_without_sink :
  forall w,
    output_file w = None ->
    exists members,
      load_checkpoint w = (Returned (JObj members), w) /\
      map fst members = PROJECTS /\
      forall p, In p PROJECTS -> lookup p members = Some (JNum 0).
Proof.
  intros w Hsink.
  exists (map (fun p => (p, JNum 0)) PROJECTS).
  unfold load_checkpoint. rewrite Hsink.
  split; [reflexivity|].
  split; [reflexivity|].
  intros p Hp. simpl in Hp.
  destruct Hp as [<-|[<-|[<-|[]]]]; reflexivity.
Qed.

Lemma load_checkpoint_without_sink_witness :
  checkpoint_file Samples.sink_deleted
    = Some (Parsed (JObj [("SPARK", JNum 40); ("HADOOP", JNum 10)]%string)) /\
  exists members,
    load_checkpoint Samples.sink_deleted = (Returned (JObj members), Samples.sink_deleted) /\
    map fst members = PROJECTS /\
    forall p, In p PROJECTS -> lookup p members = Some (JNum 0).
Proof.
  split; [reflexivity|].
  apply (load_checkpoint_without_sink Samples.sink_deleted).
  reflexivity.
Defined.

(** C9, as stated, fails: with a sink present and a checkpoint file that
    only mentions SPARK, the mapping returned has no entry for HADOOP. *)
Lemma load_checkpoint_keeps_gaps :
  ~ Spec.load_fills_missing_partitions Samples.partial_checkpoint.
Proof.
  intros H.
  destruct (H [Parsed (JObj [])] [("SPARK", JNum 10)]%string eq_refl eq_refl)
    as (loaded & Hload & Hall).
  simpl in Hload. injection Hload as <-.
  specialize (Hall "HADOOP"%string). simpl in Hall.
  assert (Hin : "SPARK"%string = "HADOOP"%string \/
                "HADOOP"%string = "HADOOP"%string \/
                "KAFKA"%string = "HADOOP"%string \/ False) by (right; left; reflexivity).
  specialize (Hall Hin). discriminate Hall.
Qed.

(** C9, amended. With a sink present and a checkpoint file that parses,
    [load_checkpoint] returns the persisted document exactly as it is; a
    partition without an entry gets its zero from the caller's
    [checkpoint.get(project, 0)], which yields the persisted offset when
    there is one. *)
Theorem load_checkpoint_returns_persisted :
  forall w lines j,
    output_file w = Some lines ->
    checkpoint_file w = Some (Parsed j) ->
    load_checkpoint w = (Returned j, w) /\
    forall members p,
      j = JObj members ->
      get j p (JNum 0) =
        Ok (match lookup p members with Some v => v | None => JNum 0 end).
Proof.
  intros w lines j Hsink Hck. split.
  - unfold load_checkpoint. rewrite Hsink, Hck. reflexivity.
  - intros members p ->. simpl. destruct (lookup p members); reflexivity.
Qed.

Lemma load_checkpoint_returns_persisted_witness :
  load_checkpoint Samples.partial_checkpoint
    = (Returned (JObj [("SPARK", JNum 10)]%string), Samples.partial_checkpoint) /\
  get (JObj [("SPARK", JNum 10)]%string) "HADOOP" (JNum 0) = Ok (JNum 0) /\
  get (JObj [("SPARK", JNum 10)]%string) "SPARK" (JNum 0) = Ok (JNum 10).
Proof.
  destruct (load_checkpoint_returns_persisted Samples.partial_checkpoint
              [Parsed (JObj [])] (JObj [("SPARK", JNum 10)]%string)
              eq_refl eq_refl) as [Hload Hget].
  split; [exact Hload|].
  split.
  - exact (Hget _ "HADOOP"%string eq_refl).
  - exact (Hget _ "SPARK"%string eq_refl).
Defined.

(* ===================================================================== *)
(** * Status tracker                                                      *)
(* ===================================================================== *)

Lemma existsb_eqb_In :
  forall (p : string) l, existsb (String.eqb p) l = true <-> In p l.
Proof.
  intros p l. rewrite existsb_exists. split.
  - intros (x & Hx & Heq). apply String.eqb_eq in Heq. now subst.
  - intros Hin. exists p. split; [assumption | apply String.eqb_refl].
Qed.

Lemma existsb_eqb_not_In :
  forall (p : string) l, existsb (String.eqb p) l = false <-> ~ In p l.
Proof.
  intros p l. rewrite <- existsb_eqb_In. destruct (existsb _ l); split; congruence.
Qed.

(** What [update_status(completed_project=p)] does to the list. *)
Lemma mark_completed_list :
  forall now p s,
    projects_completed (updated_status now None None (Some p) s) =
      if negb (p =? EmptyString)%string && negb (existsb (String.eqb p) (projects_completed s))
      then projects_completed s ++ [p]
      else projects_completed s.
Proof.
  intros now p s. unfold updated_status.
  destruct (negb (p =? EmptyString)%string && negb (existsb (String.eqb p) (projects_completed s)));
    reflexivity.
Qed.

(** The completed list never holds a partition twice. *)
Lemma reachable_status_NoDup :
  forall s, reachable_status s -> NoDup (projects_completed s).
Proof.
  induction 1 as [|now running current completed s Hs IH].
  - constructor.
  - unfold updated_status.
    set (s1 := match running with
               | Some true => mkStatus true (Some now) (current_project s) []
               | Some false => mkStatus false None None (projects_completed s)
               | None => s
               end).
    assert (H1 : NoDup (projects_completed s1)).
    { subst s1. destruct running as [[|]|]; simpl; [constructor|assumption|assumption]. }
    set (s2 := match current with
               | Some p => mkStatus (is_running s1) (start_time s1) (Some p)
                                    (projects_completed s1)
               | None => s1
               end).
    assert (H2 : NoDup (projects_completed s2)).
    { subst s2. destruct current; simpl; assumption. }
    destruct completed as [p|]; [|assumption].
    destruct (negb (p =? EmptyString)%string) eqn:Hne; simpl; [|assumption].
    destruct (existsb (String.eqb p) (projects_completed s2)) eqn:Hex; simpl; [assumption|].
    apply existsb_eqb_not_In in Hex.
    apply NoDup_app; repeat split.
    + assumption.
    + constructor; [intros []|constructor].
    + intros x Hx [<-|[]]. contradiction.
Qed.

Lemma count_occ_NoDup_In :
  forall (l : list string) p,
    NoDup l -> In p l -> count_occ string_dec l p = 1%nat.
Proof.
  intros l p Hnd Hin.
  pose proof (proj1 (NoDup_count_occ string_dec l) Hnd p) as Hle.
  pose proof (proj1 (count_occ_In string_dec l p) Hin) as Hpos.
  lia.
Qed.

(** C8. Marking a partition completed twice is the same as marking it
    once: the second [update_status(completed_project=p)] changes nothing,
    neither in memory nor in the status file.  From any status the program
    can be in, and for a (non-empty) partition id, [projects_completed] then
    holds exactly one entry for it. *)
Theorem mark_completed_twice :
  forall w p,
    let w1 := snd (update_status None None (Some p) w) in
    let w2 := snd (update_status None None (Some p) w1) in
    w2 = w1 /\
    (reachable_status (scraping_status w) ->
     p <> EmptyString ->
     count_occ string_dec (projects_completed (scraping_status w2)) p = 1%nat).
Proof.
  intros w p w1 w2.
  assert (Hsame : updated_status (clock w1) None None (Some p) (scraping_status w1)
                  = scraping_status w1).
  { subst w1. unfold update_status, set_status_file, set_scraping_status.
    cbn [snd scraping_status clock]. unfold updated_status.
    destruct (negb (p =? EmptyString)%string
              && negb (existsb (String.eqb p) (projects_completed (scraping_status w))))
      eqn:Hfirst; cbn [projects_completed is_running start_time current_project].
    - rewrite existsb_app. cbn [existsb]. rewrite String.eqb_refl.
      rewrite orb_true_r, andb_false_r. reflexivity.
    - rewrite Hfirst. reflexivity. }
  assert (Hw : w2 = w1).
  { subst w2. unfold update_status at 1. cbn [snd]. rewrite Hsame.
    subst w1. reflexivity. }
  split; [assumption|].
  intros Hreach Hp.
  assert (Hne : negb (p =? EmptyString)%string = true).
  { apply negb_true_iff, String.eqb_neq. assumption. }
  assert (Hin1 : In p (projects_completed (scraping_status w1))).
  { subst w1. unfold update_status, set_status_file, set_scraping_status.
    cbn [snd scraping_status]. rewrite mark_completed_list, Hne. cbn [andb].
    destruct (existsb (String.eqb p) (projects_completed (scraping_status w))) eqn:Hex; simpl.
    - apply existsb_eqb_In. assumption.
    - apply in_or_app. right. left. reflexivity. }
  rewrite Hw. apply count_occ_NoDup_In; [|assumption].
  apply reachable_status_NoDup.
  subst w1. unfold update_status, set_status_file, set_scraping_status.
  cbn [snd scraping_status]. constructor. assumption.
Qed.

Lemma mark_completed_twice_witness :
  let w := set_scraping_status Samples.spark_done Samples.fresh in
  let w1 := snd (update_status None None (Some "HADOOP"%string) w) in
  let w2 := snd (update_status None None (Some "HADOOP"%string) w1) in
  w2 = w1 /\
  count_occ string_dec (projects_completed (scraping_status w2)) "HADOOP"%string = 1%nat.
Proof.
  destruct (mark_completed_twice
              (set_scraping_status Samples.spark_done Samples.fresh) "HADOOP"%string)
    as [Hsame Hone].
  split; [exact Hsame|].
  apply Hone.
  - simpl. unfold Samples.spark_done. repeat constructor.
  - discriminate.
Defined.

(** C10. [update_status(is_running=False)] rewrites [is_running],
    [start_time] and [current_project] and keeps [projects_completed] as it
    was; apart from the status file, which receives the new snapshot, the
    rest of the world is untouched. *)
Theorem update_status_stopped_keeps_completed :
  forall w,
    update_status (Some false) None None w =
      (Returned tt,
       let s := mkStatus false None None (projects_completed (scraping_status w)) in
       mkWorld (output_file w) (checkpoint_file w) (Some s) s (clock w) (trace w)).
Proof.
  intros w. reflexivity.
Qed.

(** C7. Whatever the state before, [reset_scraper] leaves none of the
    checkpoint, status and sink files behind, reports the ones that were
    there, and puts [scraping_status] back to its initial value:
    not running, no start time, no current project, nothing completed. *)
Theorem reset_scraper_restores_idle :
  forall w,
    exists files_deleted w',
      reset_scraper w = (Returned (files_deleted, clock w), w') /\
      checkpoint_file w' = None /\
      status_file w' = None /\
      output_file w' = None /\
      scraping_status w' = mkStatus false None None [] /\
      scraping_status w' = idle_status /\
      files_deleted =
        (match checkpoint_file w with Some _ => [CHECKPOINT_FILE] | None => [] end ++
         match status_file w with Some _ => [STATUS_FILE] | None => [] end ++
         match output_file w with Some _ => [OUTPUT_FILE] | None => [] end).
Proof.
  intros [out ck sf st t tr].
  unfold reset_scraper, bind, remove_checkpoint, remove_status, remove_output.
  destruct ck, sf, out; simpl; eexists; eexists; repeat split; reflexivity.
Qed.

(* ===================================================================== *)
(** * Retrying fetcher                                                    *)
(* ===================================================================== *)

Import Spec.

Lemma only_logged_refl :
  forall P w, only_logged P w w.
Proof.
  intros P w. unfold only_logged. repeat split; try reflexivity.
  exists []. split; [reflexivity | constructor].
Qed.

Lemma only_logged_trans :
  forall P w1 w2 w3,
    only_logged P w1 w2 -> only_logged P w2 w3 -> only_logged P w1 w3.
Proof.
  intros P w1 w2 w3 (Ho & Hc & Hs & Hg & n1 & Ht1 & Hf1) (Ho' & Hc' & Hs' & Hg' & n2 & Ht2 & Hf2).
  unfold only_logged. repeat split; try congruence.
  exists (n2 ++ n1). split.
  - rewrite Ht2, Ht1. apply app_assoc.
  - apply Forall_app. split; assumption.
Qed.

Section FetcherFacts.

Variable net : nat -> url -> response.

Lemma sleep_logged :
  forall u seconds w, only_logged (fetch_event u) w (snd (sleep seconds w)).
Proof.
  intros u seconds w. unfold only_logged, sleep. simpl. repeat split.
  exists [EvSleep seconds]. split; [reflexivity|].
  constructor; [|constructor]. right. eexists. reflexivity.
Qed.

Lemma get_logged :
  forall u w, only_logged (fetch_event u) w (log (EvGet u) w).
Proof.
  intros u w. unfold only_logged. simpl. repeat split.
  exists [EvGet u]. split; [reflexivity|].
  constructor; [|constructor]. left. reflexivity.
Qed.

Lemma requests_after_get :
  forall u w, requests_so_far (log (EvGet u) w) = S (requests_so_far w).
Proof. reflexivity. Qed.

(** One attempt never raises; it issues exactly one GET. *)
Lemma attempt_once_returns :
  forall u attempt w,
    exists r w',
      attempt_once net u attempt w = (Returned r, w') /\
      requests_so_far w' = S (requests_so_far w) /\
      only_logged (fetch_event u) w w'.
Proof.
  intros u attempt w.
  pose proof (get_logged u w) as Hget.
  pose proof (sleep_logged u 10 (log (EvGet u) w)) as Hs10.
  pose proof (sleep_logged u (2 ^ Z.of_nat attempt) (log (EvGet u) w)) as Hsb.
  unfold attempt_once, try_except, bind, http_get.
  destruct (net (requests_so_far w) u) as [st body|e]; cbn [fst snd].
  - destruct (st =? 429).
    { eexists; eexists; split; [reflexivity|]. split; [reflexivity|].
      eapply only_logged_trans; eassumption. }
    destruct ((500 <=? st) && (st <? 600)).
    { eexists; eexists; split; [reflexivity|]. split; [reflexivity|].
      eapply only_logged_trans; eassumption. }
    destruct (st =? 404).
    { eexists; eexists; split; [reflexivity|]. split; [reflexivity|]. assumption. }
    destruct body as [j|]; simpl.
    + eexists; eexists; split; [reflexivity|]. split; [reflexivity|]. assumption.
    + eexists; eexists; split; [reflexivity|]. split; [reflexivity|].
      eapply only_logged_trans; eassumption.
  - eexists; eexists; split; [reflexivity|]. split; [reflexivity|].
    eapply only_logged_trans; eassumption.
Qed.

(** A retryable outcome sends the loop to the next attempt. *)
Lemma attempt_once_retryable :
  forall u attempt w,
    retryable (net (requests_so_far w) u) = true ->
    exists w',
      attempt_once net u attempt w = (Returned None, w') /\
      requests_so_far w' = S (requests_so_far w).
Proof.
  intros u attempt w Hr.
  unfold attempt_once, try_except, bind, http_get.
  destruct (net (requests_so_far w) u) as [st body|e]; cbn [fst snd].
  - unfold retryable in Hr.
    destruct (st =? 429); [eexists; split; reflexivity|].
    destruct ((500 <=? st) && (st <? 600)); [eexists; split; reflexivity|].
    simpl in Hr.
    destruct (st =? 404); [discriminate|].
    destruct body; [discriminate|].
    simpl. eexists; split; reflexivity.
  - eexists; split; reflexivity.
Qed.

(** A response that is neither 429, 5xx nor 404 and whose body decodes is
    returned at once. *)
Lemma attempt_once_settled :
  forall u attempt w st j,
    net (requests_so_far w) u = Response st (Some j) ->
    (st =? 429) = false ->
    (500 <=? st) && (st <? 600) = false ->
    (st =? 404) = false ->
    attempt_once net u attempt w = (Returned (Some j), log (EvGet u) w).
Proof.
  intros u attempt w st j Hnet H429 H5xx H404.
  unfold attempt_once, try_except, bind, http_get.
  rewrite Hnet. cbn [fst snd]. rewrite H429, H5xx, H404. reflexivity.
Qed.

Lemma attempt_once_404 :
  forall u attempt w body,
    net (requests_so_far w) u = Response 404 body ->
    attempt_once net u attempt w = (Returned (Some JNull), log (EvGet u) w).
Proof.
  intros u attempt w body Hnet.
  unfold attempt_once, try_except, bind, http_get.
  rewrite Hnet. reflexivity.
Qed.

(** [fetch_with_retry] never raises and touches nothing but the clock and
    the trace, to which it adds its GETs and sleeps. *)
Lemma fetch_attempts_returns :
  forall u remaining attempt w,
    exists v w',
      fetch_attempts net u attempt remaining w = (Returned v, w') /\
      only_logged (fetch_event u) w w'.
Proof.
  intros u remaining. induction remaining as [|k IH]; intros attempt w.
  - exists JNull, w. split; [reflexivity | apply only_logged_refl].
  - cbn [fetch_attempts]. unfold bind.
    destruct (attempt_once_returns u attempt w) as (r & w1 & -> & _ & Hl1).
    destruct r as [v|].
    + exists v, w1. split; [reflexivity | assumption].
    + destruct (IH (S attempt) w1) as (v & w2 & -> & Hl2).
      exists v, w2. split; [reflexivity|].
      eapply only_logged_trans; eassumption.
Qed.

Lemma fetch_with_retry_returns :
  forall u retries w,
    exists v w',
      fetch_with_retry net u retries w = (Returned v, w') /\
      only_logged (fetch_event u) w w'.
Proof.
  intros u retries w. apply fetch_attempts_returns.
Qed.

(** [k] retryable outcomes followed by a settled one, all within the
    attempts that remain: the settled payload is the result. *)
Lemma fetch_attempts_after_retries :
  forall u k remaining attempt w st j,
    (k < remaining)%nat ->
    (forall i, (i < k)%nat -> retryable (net (requests_so_far w + i) u) = true) ->
    net (requests_so_far w + k) u = Response st (Some j) ->
    (st =? 429) = false ->
    (500 <=? st) && (st <? 600) = false ->
    (st =? 404) = false ->
    exists w',
      fetch_attempts net u attempt remaining w = (Returned j, w') /\
      requests_so_far w' = (requests_so_far w + k + 1)%nat.
Proof.
  intros u k. induction k as [|k IH]; intros remaining attempt w st j Hlt Hpre Hnet H429 H5 H404.
  - destruct remaining as [|r]; [lia|].
    cbn [fetch_attempts]. unfold bind.
    rewrite Nat.add_0_r in Hnet.
    rewrite (attempt_once_settled u attempt w st j Hnet H429 H5 H404).
    eexists. split; [reflexivity|]. rewrite requests_after_get. lia.
  - destruct remaining as [|r]; [lia|].
    cbn [fetch_attempts]. unfold bind.
    destruct (attempt_once_retryable u attempt w) as (w1 & -> & Hreq).
    { specialize (Hpre 0%nat). rewrite Nat.add_0_r in Hpre. apply Hpre. lia. }
    destruct (IH r (S attempt) w1 st j) as (w2 & -> & Hreq2); try assumption; try lia.
    + intros i Hi. rewrite Hreq.
      replace (S (requests_so_far w) + i)%nat with (requests_so_far w + S i)%nat by lia.
      apply Hpre. lia.
    + rewrite Hreq.
      replace (S (requests_so_far w) + k)%nat with (requests_so_far w + S k)%nat by lia.
      assumption.
    + exists w2. split; [reflexivity|]. lia.
Qed.

(** Nothing but retryable outcomes for as many attempts as remain: the
    result is [None]. *)
Lemma fetch_attempts_exhausted :
  forall u remaining attempt w,
    (forall i, (i < remaining)%nat -> retryable (net (requests_so_far w + i) u) = true) ->
    exists w',
      fetch_attempts net u attempt remaining w = (Returned JNull, w') /\
      requests_so_far w' = (requests_so_far w + remaining)%nat.
Proof.
  intros u remaining. induction remaining as [|r IH]; intros attempt w Hall.
  - exists w. split; [reflexivity | lia].
  - cbn [fetch_attempts]. unfold bind.
    destruct (attempt_once_retryable u attempt w) as (w1 & -> & Hreq).
    { specialize (Hall 0%nat). rewrite Nat.add_0_r in Hall. apply Hall. lia. }
    destruct (IH (S attempt) w1) as (w2 & -> & Hreq2).
    + intros i Hi. rewrite Hreq.
      replace (S (requests_so_far w) + i)%nat with (requests_so_far w + S i)%nat by lia.
      apply Hall. lia.
    + exists w2. split; [reflexivity | lia].
Qed.

Lemma server_error_retryable :
  forall r, server_error r = true -> retryable r = true.
Proof.
  intros [st body|e]; simpl; [|discriminate].
  intros ->. rewrite orb_true_r. reflexivity.
Qed.

(** C3. If the responses to the successive attempts are 5xx errors followed
    by a success that still falls within the five attempts, [fetch_with_retry]
    returns the payload of that success; if all five attempts end in a
    retryable outcome, it returns [None] and raises nothing. *)
Theorem fetch_with_retry_budget :
  forall u w,
    (forall k j,
        (k < 5)%nat ->
        (forall i, (i < k)%nat ->
                   server_error (net (requests_so_far w + i) u) = true) ->
        success (net (requests_so_far w + k) u) = Some j ->
        fst (fetch_with_retry net u DEFAULT_RETRIES w) = Returned j) /\
    ((forall i, (i < 5)%nat ->
                retryable (net (requests_so_far w + i) u) = true) ->
     fst (fetch_with_retry net u DEFAULT_RETRIES w) = Returned JNull).
Proof.
  intros u w. split.
  - intros k j Hk Hpre Hok.
    unfold success in Hok.
    destruct (net (requests_so_far w + k) u) as [st [body|]|e] eqn:Hnet; try discriminate.
    destruct ((200 <=? st) && (st <? 300)) eqn:H2xx; [|discriminate].
    injection Hok as ->.
    apply andb_true_iff in H2xx. destruct H2xx as [Hlo Hhi].
    apply Z.leb_le in Hlo. apply Z.ltb_lt in Hhi.
    destruct (fetch_attempts_after_retries u k DEFAULT_RETRIES 0 w st j)
      as (w' & Hrun & _); try assumption.
    + intros i Hi. apply server_error_retryable, Hpre, Hi.
    + apply Z.eqb_neq. lia.
    + apply andb_false_iff. left. apply Z.leb_gt. lia.
    + apply Z.eqb_neq. lia.
    + unfold fetch_with_retry. rewrite Hrun. reflexivity.
  - intros Hall.
    destruct (fetch_attempts_exhausted u DEFAULT_RETRIES 0 w Hall) as (w' & Hrun & _).
    unfold fetch_with_retry. rewrite Hrun. reflexivity.
Qed.

End FetcherFacts.

Lemma fetch_with_retry_budget_witness :
  fst (fetch_with_retry Samples.flaky (CommentUrl (JStr "SPARK-1")) DEFAULT_RETRIES
         Samples.fresh)
    = Returned (JObj [("comments", JArr [])]%string) /\
  fst (fetch_with_retry Samples.down (CommentUrl (JStr "SPARK-1")) DEFAULT_RETRIES
         Samples.fresh)
    = Returned JNull.
Proof.
  split.
  - apply (proj1 (fetch_with_retry_budget Samples.flaky
                    (CommentUrl (JStr "SPARK-1")) Samples.fresh) 2%nat).
    + repeat constructor.
    + intros i Hi. destruct i as [|[|i]]; [reflexivity | reflexivity |].
      exfalso. apply (Nat.nlt_0_r i). do 2 apply Nat.succ_lt_mono. exact Hi.
    + reflexivity.
  - apply (proj2 (fetch_with_retry_budget Samples.down
                    (CommentUrl (JStr "SPARK-1")) Samples.fresh)).
    intros i Hi. reflexivity.
Defined.

(* ===================================================================== *)
(** * Comment enricher                                                    *)
(* ===================================================================== *)

Section EnricherFacts.

Variable net : nat -> url -> response.
Variable py_strip : string -> string.

(** Where [fetch_comments] tolerates what it is given: when the fetch of
    the comments document yields [None], or a JSON object without a
    ["comments"] member, it returns the empty list and raises nothing; a
    404 from the comments endpoint is one such case.  Payloads that are
    not objects are not covered: see [fetch_comments_scalar_payload]. *)
Theorem fetch_comments_absent_or_malformed :
  forall issue_key w,
    (forall data w1,
        fetch_with_retry net (CommentUrl issue_key) DEFAULT_RETRIES w
          = (Returned data, w1) ->
        data = JNull \/
        (exists members, data = JObj members /\ lookup "comments" members = None) ->
        fetch_comments net py_strip issue_key w = (Returned [], w1)) /\
    (forall body,
        net (requests_so_far w) (CommentUrl issue_key) = Response 404 body ->
        fst (fetch_comments net py_strip issue_key w) = Returned []).
Proof.
  intros issue_key w. split.
  - intros data w1 Hfetch Hdata.
    unfold fetch_comments, bind. rewrite Hfetch.
    destruct Hdata as [->|(members & -> & Hmiss)].
    + reflexivity.
    + destruct members as [|m rest]; [reflexivity|].
      cbn [truthy negb contains lift ret]. rewrite Hmiss. reflexivity.
  - intros body H404.
    unfold fetch_comments, bind, fetch_with_retry, DEFAULT_RETRIES.
    cbn [fetch_attempts]. unfold bind.
    rewrite (attempt_once_404 net (CommentUrl issue_key) 0 w body H404).
    reflexivity.
Qed.

(** A payload that is a number other than zero has no ["comments"] field
    either, and there the test ["comments" not in data] itself raises. *)
Lemma fetch_comments_scalar_payload :
  forall issue_key w n w1,
    fetch_with_retry net (CommentUrl issue_key) DEFAULT_RETRIES w
      = (Returned (JNum n), w1) ->
    n <> 0 ->
    fetch_comments net py_strip issue_key w = (Raised TypeError, w1).
Proof.
  intros issue_key w n w1 Hfetch Hn.
  unfold fetch_comments, bind. rewrite Hfetch.
  cbn [truthy]. apply Z.eqb_neq in Hn. rewrite Hn. reflexivity.
Qed.

End EnricherFacts.

Lemma fetch_comments_absent_or_malformed_witness :
  fst (fetch_comments Samples.down (fun s => s) (JStr "SPARK-1") Samples.fresh)
    = Returned [] /\
  fst (fetch_comments Samples.no_comments (fun s => s) (JStr "SPARK-1") Samples.fresh)
    = Returned [] /\
  fst (fetch_comments Samples.not_found (fun s => s) (JStr "SPARK-1") Samples.fresh)
    = Returned [].
Proof.
  split; [|split].
  - erewrite (proj1 (fetch_comments_absent_or_malformed
                       Samples.down (fun s => s) (JStr "SPARK-1") Samples.fresh)
                    JNull);
      [reflexivity | reflexivity | left; reflexivity].
  - erewrite (proj1 (fetch_comments_absent_or_malformed
                       Samples.no_comments (fun s => s) (JStr "SPARK-1") Samples.fresh)
                    (JObj [("errorMessages", JArr [JStr "gone"])]%string));
      [reflexivity | reflexivity |].
    right. eexists. split; reflexivity.
  - apply (proj2 (fetch_comments_absent_or_malformed
                    Samples.not_found (fun s => s) (JStr "SPARK-1") Samples.fresh) None).
    reflexivity.
Defined.

(* ===================================================================== *)
(** * Statistics route                                                    *)
(* ===================================================================== *)

Lemma rbind_ok :
  forall A B (r : result A) (k : A -> result B) b,
    rbind r k = Ok b -> exists a, r = Ok a /\ k a = Ok b.
Proof.
  intros A B [a|e] k b H; simpl in H; [|discriminate].
  exists a. split; [reflexivity | assumption].
Qed.

Lemma rbind_err :
  forall A B (r : result A) (k : A -> result B) e,
    rbind r k = Err e -> r = Err e \/ exists a, r = Ok a /\ k a = Err e.
Proof.
  intros A B [a|e'] k e H; simpl in H.
  - right. exists a. split; [reflexivity | assumption].
  - left. injection H as ->. reflexivity.
Qed.

(** Induction on JSON values that reaches inside lists and dicts. *)
Lemma json_ind_strong :
  forall P : json -> Prop,
    P JNull ->
    (forall b, P (JBool b)) ->
    (forall n, P (JNum n)) ->
    (forall s, P (JStr s)) ->
    (forall items, Forall P items -> P (JArr items)) ->
    (forall members, Forall (fun kv => P (snd kv)) members -> P (JObj members)) ->
    forall j, P j.
Proof.
  intros P Hnull Hbool Hnum Hstr Harr Hobj.
  fix IH 1. intros [ |b|n|s|items|members].
  - apply Hnull.
  - apply Hbool.
  - apply Hnum.
  - apply Hstr.
  - apply Harr. induction items as [|x l IHl]; constructor; [apply IH | exact IHl].
  - apply Hobj. induction members as [|[k v] l IHl]; constructor; [apply IH | exact IHl].
Qed.

(** A comparison can only fail with TypeError. *)
Lemma py_compare_err :
  forall a b e, py_compare a b = Err e -> e = TypeError.
Proof.
  induction a as [ |x|n|s|items IH|members IH] using json_ind_strong;
    intros b e; destruct b; simpl;
    try (intros H; first [discriminate H | injection H as <-; reflexivity]);
    try (destruct x; intros H; first [discriminate H | injection H as <-; reflexivity]);
    try (destruct b; intros H; first [discriminate H | injection H as <-; reflexivity]).
  revert items0. induction IH as [|x l Hx _ IHl]; intros [|y m]; try discriminate.
  destruct (py_eq x y); [apply IHl | apply Hx].
Qed.

Lemma get_err :
  forall x k d e, get x k d = Err e -> e = AttributeError.
Proof.
  intros x k d e. destruct x; simpl; try (intros H; injection H as <-; reflexivity).
  destruct (lookup k members); discriminate.
Qed.

Lemma len_err :
  forall x e, len x = Err e -> e = TypeError.
Proof.
  intros x e. destruct x; simpl; intros H;
    first [discriminate H | injection H as <-; reflexivity].
Qed.

Lemma count_if_truthy_err :
  forall v counter e, count_if_truthy v counter = Err e -> e = TypeError.
Proof.
  intros v counter e. unfold count_if_truthy.
  destruct (truthy v); [|discriminate].
  destruct v; simpl; intros H; first [discriminate H | injection H as <-; reflexivity].
Qed.

Lemma tighten_lt_err :
  forall created bound e, tighten py_lt created bound = Err e -> e = TypeError.
Proof.
  intros created bound e. unfold tighten, py_lt.
  destruct bound; try discriminate;
    (destruct (py_compare created _) eqn:Hc; simpl;
     [discriminate | intros H; injection H as <-; eapply py_compare_err; eassumption]).
Qed.

Lemma tighten_gt_err :
  forall created bound e, tighten py_gt created bound = Err e -> e = TypeError.
Proof.
  intros created bound e. unfold tighten, py_gt.
  destruct bound; try discriminate;
    (destruct (py_compare created _) eqn:Hc; simpl;
     [discriminate | intros H; injection H as <-; eapply py_compare_err; eassumption]).
Qed.

Ltac split_rbind H :=
  let a := fresh "v" in
  let Ha := fresh "Hv" in
  apply rbind_err in H; destruct H as [H | (a & Ha & H)].

(** The scan of a line fails with TypeError or AttributeError only. *)
Lemma scan_line_err :
  forall st line e,
    scan_line st line = Err e -> e = TypeError \/ e = AttributeError.
Proof.
  intros st line e H. unfold scan_line in H.
  destruct (loads line) as [issue|]; [|discriminate].
  split_rbind H; [right; eapply get_err; eassumption|].
  split_rbind H; [right; eapply get_err; eassumption|].
  split_rbind H; [left; eapply count_if_truthy_err; eassumption|].
  split_rbind H; [right; eapply get_err; eassumption|].
  split_rbind H; [left; eapply count_if_truthy_err; eassumption|].
  split_rbind H; [right; eapply get_err; eassumption|].
  split_rbind H; [left; eapply count_if_truthy_err; eassumption|].
  split_rbind H; [right; eapply get_err; eassumption|].
  split_rbind H.
  { left. destruct (truthy v6); [eapply tighten_lt_err; eassumption | discriminate]. }
  split_rbind H.
  { left. destruct (truthy v6); [eapply tighten_gt_err; eassumption | discriminate]. }
  split_rbind H; [right; eapply get_err; eassumption|].
  split_rbind H; [right; eapply get_err; eassumption|].
  split_rbind H; [left; eapply len_err; eassumption|].
  discriminate.
Qed.

Lemma scan_err :
  forall lines st e,
    scan st lines = Err e -> e = TypeError \/ e = AttributeError.
Proof.
  induction lines as [|line rest IH]; intros st e H; simpl in H; [discriminate|].
  split_rbind H; [eapply scan_line_err; eassumption | eapply IH; eassumption].
Qed.

(** Every line that parses is counted once. *)
Lemma scan_line_total :
  forall st line st',
    scan_line st line = Ok st' ->
    total_issues st' = total_issues st + (if parses line then 1 else 0).
Proof.
  intros st line st' H. unfold scan_line in H. unfold parses.
  destruct (loads line) as [issue|].
  - repeat (apply rbind_ok in H; destruct H as (? & _ & H)).
    injection H as <-. reflexivity.
  - injection H as <-. lia.
Qed.

Lemma scan_total :
  forall lines st st',
    scan st lines = Ok st' ->
    total_issues st' = total_issues st + parsed_lines lines.
Proof.
  unfold parsed_lines.
  induction lines as [|line rest IH]; intros st st' H; simpl in H.
  - injection H as <-. simpl. lia.
  - apply rbind_ok in H. destruct H as (st1 & H1 & H).
    apply scan_line_total in H1. apply IH in H. rewrite H, H1.
    simpl. destruct (parses line); simpl List.length; lia.
Qed.

(** C6, as stated, fails: a sink that exists and is empty gets an answer,
    the statistics with every count at zero, not a 404. *)
Lemma get_stats_on_empty_sink :
  ~ Spec.stats_not_found_when_empty_or_absent Samples.empty_sink.
Proof.
  intros H. specialize (H (or_intror eq_refl)). discriminate H.
Qed.

(** C6, amended. [get_stats] fails with 404 exactly when the sink file is
    absent.  When the file exists the answer is what the scan of all its
    lines gives, stamped with the time: every line that parses is counted
    in [total_issues], and an empty file yields the statistics with every
    count at zero. *)
Theorem get_stats_not_found_only_when_absent :
  forall w,
    (output_file w = None -> get_stats w = (Raised (HTTPException 404), w)) /\
    (forall lines,
        output_file w = Some lines ->
        get_stats w =
          (match scan empty_stats lines with
           | Ok st => Returned (st, clock w)
           | Err e => Raised e
           end, w) /\
        fst (get_stats w) <> Raised (HTTPException 404) /\
        (forall st now,
            fst (get_stats w) = Returned (st, now) ->
            total_issues st = parsed_lines lines)) /\
    (output_file w = Some [] -> get_stats w = (Returned (empty_stats, clock w), w)).
Proof.
  intros w.
  assert (Hrun : forall lines,
             output_file w = Some lines ->
             get_stats w =
               (match scan empty_stats lines with
                | Ok st => Returned (st, clock w)
                | Err e => Raised e
                end, w)).
  { intros lines Hsink. unfold get_stats, bind, calculate_stats.
    rewrite Hsink. unfold bind. destruct (scan empty_stats lines); reflexivity. }
  split; [|split].
  - intros Hsink. unfold get_stats, bind, calculate_stats. rewrite Hsink. reflexivity.
  - intros lines Hsink. split; [apply Hrun; assumption|].
    rewrite (Hrun lines Hsink). cbn [fst].
    destruct (scan empty_stats lines) as [st|e] eqn:Hscan.
    + split; [discriminate|].
      intros st' now H. injection H as <- _.
      apply scan_total in Hscan. simpl in Hscan. assumption.
    + split; [|discriminate].
      apply scan_err in Hscan. destruct Hscan as [-> | ->]; discriminate.
  - intros Hsink. rewrite (Hrun [] Hsink). reflexivity.
Qed.

Lemma get_stats_not_found_only_when_absent_witness :
  get_stats Samples.fresh = (Raised (HTTPException 404), Samples.fresh) /\
  get_stats Samples.empty_sink = (Returned (empty_stats, 0), Samples.empty_sink) /\
  (forall st now,
      fst (get_stats Samples.small_sink) = Returned (st, now) ->
      total_issues st = 3).
Proof.
  pose proof (get_stats_not_found_only_when_absent Samples.fresh) as (Habsent & _ & _).
  pose proof (get_stats_not_found_only_when_absent Samples.empty_sink) as (_ & _ & Hempty).
  pose proof (get_stats_not_found_only_when_absent Samples.small_sink) as (_ & Hscan & _).
  split; [exact (Habsent eq_refl)|].
  split; [exact (Hempty eq_refl)|].
  exact (proj2 (proj2 (Hscan _ eq_refl))).
Defined.

(** The statistics of a small sink, computed. *)
Example get_stats_small_sink :
  fst (get_stats Samples.small_sink) =
    Returned (mkStats 3
                [(KStr "SPARK", 2); (KStr "KAFKA", 1)]
                [(KStr "Open", 3)]
                []
                (JStr "2019-05-01") (JStr "2021-03-04")
                3 2, 3).
Proof. reflexivity. Qed.

(* ===================================================================== *)
(** * Ingestion engine                                                    *)
(* ===================================================================== *)

Lemma item_step_refl :
  forall w, item_step w w.
Proof.
  intros w. unfold item_step. repeat split.
  exists []. split; [reflexivity | constructor].
Qed.

Lemma item_step_trans :
  forall w1 w2 w3, item_step w1 w2 -> item_step w2 w3 -> item_step w1 w3.
Proof.
  intros w1 w2 w3 (Hc & Hs & Hg & n1 & Ht1 & Hf1) (Hc' & Hs' & Hg' & n2 & Ht2 & Hf2).
  unfold item_step. repeat split; try congruence.
  exists (n2 ++ n1). split.
  - rewrite Ht2, Ht1. apply app_assoc.
  - apply Forall_app. split; assumption.
Qed.

Lemma comment_fetch_is_item_step :
  forall k w w',
    only_logged (fetch_event (CommentUrl k)) w w' ->
    item_step w w' /\ output_file w' = output_file w.
Proof.
  intros k w w' (Ho & Hc & Hs & Hg & new & Ht & Hf).
  split; [|assumption].
  unfold item_step. repeat split; try assumption.
  exists new. split; [assumption|].
  eapply Forall_impl; [|exact Hf].
  intros e [->|(seconds & ->)].
  - left. eexists. reflexivity.
  - right. left. eexists. reflexivity.
Qed.

Lemma item_events_not_paging :
  forall events, Forall item_event events -> filter is_paging events = [].
Proof.
  induction 1 as [|e l He _ IH]; [reflexivity|].
  simpl. rewrite IH.
  destruct He as [(k & ->)|[(s & ->)|(r & ->)]]; reflexivity.
Qed.

Lemma appended_app :
  forall later earlier,
    appended (later ++ earlier) = appended earlier ++ appended later.
Proof.
  intros later earlier. unfold appended.
  rewrite rev_app_distr, flat_map_app. reflexivity.
Qed.

Lemma engine_log_app :
  forall later earlier,
    engine_log (later ++ earlier) = engine_log earlier ++ engine_log later.
Proof.
  intros later earlier. unfold engine_log.
  rewrite rev_app_distr, filter_app. reflexivity.
Qed.

(** Fetching writes no record. *)
Lemma fetch_events_append_nothing :
  forall u events, Forall (fetch_event u) events -> appended events = [].
Proof.
  intros u events H. unfold appended.
  apply Forall_rev in H. induction H as [|e l He _ IH]; [reflexivity|].
  cbn [flat_map]. rewrite IH.
  destruct He as [->|(seconds & ->)]; reflexivity.
Qed.

(** Of the per-issue events, the engine log keeps the record writes. *)
Lemma item_events_engine_log :
  forall events,
    Forall item_event events ->
    engine_log events = map EvAppend (appended events).
Proof.
  intros events H. unfold engine_log, appended.
  apply Forall_rev in H. induction H as [|e l He _ IH]; [reflexivity|].
  cbn [filter flat_map]. rewrite map_app, <- IH.
  destruct He as [(k & ->)|[(s & ->)|(r & ->)]]; reflexivity.
Qed.

Lemma extend_app :
  forall lines first second,
    extend lines (first ++ second) = extend (extend lines first) second.
Proof.
  intros lines first second. unfold extend. apply fold_left_app.
Qed.

(** A record written to a file that ends with a newline is a new last
    line; the lines before it are untouched. *)
Lemma append_record_after_newline :
  forall lines record,
    ends_with_newline lines = true ->
    append_record lines record = lines ++ [Parsed record].
Proof.
  induction lines as [|line rest IH]; intros record H; [reflexivity|].
  destruct rest as [|next rest'].
  - destruct line; [reflexivity | reflexivity | discriminate].
  - change (append_record (line :: next :: rest') record)
      with (line :: append_record (next :: rest') record).
    rewrite IH; [reflexivity | exact H].
Qed.

(** After a write the file ends with a newline. *)
Lemma append_record_ends_with_newline :
  forall lines record, ends_with_newline (append_record lines record) = true.
Proof.
  induction lines as [|line rest IH]; intros record; [reflexivity|].
  destruct rest as [|next rest'].
  - destruct line as [j| |[|parsed]]; reflexivity.
  - change (append_record (line :: next :: rest') record)
      with (line :: append_record (next :: rest') record).
    specialize (IH record).
    destruct (append_record (next :: rest') record) as [|l1 r1] eqn:E.
    + destruct rest'; [destruct next|]; discriminate.
    + exact IH.
Qed.

Lemma extend_after_newline :
  forall records lines,
    ends_with_newline lines = true ->
    extend lines records = lines ++ map Parsed records.
Proof.
  induction records as [|record rest IH]; intros lines H.
  - simpl. rewrite app_nil_r. reflexivity.
  - change (extend lines (record :: rest))
      with (extend (append_record lines record) rest).
    rewrite IH by apply append_record_ends_with_newline.
    rewrite (append_record_after_newline lines record H), <- app_assoc.
    reflexivity.
Qed.

(** Whatever the file held, every record after the first is a line of its
    own. *)
Lemma extend_cons :
  forall lines record rest,
    extend lines (record :: rest) = append_record lines record ++ map Parsed rest.
Proof.
  intros lines record rest.
  change (extend lines (record :: rest))
    with (extend (append_record lines record) rest).
  apply extend_after_newline, append_record_ends_with_newline.
Qed.

(** Writing a record leaves every line but the last as it was. *)
Lemma append_record_keeps_front :
  forall lines record,
    exists rest, append_record lines record = removelast lines ++ rest.
Proof.
  induction lines as [|line rest IH]; intros record.
  - exists [Parsed record]. reflexivity.
  - destruct rest as [|next rest'].
    + eexists. cbn [removelast app]. reflexivity.
    + destruct (IH record) as (tail & Htail).
      exists tail.
      change (append_record (line :: next :: rest') record)
        with (line :: append_record (next :: rest') record).
      rewrite Htail. reflexivity.
Qed.

Lemma extend_keeps_front :
  forall lines records,
    exists rest, extend lines records = removelast lines ++ rest.
Proof.
  intros lines [|record records].
  - destruct lines as [|line rest]; [exists []; reflexivity|].
    exists [last (line :: rest) line].
    apply app_removelast_last. discriminate.
  - rewrite extend_cons.
    destruct (append_record_keeps_front lines record) as (rest & ->).
    exists (rest ++ map Parsed records). rewrite app_assoc. reflexivity.
Qed.

Section EngineFacts.

Variable net : nat -> url -> response.
Variable py_str : json -> string.
Variable py_strip : string -> string.

Ltac settle H :=
  eexists; eexists; split; [reflexivity | split; [discriminate | exact H]].

(** [fetch_comments] may raise, never loops, and only logs. *)
Lemma fetch_comments_frame :
  forall k w,
    exists r w',
      fetch_comments net py_strip k w = (r, w') /\
      r <> Diverged /\
      only_logged (fetch_event (CommentUrl k)) w w'.
Proof.
  intros k w. unfold fetch_comments, bind.
  destruct (fetch_with_retry_returns net (CommentUrl k) DEFAULT_RETRIES w)
    as (data & w1 & -> & Hl).
  destruct (negb (truthy data)); [settle Hl|].
  destruct (contains "comments" data) as [[|]|e]; cbn [lift ret raise negb];
    [|settle Hl|settle Hl].
  destruct (getitem data "comments") as [comments|e]; cbn [lift ret raise];
    [|settle Hl].
  destruct (iterate comments) as [items|e]; cbn [lift ret raise]; [|settle Hl].
  destruct (comment_bodies py_strip items) as [bodies|e]; cbn [lift ret raise];
    settle Hl.
Qed.

(** Processing one issue: never loops, leaves checkpoint and status alone,
    logs item events only, and on success has written one record at the
    end of the sink. *)
Lemma write_issue_effect :
  forall issue w,
    exists r w',
      write_issue net py_str py_strip issue w = (r, w') /\
      r <> Diverged /\
      item_step w w' /\
      (r = Returned tt ->
       exists record,
         output_file w' = Some (append_record (lines_of w) record) /\
         forall new, trace w' = new ++ trace w -> appended new = [record]).
Proof.
  intros issue w. unfold write_issue, bind.
  destruct (get issue "key" JNull) as [issue_key|e]; cbn [lift ret raise].
  2:{ eexists; eexists; split; [reflexivity|]. split; [discriminate|].
      split; [apply item_step_refl | discriminate]. }
  destruct (fetch_comments_frame issue_key w) as (r & w1 & -> & Hr & Hl).
  pose proof Hl as (_ & _ & _ & _ & new1 & Ht1 & Hf1).
  apply comment_fetch_is_item_step in Hl. destruct Hl as [Hstep Hout].
  destruct r as [comments|e|]; [| |contradiction].
  2:{ eexists; eexists; split; [reflexivity|]. split; [discriminate|].
      split; [assumption | discriminate]. }
  destruct (extract_fields py_str issue comments) as [cleaned|e]; cbn [lift ret raise].
  2:{ eexists; eexists; split; [reflexivity|]. split; [discriminate|].
      split; [assumption | discriminate]. }
  unfold write_line.
  eexists; eexists; split; [reflexivity|]. split; [discriminate|]. split.
  - eapply item_step_trans; [exact Hstep|].
    unfold item_step. simpl. repeat split.
    exists [EvAppend cleaned]. split; [reflexivity|].
    constructor; [|constructor]. right. right. eexists. reflexivity.
  - intros _. exists cleaned. split.
    + simpl. unfold lines_of. rewrite Hout. reflexivity.
    + intros new Hnew. simpl in Hnew. rewrite Ht1 in Hnew.
      change (EvAppend cleaned :: new1 ++ trace w)
        with ((EvAppend cleaned :: new1) ++ trace w) in Hnew.
      apply app_inv_tail in Hnew. subst new.
      change (EvAppend cleaned :: new1) with ([EvAppend cleaned] ++ new1).
      rewrite appended_app, (fetch_events_append_nothing _ _ Hf1). reflexivity.
Qed.

Lemma for_each_write_issue :
  forall items w,
    exists r w',
      for_each items (write_issue net py_str py_strip) w = (r, w') /\
      r <> Diverged /\
      item_step w w'.
Proof.
  induction items as [|issue rest IH]; intros w.
  - exists (Returned tt), w. split; [reflexivity|].
    split; [discriminate | apply item_step_refl].
  - cbn [for_each]. unfold bind.
    destruct (write_issue_effect issue w) as (r & w1 & -> & Hr & Hstep & _).
    destruct r as [[]|e|]; [| |contradiction].
    + destruct (IH w1) as (r2 & w2 & -> & Hr2 & Hstep2).
      exists r2, w2. split; [reflexivity|]. split; [assumption|].
      eapply item_step_trans; eassumption.
    + eexists; eexists; split; [reflexivity|]. split; [discriminate | assumption].
Qed.

(** A page of issues that all write cleanly is written in full, one record
    per issue, in order. *)
Lemma for_each_writes_cleanly :
  forall items w lines,
    (forall issue, In issue items -> writes_cleanly net py_str py_strip issue) ->
    output_file w = Some lines ->
    exists w' records,
      for_each items (write_issue net py_str py_strip) w = (Returned tt, w') /\
      item_step w w' /\
      output_file w' = Some (extend lines records) /\
      List.length records = List.length items /\
      forall new, trace w' = new ++ trace w -> appended new = records.
Proof.
  induction items as [|issue rest IH]; intros w lines Hclean Hout.
  - exists w, []. split; [reflexivity|]. split; [apply item_step_refl|].
    split; [assumption|]. split; [reflexivity|].
    intros new Hnew. apply (app_inv_tail (trace w) [] new) in Hnew.
    subst new. reflexivity.
  - cbn [for_each]. unfold bind.
    destruct (write_issue_effect issue w) as (r & w1 & Hrun & _ & Hstep & Hrec).
    pose proof (Hclean issue (or_introl eq_refl) w) as Hok.
    rewrite Hrun in Hok. cbn [fst] in Hok. subst r.
    rewrite Hrun.
    destruct (Hrec eq_refl) as (record & Hout1 & Happ1).
    unfold lines_of in Hout1. rewrite Hout in Hout1.
    destruct (IH w1 (append_record lines record))
      as (w2 & records & -> & Hstep2 & Hout2 & Hlen & Happ2).
    + intros i Hi. apply Hclean. right. assumption.
    + assumption.
    + exists w2, (record :: records). split; [reflexivity|].
      split; [eapply item_step_trans; eassumption|].
      split; [exact Hout2|].
      split; [simpl; rewrite Hlen; reflexivity|].
      intros new Hnew.
      destruct Hstep as (_ & _ & _ & n1 & Hn1 & _).
      destruct Hstep2 as (_ & _ & _ & n2 & Hn2 & _).
      rewrite Hn2, Hn1, app_assoc in Hnew. apply app_inv_tail in Hnew.
      subst new. rewrite appended_app, (Happ1 n1 Hn1), (Happ2 n2 Hn2).
      reflexivity.
Qed.

Lemma write_page_effect :
  forall issues w,
    exists r w',
      write_page net py_str py_strip issues w = (r, w') /\
      r <> Diverged /\
      item_step w w'.
Proof.
  intros issues w. unfold write_page, bind, open_append.
  set (w0 := match output_file w with
             | Some _ => w
             | None => set_output (Some []) w
             end).
  assert (H0 : item_step w w0).
  { subst w0. destruct (output_file w); [apply item_step_refl|].
    unfold item_step. simpl. repeat split.
    exists []. split; [reflexivity | constructor]. }
  destruct (iterate issues) as [items|e]; cbn [lift ret raise].
  - destruct (for_each_write_issue items w0) as (r & w1 & -> & Hr & Hstep).
    exists r, w1. split; [reflexivity|]. split; [assumption|].
    eapply item_step_trans; eassumption.
  - eexists; eexists; split; [reflexivity|]. split; [discriminate | assumption].
Qed.

Lemma truthy_len_positive :
  forall x n, truthy x = true -> len x = Ok n -> 1 <= n.
Proof.
  intros x n Ht Hl. destruct x; simpl in Ht, Hl; try discriminate;
    injection Hl as <-.
  - destruct s; [discriminate | simpl; lia].
  - destruct items; [discriminate | simpl List.length; lia].
  - destruct members; [discriminate | simpl List.length; lia].
Qed.

Ltac stops :=
  eexists; eexists; split; [reflexivity|];
  split; [discriminate | intros ? ? Hagain; discriminate Hagain].

(** One turn of the loop never hangs, and when it asks for another turn
    the offset was an integer and has grown by at least one. *)
Lemma page_body_outcome :
  forall project start_at checkpoint w,
    exists r w',
      page_body net py_str py_strip project start_at checkpoint w = (r, w') /\
      r <> Diverged /\
      forall start_at' checkpoint',
        r = Returned (Again start_at' checkpoint') ->
        exists s n, as_int start_at = Some s /\ 1 <= n /\ start_at' = JNum (s + n).
Proof.
  intros project start_at checkpoint w. unfold page_body, bind.
  destruct (fetch_with_retry_returns net (SearchUrl project start_at MAX_RESULTS)
              DEFAULT_RETRIES w) as (data & w1 & -> & _).
  destruct (negb (truthy data)); [stops|].
  destruct (contains "issues" data) as [[|]|e]; cbn [lift ret raise negb];
    [|stops|stops].
  destruct (getitem data "issues") as [issues|e]; cbn [lift ret raise]; [|stops].
  destruct (truthy issues) eqn:Htruthy; cbn [negb]; [|stops].
  destruct (write_page_effect issues w1) as (r & w2 & -> & Hr & _).
  destruct r as [[]|e|]; [|stops|contradiction].
  destruct (len issues) as [n|e] eqn:Hlen; cbn [lift ret raise]; [|stops].
  unfold add_int. destruct (as_int start_at) as [s|] eqn:Hint; cbn [lift ret raise];
    [|stops].
  destruct (setitem checkpoint project (JNum (s + n))) as [checkpoint'|e];
    cbn [lift ret raise]; [|stops].
  unfold save_checkpoint, sleep.
  destruct (get data "total" JNull) as [total|e]; cbn [lift ret raise]; [|stops].
  pose proof (truthy_len_positive issues n Htruthy Hlen) as Hn.
  destruct (truthy total).
  - destruct (py_ge (JNum (s + n)) total) as [[|]|e]; cbn [lift ret raise];
      [stops| |stops].
    eexists; eexists; split; [reflexivity|]. split; [discriminate|].
    intros sa' ck' H. injection H as <- <-. exists s, n. repeat split; assumption.
  - eexists; eexists; split; [reflexivity|]. split; [discriminate|].
    intros sa' ck' H. injection H as <- <-. exists s, n. repeat split; assumption.
Qed.

(** On a response that ends the paging the loop breaks. *)
Lemma page_body_ends :
  forall project start_at checkpoint w,
    ends_paging (net (requests_so_far w) (SearchUrl project start_at MAX_RESULTS)) = true ->
    exists w',
      page_body net py_str py_strip project start_at checkpoint w = (Returned Break, w').
Proof.
  intros project start_at checkpoint w Hend.
  unfold page_body, bind, fetch_with_retry, DEFAULT_RETRIES.
  cbn [fetch_attempts]. unfold bind.
  destruct (net (requests_so_far w) (SearchUrl project start_at MAX_RESULTS))
    as [st body|e] eqn:Hnet; [|discriminate].
  unfold ends_paging in Hend.
  destruct (st =? 404) eqn:H404.
  - apply Z.eqb_eq in H404. subst st.
    rewrite (attempt_once_404 net _ 0 w body Hnet). eexists. reflexivity.
  - simpl in Hend.
    destruct ((200 <=? st) && (st <? 300)) eqn:H2xx; [|discriminate].
    destruct body as [[ | | | | |members]|]; try discriminate.
    destruct (lookup "issues" members) as [[ | | | |[|]| ]|] eqn:Hissues; try discriminate.
    apply andb_true_iff in H2xx. destruct H2xx as [Hlo Hhi].
    apply Z.leb_le in Hlo. apply Z.ltb_lt in Hhi.
    rewrite (attempt_once_settled net _ 0 w st (JObj members) Hnet).
    + destruct members as [|m rest]; [discriminate|].
      cbn [truthy negb contains getitem lift ret]. rewrite Hissues.
      eexists. reflexivity.
    + apply Z.eqb_neq. lia.
    + apply andb_false_iff. left. apply Z.leb_gt. lia.
    + assumption.
Qed.

End EngineFacts.

Section RunFacts.

Variable net : nat -> url -> response.
Variable py_str : json -> string.
Variable py_strip : string -> string.

(** More fuel does not change a run that ended. *)
Lemma scrape_pages_more_fuel :
  forall fuel project start_at checkpoint w r w',
    scrape_pages net py_str py_strip fuel project start_at checkpoint w = (r, w') ->
    r <> Diverged ->
    forall more,
      scrape_pages net py_str py_strip (fuel + more) project start_at checkpoint w = (r, w').
Proof.
  induction fuel as [|fuel IH]; intros project start_at checkpoint w r w' Hrun Hr more.
  - cbn in Hrun. injection Hrun as <- _. contradiction.
  - cbn [scrape_pages Nat.add] in *. unfold bind in *.
    destruct (page_body net py_str py_strip project start_at checkpoint w)
      as [[[|start_at' checkpoint']|e|] w1]; try assumption.
    apply IH; assumption.
Qed.

(** Against a finite source the loop ends, by a break or an exception. *)
Lemma scrape_pages_ends :
  forall bound,
    finite_source net bound ->
    forall fuel project start_at checkpoint w,
      (0 < fuel)%nat ->
      (forall s, as_int start_at = Some s -> (Z.to_nat (bound - s) < fuel)%nat) ->
      fst (scrape_pages net py_str py_strip fuel project start_at checkpoint w) <> Diverged.
Proof.
  intros bound Hfin.
  induction fuel as [|fuel IH]; intros project start_at checkpoint w Hpos Hfuel; [lia|].
  cbn [scrape_pages]. unfold bind.
  destruct (page_body_outcome net py_str py_strip project start_at checkpoint w)
    as (r & w1 & Hrun & Hr & Hagain).
  rewrite Hrun.
  destruct r as [[|start_at' checkpoint']|e|]; cbn [fst]; try discriminate; [|contradiction].
  destruct (Hagain _ _ eq_refl) as (s & n & Hint & Hn & ->).
  assert (Hbelow : s < bound).
  { destruct (Z.lt_ge_cases s bound) as [Hlt|Hge]; [assumption|].
    destruct (page_body_ends net py_str py_strip project start_at checkpoint w) as (w2 & Hbreak).
    - apply (Hfin _ _ _ _ s); assumption.
    - rewrite Hbreak in Hrun. discriminate Hrun. }
  specialize (Hfuel s Hint).
  apply IH.
  - lia.
  - intros s' Hs'. cbn in Hs'. injection Hs' as <-. lia.
Qed.

Lemma scrape_project_more_fuel :
  forall fuel project w r w',
    scrape_project net py_str py_strip fuel project w = (r, w') ->
    r <> Diverged ->
    forall more, scrape_project net py_str py_strip (fuel + more) project w = (r, w').
Proof.
  intros fuel project w r w' Hrun Hr more.
  unfold scrape_project, bind in *.
  destruct (load_checkpoint w) as [[checkpoint|e|] w0]; try assumption.
  destruct (lift (get checkpoint project (JNum 0)) w0) as [[start_at|e|] w1]; try assumption.
  destruct (update_status None (Some project) None w1) as [[[]|e|] w2]; try assumption.
  destruct (scrape_pages net py_str py_strip fuel project start_at checkpoint w2)
    as [[[]|e|] w3] eqn:Hpages.
  - rewrite (scrape_pages_more_fuel fuel project start_at checkpoint w2 _ _ Hpages);
      [assumption | discriminate].
  - rewrite (scrape_pages_more_fuel fuel project start_at checkpoint w2 _ _ Hpages);
      [assumption | discriminate].
  - injection Hrun as <- _. contradiction.
Qed.

Lemma scrape_project_ends :
  forall bound,
    finite_source net bound ->
    forall project w,
      exists fuel, fst (scrape_project net py_str py_strip fuel project w) <> Diverged.
Proof.
  intros bound Hfin project w.
  unfold scrape_project, bind.
  destruct (load_checkpoint w) as [[checkpoint|e|] w0] eqn:Hload.
  2:{ exists 0%nat. discriminate. }
  2:{ unfold load_checkpoint in Hload.
      destruct (output_file w); [destruct (checkpoint_file w) as [c|]|];
        [unfold lift in Hload; destruct (loads c)| |]; discriminate. }
  destruct (get checkpoint project (JNum 0)) as [start_at|e]; cbn [lift ret raise].
  2:{ exists 0%nat. discriminate. }
  assert (Hup : exists w2, update_status None (Some project) None w0 = (Returned tt, w2))
    by (eexists; reflexivity).
  destruct Hup as (w2 & ->).
  exists (S (match as_int start_at with
             | Some s => Z.to_nat (bound - s)
             | None => 0
             end)).
  match goal with
  | |- context [scrape_pages net py_str py_strip ?f project start_at checkpoint w2] =>
      pose proof (scrape_pages_ends bound Hfin f project start_at checkpoint w2) as Hend;
      destruct (scrape_pages net py_str py_strip f project start_at checkpoint w2)
        as [[[]|e|] w3]
  end.
  - discriminate.
  - discriminate.
  - exfalso. apply Hend; [lia | | reflexivity].
    intros s ->. lia.
Qed.

(** Against a finite source the sequence of partitions ends as well. *)
Lemma projects_end :
  forall bound,
    finite_source net bound ->
    forall projects w,
      exists fuel,
        forall more,
          fst (for_each projects (scrape_project net py_str py_strip (fuel + more)) w)
            <> Diverged.
Proof.
  intros bound Hfin.
  induction projects as [|project rest IH]; intros w.
  - exists 0%nat. intros more. discriminate.
  - destruct (scrape_project_ends bound Hfin project w) as (f1 & H1).
    destruct (scrape_project net py_str py_strip f1 project w) as [r w1] eqn:Hrun.
    cbn [fst] in H1.
    destruct (IH w1) as (f2 & H2).
    exists (f1 + f2)%nat. intros more.
    cbn [for_each]. unfold bind.
    rewrite <- Nat.add_assoc.
    rewrite (scrape_project_more_fuel f1 project w r w1 Hrun H1 (f2 + more)).
    destruct r as [[]|e|]; [|discriminate|contradiction].
    replace (f1 + (f2 + more))%nat with (f2 + (f1 + more))%nat by lia.
    apply H2.
Qed.

(** C4. Whenever [run_scraper] ends, with every partition done or with the
    exception some partition raised, the cleanup of its [finally] has run:
    [is_running] is false (start time and current project are cleared too)
    and that status is what the status file holds.  Against a source with
    finitely many items the run does end. *)
Theorem run_scraper_clears_is_running :
  (forall fuel w r w',
      run_scraper net py_str py_strip fuel w = (r, w') ->
      r <> Diverged ->
      is_running (scraping_status w') = false /\
      start_time (scraping_status w') = None /\
      current_project (scraping_status w') = None /\
      status_file w' = Some (scraping_status w')) /\
  (forall bound,
      finite_source net bound ->
      forall w,
        exists fuel, fst (run_scraper net py_str py_strip fuel w) <> Diverged).
Proof.
  split.
  - intros fuel w r w' Hrun Hr.
    unfold run_scraper, try_finally in Hrun.
    destruct (for_each PROJECTS (scrape_project net py_str py_strip fuel) w)
      as [[[]|e|] w1]; cbn in Hrun; injection Hrun as <- <-;
      try contradiction; repeat split.
  - intros bound Hfin w.
    destruct (projects_end bound Hfin PROJECTS w) as (fuel & Hend).
    exists fuel. specialize (Hend 0%nat). rewrite Nat.add_0_r in Hend.
    unfold run_scraper, try_finally.
    destruct (for_each PROJECTS (scrape_project net py_str py_strip fuel) w)
      as [[[]|e|] w1]; cbn; try discriminate.
    contradiction.
Qed.

End RunFacts.

Lemma run_scraper_clears_is_running_witness :
  (is_running (scraping_status Samples.started) = true /\
   fst (run_scraper Samples.three_pages Samples.str_of (fun s => s) 3 Samples.started)
     = Returned tt /\
   is_running (scraping_status
     (snd (run_scraper Samples.three_pages Samples.str_of (fun s => s) 3 Samples.started)))
     = false) /\
  (fst (run_scraper Samples.broken Samples.str_of (fun s => s) 3 Samples.started)
     = Raised AttributeError /\
   is_running (scraping_status
     (snd (run_scraper Samples.broken Samples.str_of (fun s => s) 3 Samples.started)))
     = false).
Proof.
  split.
  - split; [reflexivity|]. split; [vm_compute; reflexivity|].
    apply (proj1 (run_scraper_clears_is_running
                    Samples.three_pages Samples.str_of (fun s => s))
                 3%nat Samples.started
                 (fst (run_scraper Samples.three_pages Samples.str_of (fun s => s) 3
                         Samples.started))).
    + apply surjective_pairing.
    + vm_compute. discriminate.
  - split; [vm_compute; reflexivity|].
    apply (proj1 (run_scraper_clears_is_running
                    Samples.broken Samples.str_of (fun s => s))
                 3%nat Samples.started
                 (fst (run_scraper Samples.broken Samples.str_of (fun s => s) 3
                         Samples.started))).
    + apply surjective_pairing.
    + vm_compute. discriminate.
Defined.

Lemma lookup_store_same :
  forall k v members, lookup k (store k v members) = Some v.
Proof.
  intros k v members. induction members as [|[k' v'] rest IH]; simpl.
  - rewrite String.eqb_refl. reflexivity.
  - destruct (k =? k')%string eqn:Hk; simpl; rewrite Hk; [reflexivity | exact IH].
Qed.

Lemma paging_log_app :
  forall later earlier,
    paging_log (later ++ earlier) = paging_log earlier ++ paging_log later.
Proof.
  intros later earlier. unfold paging_log.
  rewrite rev_app_distr, filter_app. reflexivity.
Qed.

Lemma paging_log_items :
  forall events, Forall item_event events -> paging_log events = [].
Proof.
  intros events H. unfold paging_log.
  apply item_events_not_paging, Forall_rev, H.
Qed.

Section PagingFacts.

Variable net : nat -> url -> response.
Variable py_str : json -> string.
Variable py_strip : string -> string.

(** One turn of the loop on a page that writes cleanly: one search request,
    then the records of the page written to the sink one after the other,
    then the offset advanced by the length of the page and saved; the loop
    breaks when the new offset has reached the reported total and goes on
    otherwise. *)
Lemma page_body_writes_page :
  forall project s members data items t w,
    net (requests_so_far w) (SearchUrl project (JNum s) MAX_RESULTS)
      = Response 200 (Some (JObj data)) ->
    lookup "issues" data = Some (JArr items) ->
    items <> [] ->
    lookup "total" data = Some (JNum t) ->
    t <> 0 ->
    (forall issue, In issue items -> writes_cleanly net py_str py_strip issue) ->
    let start_at' := JNum (s + Z.of_nat (List.length items)) in
    let checkpoint' := JObj (store project start_at' members) in
    exists w' new records,
      page_body net py_str py_strip project (JNum s) (JObj members) w
        = (Returned (if s + Z.of_nat (List.length items) >=? t
                     then Break else Again start_at' checkpoint'), w') /\
      checkpoint_file w' = Some (Parsed checkpoint') /\
      status_file w' = status_file w /\
      scraping_status w' = scraping_status w /\
      output_file w' = Some (extend (lines_of w) records) /\
      List.length records = List.length items /\
      trace w' = new ++ trace w /\
      paging_log new
        = [EvGet (SearchUrl project (JNum s) MAX_RESULTS); EvSaveCheckpoint checkpoint'] /\
      engine_log new
        = EvGet (SearchUrl project (JNum s) MAX_RESULTS)
            :: map EvAppend records ++ [EvSaveCheckpoint checkpoint'].
Proof.
  intros project s members data items t w Hnet Hissues Hitems Htotal Ht Hclean
         start_at' checkpoint'.
  set (u := SearchUrl project (JNum s) MAX_RESULTS) in *.
  assert (Hfetch : fetch_with_retry net u DEFAULT_RETRIES w
                   = (Returned (JObj data), log (EvGet u) w)).
  { unfold fetch_with_retry, DEFAULT_RETRIES. cbn [fetch_attempts]. unfold bind.
    rewrite (attempt_once_settled net u 0 w 200 (JObj data) Hnet eq_refl eq_refl eq_refl).
    reflexivity. }
  assert (Hdata : truthy (JObj data) = true).
  { destruct data; [discriminate | reflexivity]. }
  assert (Hnonempty : truthy (JArr items) = true).
  { destruct items; [contradiction | reflexivity]. }
  assert (Htruthy : truthy (JNum t) = true).
  { simpl. apply negb_true_iff, Z.eqb_neq, Ht. }
  set (w0 := match output_file (log (EvGet u) w) with
             | Some _ => log (EvGet u) w
             | None => set_output (Some []) (log (EvGet u) w)
             end).
  assert (Hout0 : output_file w0 = Some (lines_of w)).
  { subst w0. unfold lines_of, log, set_output. cbn [output_file].
    destruct (output_file w); reflexivity. }
  assert (Hstep0 : checkpoint_file w0 = checkpoint_file w /\
                   status_file w0 = status_file w /\
                   scraping_status w0 = scraping_status w /\
                   trace w0 = EvGet u :: trace w).
  { subst w0. unfold log, set_output. cbn [output_file].
    destruct (output_file w); repeat split. }
  destruct Hstep0 as (Hc0 & Hs0 & Hg0 & Ht0).
  destruct (for_each_writes_cleanly net py_str py_strip items w0 (lines_of w) Hclean Hout0)
    as (w1 & records & Hrun & (Hc1 & Hs1 & Hg1 & new1 & Ht1 & Hitem1)
        & Hout1 & Hlen1 & Happ1).
  eexists. exists (EvSleep 1 :: EvSaveCheckpoint checkpoint' :: new1 ++ [EvGet u]), records.
  split.
  - unfold page_body, bind. fold u. rewrite Hfetch, Hdata.
    cbn [negb contains getitem lift ret]. rewrite Hissues.
    cbn [negb lift ret]. rewrite Hnonempty. cbn [negb].
    unfold write_page, bind, open_append. cbn [iterate lift ret]. fold w0.
    rewrite Hrun.
    cbn [len add_int as_int setitem lift ret]. unfold save_checkpoint, sleep.
    cbn [get]. rewrite Htotal. cbn [lift ret]. rewrite Htruthy.
    fold start_at' checkpoint'.
    unfold py_ge, start_at'. cbn [py_compare as_int rbind lift ret].
    unfold Z.geb.
    destruct (s + Z.of_nat (List.length items) ?= t); reflexivity.
  - simpl. repeat split; try congruence.
    + rewrite Ht1, Ht0. rewrite <- app_assoc. reflexivity.
    + change (EvSleep 1 :: EvSaveCheckpoint checkpoint' :: new1 ++ [EvGet u])
        with ([EvSleep 1; EvSaveCheckpoint checkpoint'] ++ (new1 ++ [EvGet u])).
      rewrite !paging_log_app, (paging_log_items new1 Hitem1). reflexivity.
    + change (EvSleep 1 :: EvSaveCheckpoint checkpoint' :: new1 ++ [EvGet u])
        with ([EvSleep 1; EvSaveCheckpoint checkpoint'] ++ (new1 ++ [EvGet u])).
      rewrite !engine_log_app, (item_events_engine_log new1 Hitem1),
        (Happ1 new1 Ht1).
      reflexivity.
Qed.

(** A sufficient condition for an issue to write cleanly: the normaliser
    accepts it and the comments endpoint knows nothing about it. *)
Lemma writes_cleanly_without_comments :
  forall issue record,
    (forall n k, exists body, net n (CommentUrl k) = Response 404 body) ->
    extract_fields py_str issue [] = Ok record ->
    writes_cleanly net py_str py_strip issue.
Proof.
  intros issue record H404 Hrecord w.
  unfold write_issue, bind.
  destruct issue as [ | | | | |members]; try discriminate Hrecord.
  cbn [get]. destruct (lookup "key" members) as [key|]; cbn [lift ret].
  - unfold fetch_comments, bind, fetch_with_retry, DEFAULT_RETRIES.
    cbn [fetch_attempts]. unfold bind.
    destruct (H404 (requests_so_far w) key) as (body & Hnet).
    rewrite (attempt_once_404 net (CommentUrl key) 0 w body Hnet).
    cbn [truthy negb ret]. rewrite Hrecord. reflexivity.
  - unfold fetch_comments, bind, fetch_with_retry, DEFAULT_RETRIES.
    cbn [fetch_attempts]. unfold bind.
    destruct (H404 (requests_so_far w) JNull) as (body & Hnet).
    rewrite (attempt_once_404 net (CommentUrl JNull) 0 w body Hnet).
    cbn [truthy negb ret]. rewrite Hrecord. reflexivity.
Qed.

(** The same turn, in terms of what the source serves. *)
Lemma page_body_served :
  forall project offset size total members w,
    serves net py_str py_strip project offset size total ->
    1 <= size ->
    total <> 0 ->
    let start_at' := JNum (offset + size) in
    let checkpoint' := JObj (store project start_at' members) in
    exists w' new records,
      page_body net py_str py_strip project (JNum offset) (JObj members) w
        = (Returned (if offset + size >=? total
                     then Break else Again start_at' checkpoint'), w') /\
      checkpoint_file w' = Some (Parsed checkpoint') /\
      status_file w' = status_file w /\
      scraping_status w' = scraping_status w /\
      output_file w' = Some (extend (lines_of w) records) /\
      Z.of_nat (List.length records) = size /\
      trace w' = new ++ trace w /\
      paging_log new
        = [EvGet (SearchUrl project (JNum offset) MAX_RESULTS);
           EvSaveCheckpoint checkpoint'] /\
      engine_log new
        = EvGet (SearchUrl project (JNum offset) MAX_RESULTS)
            :: map EvAppend records ++ [EvSaveCheckpoint checkpoint'].
Proof.
  intros project offset size total members w
         (data & items & Hnet & Hissues & Hsize & Htotal & Hclean) Hpos Hnz.
  assert (Hitems : items <> []).
  { intros ->. simpl in Hsize. lia. }
  destruct (page_body_writes_page project offset members data items total w
              (Hnet _) Hissues Hitems Htotal Hnz Hclean)
    as (w' & new & records & Hrun & Hck & Hsf & Hst & Hout & Hlen & Htr & Hlog & Heng).
  rewrite Hsize in Hrun, Hck, Hlog, Heng.
  exists w', new, records.
  repeat split; try assumption.
  rewrite Hlen. assumption.
Qed.

Lemma load_checkpoint_reads_only :
  forall w, snd (load_checkpoint w) = w.
Proof.
  intros w. unfold load_checkpoint.
  destruct (output_file w); [destruct (checkpoint_file w) as [c|]|];
    [unfold lift; destruct (loads c)| |]; reflexivity.
Qed.

(** C1. A partition that starts at offset zero and whose source serves 25
    issues as pages of 10, 10 and 5 (page size 10, reported total 25, every
    issue written without error) is scraped with exactly three search
    requests, at offsets 0, 10 and 20.  Requests, record writes and
    checkpoint saves happen in this order: the request at 0, the 10 records
    of the first page, the save of offset 10; the request at 10, the 10
    records of the second page, the save of offset 20; the request at 20,
    the 5 records of the last page, the save of offset 25.  So each save
    comes after the last record of its page and before the next request,
    and advances the offset by the length of that page.  The loop then
    ends without a fourth request, the checkpoint file holds 25 for the
    partition, and the sink is the old sink with the 25 records written to
    its end. *)
Theorem scrape_project_three_pages :
  forall project w members fuel,
    fst (load_checkpoint w) = Returned (JObj members) ->
    get (JObj members) project (JNum 0) = Ok (JNum 0) ->
    serves net py_str py_strip project 0 10 25 ->
    serves net py_str py_strip project 10 10 25 ->
    serves net py_str py_strip project 20 5 25 ->
    (3 <= fuel)%nat ->
    exists w' new ck1 ck2 ck3 page1 page2 page3,
      scrape_project net py_str py_strip fuel project w = (Returned tt, w') /\
      trace w' = new ++ trace w /\
      engine_log new
        = EvGet (SearchUrl project (JNum 0) MAX_RESULTS)
            :: map EvAppend page1 ++
          EvSaveCheckpoint (JObj ck1)
            :: EvGet (SearchUrl project (JNum 10) MAX_RESULTS)
            :: map EvAppend page2 ++
          EvSaveCheckpoint (JObj ck2)
            :: EvGet (SearchUrl project (JNum 20) MAX_RESULTS)
            :: map EvAppend page3 ++
          [EvSaveCheckpoint (JObj ck3)] /\
      List.length page1 = 10%nat /\
      List.length page2 = 10%nat /\
      List.length page3 = 5%nat /\
      paging_log new
        = [EvGet (SearchUrl project (JNum 0) MAX_RESULTS); EvSaveCheckpoint (JObj ck1);
           EvGet (SearchUrl project (JNum 10) MAX_RESULTS); EvSaveCheckpoint (JObj ck2);
           EvGet (SearchUrl project (JNum 20) MAX_RESULTS); EvSaveCheckpoint (JObj ck3)] /\
      lookup project ck1 = Some (JNum 10) /\
      lookup project ck2 = Some (JNum 20) /\
      lookup project ck3 = Some (JNum 25) /\
      checkpoint_file w' = Some (Parsed (JObj ck3)) /\
      output_file w' = Some (extend (lines_of w) (page1 ++ page2 ++ page3)).
Proof.
  intros project w members fuel Hload Hstart Hp0 Hp1 Hp2 Hfuel.
  destruct fuel as [|[|[|fuel]]]; try lia.
  set (w0 := snd (update_status None (Some project) None w)).
  destruct (page_body_served project 0 10 25 members w0 Hp0)
    as (w1 & new1 & r1 & Hrun1 & Hck1 & _ & _ & Hout1 & Hlen1 & Htr1 & Hlog1 & Heng1);
    [lia | lia |].
  destruct (page_body_served project 10 10 25
              (store project (JNum 10) members) w1 Hp1)
    as (w2 & new2 & r2 & Hrun2 & Hck2 & _ & _ & Hout2 & Hlen2 & Htr2 & Hlog2 & Heng2);
    [lia | lia |].
  destruct (page_body_served project 20 5 25
              (store project (JNum 20) (store project (JNum 10) members)) w2 Hp2)
    as (w3 & new3 & r3 & Hrun3 & Hck3 & _ & _ & Hout3 & Hlen3 & Htr3 & Hlog3 & Heng3);
    [lia | lia |].
  change (0 + 10) with 10 in *. change (10 + 10) with 20 in *.
  change (20 + 5) with 25 in *.
  change (10 >=? 25) with false in Hrun1. change (20 >=? 25) with false in Hrun2.
  change (25 >=? 25) with true in Hrun3.
  cbv iota in Hrun1, Hrun2, Hrun3.
  exists (snd (update_status None None (Some project) w3)), (new3 ++ new2 ++ new1).
  exists (store project (JNum 10) members).
  exists (store project (JNum 20) (store project (JNum 10) members)).
  exists (store project (JNum 25)
            (store project (JNum 20) (store project (JNum 10) members))).
  exists r1, r2, r3.
  split; [|split; [|split; [|split; [|split; [|split; [|split; [|split;
    [|split; [|split; [|split]]]]]]]]]].
  - unfold scrape_project, bind.
    pose proof (load_checkpoint_reads_only w) as Hsame.
    destruct (load_checkpoint w) as [r wl]. cbn [fst snd] in Hload, Hsame. subst r wl.
    rewrite Hstart. cbn [lift ret].
    change (update_status None (Some project) None w) with (Returned tt, w0).
    cbn [scrape_pages]. unfold bind.
    rewrite Hrun1. cbv beta iota.
    rewrite Hrun2. cbv beta iota.
    rewrite Hrun3. reflexivity.
  - cbn [snd update_status set_status_file set_scraping_status trace].
    rewrite Htr3, Htr2, Htr1. rewrite <- !app_assoc. reflexivity.
  - rewrite !engine_log_app, Heng1, Heng2, Heng3.
    repeat (progress cbn [app] || rewrite <- app_assoc). reflexivity.
  - lia.
  - lia.
  - lia.
  - rewrite !paging_log_app, Hlog1, Hlog2, Hlog3. reflexivity.
  - apply lookup_store_same.
  - apply lookup_store_same.
  - apply lookup_store_same.
  - cbn [snd update_status set_status_file set_scraping_status checkpoint_file].
    exact Hck3.
  - cbn [snd update_status set_status_file set_scraping_status output_file].
    rewrite Hout3. unfold lines_of at 1. rewrite Hout2.
    unfold lines_of at 1. rewrite Hout1.
    unfold lines_of at 1, w0.
    cbn [snd update_status set_status_file set_scraping_status output_file].
    fold (lines_of w). rewrite !extend_app. reflexivity.
Qed.

End PagingFacts.

(** The sample source serves pages whose issues write cleanly. *)
Lemma three_pages_serves :
  forall project offset size,
    Samples.three_pages 0 (SearchUrl project (JNum offset) MAX_RESULTS)
      = Response 200 (Some (Samples.page size)) ->
    serves Samples.three_pages Samples.str_of (fun s => s) project
           offset (Z.of_nat size) 25.
Proof.
  intros project offset size Hnet.
  exists [("issues", JArr (repeat (Samples.issue "X-1") size)); ("total", JNum 25)]%string.
  exists (repeat (Samples.issue "X-1") size).
  split; [intros n; exact Hnet|].
  split; [reflexivity|].
  split; [rewrite repeat_length; reflexivity|].
  split; [reflexivity|].
  intros issue Hin w. apply repeat_spec in Hin. subst issue. reflexivity.
Qed.

Lemma scrape_project_three_pages_witness :
  exists w' new ck1 ck2 ck3 page1 page2 page3,
    scrape_project Samples.three_pages Samples.str_of (fun s => s) 3 "SPARK" Samples.fresh
      = (Returned tt, w') /\
    trace w' = new ++ trace Samples.fresh /\
    engine_log new
      = EvGet (SearchUrl "SPARK" (JNum 0) MAX_RESULTS)
          :: map EvAppend page1 ++
        EvSaveCheckpoint (JObj ck1)
          :: EvGet (SearchUrl "SPARK" (JNum 10) MAX_RESULTS)
          :: map EvAppend page2 ++
        EvSaveCheckpoint (JObj ck2)
          :: EvGet (SearchUrl "SPARK" (JNum 20) MAX_RESULTS)
          :: map EvAppend page3 ++
        [EvSaveCheckpoint (JObj ck3)] /\
    List.length page1 = 10%nat /\
    List.length page2 = 10%nat /\
    List.length page3 = 5%nat /\
    paging_log new
      = [EvGet (SearchUrl "SPARK" (JNum 0) MAX_RESULTS); EvSaveCheckpoint (JObj ck1);
         EvGet (SearchUrl "SPARK" (JNum 10) MAX_RESULTS); EvSaveCheckpoint (JObj ck2);
         EvGet (SearchUrl "SPARK" (JNum 20) MAX_RESULTS); EvSaveCheckpoint (JObj ck3)] /\
    lookup "SPARK" ck1 = Some (JNum 10) /\
    lookup "SPARK" ck2 = Some (JNum 20) /\
    lookup "SPARK" ck3 = Some (JNum 25) /\
    checkpoint_file w' = Some (Parsed (JObj ck3)) /\
    output_file w'
      = Some (extend (lines_of Samples.fresh) (page1 ++ page2 ++ page3)).
Proof.
  apply (scrape_project_three_pages
           Samples.three_pages Samples.str_of (fun s => s) "SPARK" Samples.fresh
           [("SPARK", JNum 0); ("HADOOP", JNum 0); ("KAFKA", JNum 0)]%string 3).
  - reflexivity.
  - reflexivity.
  - apply (three_pages_serves "SPARK" 0 10). reflexivity.
  - apply (three_pages_serves "SPARK" 10 10). reflexivity.
  - apply (three_pages_serves "SPARK" 20 5). reflexivity.
  - apply le_n.
Defined.

(** The same scenario, run: the paging events and the last checkpoint. *)
Example three_pages_run :
  let w' := snd (scrape_project Samples.three_pages Samples.str_of (fun s => s) 3
                   "SPARK" Samples.fresh) in
  map (fun e => match e with
                | EvGet (SearchUrl _ start_at _) => start_at
                | EvSaveCheckpoint state =>
                    match get state "SPARK" JNull with Ok v => v | Err _ => JNull end
                | _ => JNull
                end) (paging_log (trace w'))
    = [JNum 0; JNum 10; JNum 10; JNum 20; JNum 20; JNum 25] /\
  checkpoint_file w'
    = Some (Parsed (JObj [("SPARK", JNum 25); ("HADOOP", JNum 0); ("KAFKA", JNum 0)]%string)) /\
  projects_completed (scraping_status w') = ["SPARK"%string].
Proof. vm_compute. repeat split. Qed.

(** The same scenario, run: the order of requests, record writes and
    saves.  Each save follows the records of its page. *)
Example three_pages_order :
  let w' := snd (scrape_project Samples.three_pages Samples.str_of (fun s => s) 3
                   "SPARK" Samples.fresh) in
  map (fun e => match e with
                | EvGet _ => "get"
                | EvAppend _ => "write"
                | EvSaveCheckpoint _ => "save"
                | EvSleep _ => "sleep"
                end%string) (engine_log (trace w'))
    = (("get"%string :: repeat "write"%string 10 ++ ["save"%string]) ++
       ("get"%string :: repeat "write"%string 10 ++ ["save"%string]) ++
       ("get"%string :: repeat "write"%string 5 ++ ["save"%string]))%list /\
  List.length (lines_of w') = 25%nat.
Proof. vm_compute. split; reflexivity. Qed.

(** A sink whose last line lacks its newline: the first record written is
    glued to that line, which no longer decodes.  Two issues are fetched
    and the checkpoint says 2, while the sink holds two lines of which one
    is counted. *)
Example scrape_project_on_unterminated_sink :
  let w := Samples.unterminated_sink in
  let w' := snd (scrape_project Samples.two_issues Samples.str_of (fun s => s) 3
                   "SPARK" w) in
  parsed_lines (lines_of w) = 1 /\
  saved_offset "SPARK" w' = Some (JNum 2) /\
  List.length (lines_of w') = 2%nat /\
  hd_error (lines_of w') = Some Unparsable /\
  parsed_lines (lines_of w') = 1.
Proof. vm_compute. repeat split. Qed.

(** C5, where the code departs from it.  A comments endpoint that answers
    200 with the JSON number 5, a payload without a comments field, makes
    [fetch_comments] raise TypeError instead of returning the empty list:
    the guard [not data or "comments" not in data] evaluates the membership
    test on the number.  Nothing catches the exception on the way up: the
    partition's run ends with it, before the record of the issue is
    written and before any checkpoint is saved. *)
Example fetch_comments_five :
  fst (fetch_comments Samples.five (fun s => s) (JStr "SPARK-1") Samples.fresh)
    = Raised TypeError /\
  let run := scrape_project Samples.scalar_comments Samples.str_of (fun s => s) 3
               "SPARK" Samples.fresh in
  fst run = Raised TypeError /\
  output_file (snd run) = Some [] /\
  checkpoint_file (snd run) = None.
Proof. vm_compute. repeat split. Qed.

(** A run that fails on its first issue leaves a sink that exists and is
    empty; the statistics route then answers with the zero statistics. *)
Example empty_sink_after_failed_run :
  let w' := snd (run_scraper Samples.broken Samples.str_of (fun s => s) 3 Samples.started) in
  output_file w' = Some [] /\
  fst (get_stats w') = Returned (empty_stats, clock w').
Proof. vm_compute. split; reflexivity. Qed.

(** Resuming with a checkpoint that only knows SPARK: SPARK is asked for
    from offset 10 on, HADOOP from offset 0. *)
Example resume_from_partial_checkpoint :
  let first_request project :=
    hd_error (paging_log (trace (snd (scrape_project Samples.three_pages Samples.str_of
                                        (fun s => s) 3 project
                                        Samples.partial_checkpoint)))) in
  first_request "SPARK"%string = Some (EvGet (SearchUrl "SPARK" (JNum 10) MAX_RESULTS)) /\
  first_request "HADOOP"%string = Some (EvGet (SearchUrl "HADOOP" (JNum 0) MAX_RESULTS)).
Proof. vm_compute. split; reflexivity. Qed.

(* ===================================================================== *)
(** * Further properties: checkpoint store and run status                 *)
(* ===================================================================== *)

(** X1. With the sink in place, what [save_checkpoint] stores is what
    [load_checkpoint] returns next, and the later of two saves wins; the
    save itself leaves sink and status alone. *)
Theorem save_then_load :
  forall w lines first second,
    output_file w = Some lines ->
    let w1 := snd (save_checkpoint first w) in
    let w2 := snd (save_checkpoint second w1) in
    load_checkpoint w1 = (Returned first, w1) /\
    load_checkpoint w2 = (Returned second, w2) /\
    output_file w2 = output_file w /\
    scraping_status w2 = scraping_status w /\
    status_file w2 = status_file w.
Proof.
  intros w lines first second Hsink w1 w2.
  subst w1 w2. unfold save_checkpoint, load_checkpoint. cbn.
  rewrite Hsink. repeat split.
Qed.

Lemma save_then_load_witness :
  let w1 := snd (save_checkpoint (JObj [("SPARK", JNum 30)]%string) Samples.partial_checkpoint) in
  let w2 := snd (save_checkpoint (JObj [("SPARK", JNum 40)]%string) w1) in
  load_checkpoint w1 = (Returned (JObj [("SPARK", JNum 30)]%string), w1) /\
  load_checkpoint w2 = (Returned (JObj [("SPARK", JNum 40)]%string), w2) /\
  output_file w2 = output_file Samples.partial_checkpoint /\
  scraping_status w2 = scraping_status Samples.partial_checkpoint /\
  status_file w2 = status_file Samples.partial_checkpoint.
Proof.
  apply (save_then_load Samples.partial_checkpoint [Parsed (JObj [])]).
  reflexivity.
Defined.

(** X2. [start_scraping] on a world that is not running marks it running,
    stamps the start time, empties the completed list and saves that
    status; a second [start_scraping] is then refused with 409 and changes
    nothing. *)
Theorem start_scraping_refuses_second_start :
  forall w,
    is_running (scraping_status w) = false ->
    exists w1,
      start_scraping w = (Returned tt, w1) /\
      scraping_status w1
        = mkStatus true (Some (clock w)) (current_project (scraping_status w)) [] /\
      status_file w1 = Some (scraping_status w1) /\
      start_scraping w1 = (Raised (HTTPException 409), w1).
Proof.
  intros w Hidle. unfold start_scraping. rewrite Hidle.
  eexists. split; [reflexivity|]. cbn. repeat split.
Qed.

Lemma start_scraping_refuses_second_start_witness :
  exists w1,
    start_scraping Samples.fresh = (Returned tt, w1) /\
    scraping_status w1
      = mkStatus true (Some (clock Samples.fresh))
                 (current_project (scraping_status Samples.fresh)) [] /\
    status_file w1 = Some (scraping_status w1) /\
    start_scraping w1 = (Raised (HTTPException 409), w1).
Proof.
  apply (start_scraping_refuses_second_start Samples.fresh). reflexivity.
Defined.

(** X4. After [reset_scraper], whatever came before, the checkpoint reads as
    all zeros, the statistics and transform routes answer 404, and a new
    run can be started even if the old status said one was running. *)
Theorem reset_gives_fresh_start :
  forall w transformed,
    let w' := snd (reset_scraper w) in
    load_checkpoint w' = (Returned zero_offsets, w') /\
    fst (get_stats w') = Raised (HTTPException 404) /\
    transform_to_jsonl transformed w' = (Raised (HTTPException 404), w', transformed) /\
    fst (start_scraping w') = Returned tt.
Proof.
  intros [out ck sf st t tr] transformed.
  unfold reset_scraper, bind, remove_checkpoint, remove_status, remove_output.
  destruct ck, sf, out; cbn; repeat split.
Qed.

Section RestartFacts.

Variable net : nat -> url -> response.
Variable py_str : json -> string.
Variable py_strip : string -> string.

(** X3. Once a run has ended, with or without an exception, the next
    [start_scraping] is accepted. *)
Theorem run_scraper_allows_restart :
  forall fuel w r w',
    run_scraper net py_str py_strip fuel w = (r, w') ->
    r <> Diverged ->
    exists w'',
      start_scraping w' = (Returned tt, w'') /\
      is_running (scraping_status w'') = true /\
      projects_completed (scraping_status w'') = [].
Proof.
  intros fuel w r w' Hrun Hr.
  unfold run_scraper, try_finally in Hrun.
  destruct (for_each PROJECTS (scrape_project net py_str py_strip fuel) w)
    as [[[]|e|] w1]; cbn in Hrun; injection Hrun as <- <-;
    try contradiction; eexists; repeat split.
Qed.

End RestartFacts.

Lemma run_scraper_allows_restart_witness :
  exists w'',
    start_scraping
      (snd (run_scraper Samples.broken Samples.str_of (fun s => s) 3 Samples.started))
      = (Returned tt, w'') /\
    is_running (scraping_status w'') = true /\
    projects_completed (scraping_status w'') = [].
Proof.
  apply (run_scraper_allows_restart Samples.broken Samples.str_of (fun s => s)
           3%nat Samples.started
           (fst (run_scraper Samples.broken Samples.str_of (fun s => s) 3 Samples.started))).
  - apply surjective_pairing.
  - vm_compute. discriminate.
Defined.

(* ===================================================================== *)
(** * Further properties: retrying fetcher                                *)
(* ===================================================================== *)

Section FetcherMore.

Variable net : nat -> url -> response.

(** What one attempt does, by the kind of response it meets. *)
Lemma attempt_once_by_response :
  forall u attempt w,
    let r := net (requests_so_far w) u in
    attempt_once net u attempt w =
      if rate_limited r then (Returned None, snd (sleep 10 (log (EvGet u) w)))
      else if backs_off r
           then (Returned None, snd (sleep (2 ^ Z.of_nat attempt) (log (EvGet u) w)))
           else (Returned (settles r), log (EvGet u) w).
Proof.
  intros u attempt w r. subst r.
  unfold attempt_once, try_except, bind, http_get.
  destruct (net (requests_so_far w) u) as [st body|e]; cbn [fst snd]; [|reflexivity].
  unfold rate_limited, backs_off, settles.
  destruct (st =? 429); [reflexivity|]. cbn [negb andb orb].
  destruct ((500 <=? st) && (st <? 600)); [reflexivity|]. cbn [orb].
  destruct (st =? 404); [reflexivity|]. cbn [negb andb].
  destruct body; reflexivity.
Qed.

Lemma attempt_once_settles :
  forall u attempt w v,
    settles (net (requests_so_far w) u) = Some v ->
    attempt_once net u attempt w = (Returned (Some v), log (EvGet u) w).
Proof.
  intros u attempt w v Hs.
  rewrite attempt_once_by_response. cbv zeta.
  destruct (net (requests_so_far w) u) as [st body|e]; [|discriminate].
  unfold settles in Hs. unfold rate_limited, backs_off, settles.
  destruct (st =? 429); [discriminate|]. cbn [orb negb andb] in *.
  destruct ((500 <=? st) && (st <? 600)); [discriminate|]. cbn [orb].
  destruct (st =? 404); cbn [negb andb]; [rewrite Hs; reflexivity|].
  destruct body; [rewrite Hs; reflexivity | discriminate].
Qed.

Ltac finish :=
  first [ assumption | lia | congruence
        | let H := fresh in intros H; first [discriminate H | lia | congruence] ].

Lemma fetch_attempts_bounded :
  forall u remaining attempt w,
    exists v w',
      fetch_attempts net u attempt remaining w = (Returned v, w') /\
      (requests_so_far w' <= requests_so_far w + remaining)%nat /\
      (requests_so_far w + match remaining with O => 0 | S _ => 1 end <= requests_so_far w')%nat /\
      (remaining = 0%nat -> v = JNull /\ w' = w) /\
      clock w <= clock w' /\
      output_file w' = output_file w /\
      checkpoint_file w' = checkpoint_file w /\
      status_file w' = status_file w /\
      scraping_status w' = scraping_status w.
Proof.
  intros u remaining.
  induction remaining as [|k IH]; intros attempt w.
  - exists JNull, w. cbn. repeat split; finish.
  - cbn [fetch_attempts]. unfold bind.
    rewrite attempt_once_by_response. cbv zeta.
    assert (Hpow : 0 <= 2 ^ Z.of_nat attempt) by (apply Z.pow_nonneg; lia).
    destruct (rate_limited (net (requests_so_far w) u)).
    { destruct (IH (S attempt) (snd (sleep 10 (log (EvGet u) w))))
        as (v & w' & -> & Hreq & Hmono & _ & Hclock & Ho & Hc & Hs & Hg).
      exists v, w'. unfold requests_so_far in *. cbn in *.
      repeat split; finish. }
    destruct (backs_off (net (requests_so_far w) u)).
    { destruct (IH (S attempt) (snd (sleep (2 ^ Z.of_nat attempt) (log (EvGet u) w))))
        as (v & w' & -> & Hreq & Hmono & _ & Hclock & Ho & Hc & Hs & Hg).
      exists v, w'. unfold requests_so_far in *. cbn in *.
      repeat split; finish. }
    destruct (settles (net (requests_so_far w) u)) as [v|].
    + exists v, (log (EvGet u) w). unfold requests_so_far. cbn.
      repeat split; finish.
    + destruct (IH (S attempt) (log (EvGet u) w))
        as (v & w' & -> & Hreq & Hmono & _ & Hclock & Ho & Hc & Hs & Hg).
      exists v, w'. unfold requests_so_far in *. cbn in *.
      repeat split; finish.
Qed.

(** X5. [fetch_with_retry] always returns a value, never an exception;
    it issues at least one and at most [retries] requests (none when
    [retries] is zero, and then the result is [None]), time only moves
    forward, and files and status are left as they were. *)
Theorem fetch_with_retry_bounded :
  forall u retries w,
    exists v w',
      fetch_with_retry net u retries w = (Returned v, w') /\
      (requests_so_far w' <= requests_so_far w + retries)%nat /\
      (retries = 0%nat -> v = JNull /\ w' = w) /\
      ((0 < retries)%nat -> (requests_so_far w < requests_so_far w')%nat) /\
      clock w <= clock w' /\
      output_file w' = output_file w /\
      checkpoint_file w' = checkpoint_file w /\
      status_file w' = status_file w /\
      scraping_status w' = scraping_status w.
Proof.
  intros u retries w.
  destruct (fetch_attempts_bounded u retries 0 w)
    as (v & w' & Hrun & Hreq & Hmono & Hzero & Hclock & Hfiles).
  exists v, w'. unfold fetch_with_retry.
  split; [exact Hrun|]. split; [exact Hreq|]. split; [exact Hzero|].
  split; [|split; [exact Hclock | exact Hfiles]].
  intros Hpos. destruct retries; lia.
Qed.

Lemma backing_off_clock :
  forall u remaining attempt w,
    (forall i, (i < remaining)%nat -> backs_off (net (requests_so_far w + i) u) = true) ->
    exists w',
      fetch_attempts net u attempt remaining w = (Returned JNull, w') /\
      requests_so_far w' = (requests_so_far w + remaining)%nat /\
      clock w' = clock w + 2 ^ Z.of_nat attempt * (2 ^ Z.of_nat remaining - 1).
Proof.
  intros u remaining. induction remaining as [|k IH]; intros attempt w Hall.
  - exists w. cbn. repeat split; lia.
  - cbn [fetch_attempts]. unfold bind.
    rewrite attempt_once_by_response. cbv zeta.
    pose proof (Hall 0%nat ltac:(lia)) as H0. rewrite Nat.add_0_r in H0.
    assert (Hrl : rate_limited (net (requests_so_far w) u) = false).
    { destruct (net (requests_so_far w) u) as [st body|e]; [|reflexivity].
      cbn in H0 |- *. destruct (st =? 429); [discriminate | reflexivity]. }
    rewrite Hrl, H0.
    destruct (IH (S attempt) (snd (sleep (2 ^ Z.of_nat attempt) (log (EvGet u) w))))
      as (w' & -> & Hreq & Hclock).
    + intros i Hi.
      replace (requests_so_far (snd (sleep (2 ^ Z.of_nat attempt) (log (EvGet u) w))) + i)%nat
        with (requests_so_far w + S i)%nat by (unfold requests_so_far; cbn; lia).
      apply Hall. lia.
    + exists w'. split; [reflexivity|]. split.
      * rewrite Hreq. unfold requests_so_far. cbn. lia.
      * rewrite Hclock. cbn [snd sleep clock log set_clock].
        rewrite !Nat2Z.inj_succ, !Z.pow_succ_r by lia. ring.
Qed.

Lemma rate_limited_clock :
  forall u remaining attempt w,
    (forall i, (i < remaining)%nat -> rate_limited (net (requests_so_far w + i) u) = true) ->
    exists w',
      fetch_attempts net u attempt remaining w = (Returned JNull, w') /\
      requests_so_far w' = (requests_so_far w + remaining)%nat /\
      clock w' = clock w + 10 * Z.of_nat remaining.
Proof.
  intros u remaining. induction remaining as [|k IH]; intros attempt w Hall.
  - exists w. cbn. repeat split; lia.
  - cbn [fetch_attempts]. unfold bind.
    rewrite attempt_once_by_response. cbv zeta.
    pose proof (Hall 0%nat ltac:(lia)) as H0. rewrite Nat.add_0_r in H0.
    rewrite H0.
    destruct (IH (S attempt) (snd (sleep 10 (log (EvGet u) w)))) as (w' & -> & Hreq & Hclock).
    + intros i Hi.
      replace (requests_so_far (snd (sleep 10 (log (EvGet u) w))) + i)%nat
        with (requests_so_far w + S i)%nat by (unfold requests_so_far; cbn; lia).
      apply Hall. lia.
    + exists w'. split; [reflexivity|]. split.
      * rewrite Hreq. unfold requests_so_far. cbn. lia.
      * rewrite Hclock. cbn [snd sleep clock log set_clock]. lia.
Qed.

(** X6. The waiting a failed fetch costs.  When every attempt meets a 5xx,
    a transport exception or an undecodable body, the sleeps are 1, 2, 4,
    ... seconds: [2^retries - 1] in all, 31 seconds for the default five
    attempts.  When every attempt meets a 429 the wait is ten seconds per
    attempt, 50 seconds for five.  Either way the result is [None] after
    exactly [retries] requests. *)
Theorem fetch_with_retry_waits :
  forall u retries w,
    ((forall i, (i < retries)%nat -> backs_off (net (requests_so_far w + i) u) = true) ->
     exists w',
       fetch_with_retry net u retries w = (Returned JNull, w') /\
       requests_so_far w' = (requests_so_far w + retries)%nat /\
       clock w' = clock w + (2 ^ Z.of_nat retries - 1)) /\
    ((forall i, (i < retries)%nat -> rate_limited (net (requests_so_far w + i) u) = true) ->
     exists w',
       fetch_with_retry net u retries w = (Returned JNull, w') /\
       requests_so_far w' = (requests_so_far w + retries)%nat /\
       clock w' = clock w + 10 * Z.of_nat retries).
Proof.
  intros u retries w. unfold fetch_with_retry. split; intros Hall.
  - destruct (backing_off_clock u retries 0 w Hall) as (w' & Hrun & Hreq & Hclock).
    exists w'. repeat split; try assumption.
    rewrite Hclock. cbn [Z.of_nat]. rewrite Z.pow_0_r. lia.
  - apply rate_limited_clock. assumption.
Qed.

(** X7. After [k] retryable outcomes, with attempts to spare, the first
    response that is neither 429 nor 5xx decides the result: [None] for a
    404, and the decoded body for any other status, a 4xx error document
    included.  No request follows it. *)
Theorem fetch_with_retry_settles :
  forall u retries k w v,
    (k < retries)%nat ->
    (forall i, (i < k)%nat -> retryable (net (requests_so_far w + i) u) = true) ->
    settles (net (requests_so_far w + k) u) = Some v ->
    exists w',
      fetch_with_retry net u retries w = (Returned v, w') /\
      requests_so_far w' = (requests_so_far w + k + 1)%nat.
Proof.
  intros u retries k. unfold fetch_with_retry. generalize 0%nat at 1 as attempt.
  revert retries.
  induction k as [|k IH]; intros retries attempt w v Hlt Hpre Hset.
  - destruct retries as [|r]; [lia|].
    cbn [fetch_attempts]. unfold bind.
    rewrite Nat.add_0_r in Hset.
    rewrite (attempt_once_settles u attempt w v Hset).
    eexists. split; [reflexivity|]. unfold requests_so_far. cbn. lia.
  - destruct retries as [|r]; [lia|].
    cbn [fetch_attempts]. unfold bind.
    destruct (attempt_once_retryable net u attempt w) as (w1 & -> & Hreq).
    { specialize (Hpre 0%nat). rewrite Nat.add_0_r in Hpre. apply Hpre. lia. }
    destruct (IH r (S attempt) w1 v) as (w2 & -> & Hreq2).
    + lia.
    + intros i Hi. rewrite Hreq.
      replace (S (requests_so_far w) + i)%nat with (requests_so_far w + S i)%nat by lia.
      apply Hpre. lia.
    + rewrite Hreq.
      replace (S (requests_so_far w) + k)%nat with (requests_so_far w + S k)%nat by lia.
      assumption.
    + exists w2. split; [reflexivity | lia].
Qed.

End FetcherMore.

Lemma fetch_with_retry_waits_witness :
  (exists w',
     fetch_with_retry Samples.down (CommentUrl (JStr "SPARK-1")) 5 Samples.fresh
       = (Returned JNull, w') /\
     requests_so_far w' = (requests_so_far Samples.fresh + 5)%nat /\
     clock w' = clock Samples.fresh + (2 ^ Z.of_nat 5 - 1)) /\
  (exists w',
     fetch_with_retry Samples.throttled (CommentUrl (JStr "SPARK-1")) 5 Samples.fresh
       = (Returned JNull, w') /\
     requests_so_far w' = (requests_so_far Samples.fresh + 5)%nat /\
     clock w' = clock Samples.fresh + 10 * Z.of_nat 5).
Proof.
  split.
  - apply (proj1 (fetch_with_retry_waits Samples.down (CommentUrl (JStr "SPARK-1"))
                    5 Samples.fresh)).
    intros i Hi. reflexivity.
  - apply (proj2 (fetch_with_retry_waits Samples.throttled (CommentUrl (JStr "SPARK-1"))
                    5 Samples.fresh)).
    intros i Hi. reflexivity.
Defined.

Lemma fetch_with_retry_settles_witness :
  exists w',
    fetch_with_retry Samples.forbidden (CommentUrl (JStr "SPARK-1")) 5 Samples.fresh
      = (Returned (JObj [("errorMessages", JArr [JStr "login required"])]%string), w') /\
    requests_so_far w' = (requests_so_far Samples.fresh + 2 + 1)%nat.
Proof.
  apply (fetch_with_retry_settles Samples.forbidden (CommentUrl (JStr "SPARK-1"))
           5 2 Samples.fresh).
  - repeat constructor.
  - intros i Hi. destruct i as [|[|i]]; [reflexivity | reflexivity |].
    exfalso. apply (Nat.nlt_0_r i). do 2 apply Nat.succ_lt_mono. exact Hi.
  - reflexivity.
Defined.

(* ===================================================================== *)
(** * Further properties: comment enricher                                *)
(* ===================================================================== *)

Section EnricherMore.

Variable net : nat -> url -> response.
Variable py_strip : string -> string.

Lemma comment_bodies_of_ok_comments :
  forall items,
    Forall comment_ok items ->
    comment_bodies py_strip items = Ok (map py_strip (flat_map body_of items)).
Proof.
  induction 1 as [|c rest (members & -> & Hbody) _ IH]; [reflexivity|].
  cbn [comment_bodies flat_map body_of get].
  destruct Hbody as [Hb|[Hb|(s & Hb)]]; rewrite Hb; cbn [rbind truthy app].
  - exact IH.
  - exact IH.
  - destruct (s =? EmptyString)%string; cbn [negb app map].
    + exact IH.
    + rewrite IH. reflexivity.
Qed.

Lemma comment_bodies_of_bad_comment :
  forall before c after,
    Forall comment_ok before ->
    comment_bad c ->
    comment_bodies py_strip (before ++ c :: after) = Err AttributeError.
Proof.
  intros before c after Hok Hbad.
  induction Hok as [|c0 rest (members & -> & Hbody) _ IH].
  - cbn [app comment_bodies].
    destruct c as [ | | | | |members]; try reflexivity.
    destruct Hbad as (b & Hb & Htruthy & Hstr).
    cbn [get]. rewrite Hb. cbn [rbind]. rewrite Htruthy.
    destruct b; try reflexivity. exfalso. eapply Hstr. reflexivity.
  - cbn [app comment_bodies get].
    destruct Hbody as [Hb|[Hb|(s & Hb)]]; rewrite Hb; cbn [rbind truthy].
    + exact IH.
    + exact IH.
    + destruct (s =? EmptyString)%string; cbn [negb].
      * exact IH.
      * rewrite IH. reflexivity.
Qed.

(** X8. When the comments document is an object whose ["comments"] is a
    list of comments with string, null or missing bodies, [fetch_comments]
    returns the non-empty bodies, stripped, in the order of the list;
    comments without a body, or with an empty one, are skipped. *)
Theorem fetch_comments_returns_bodies :
  forall issue_key w document items w1,
    fetch_with_retry net (CommentUrl issue_key) DEFAULT_RETRIES w
      = (Returned (JObj document), w1) ->
    lookup "comments" document = Some (JArr items) ->
    Forall comment_ok items ->
    fetch_comments net py_strip issue_key w
      = (Returned (map py_strip (flat_map body_of items)), w1).
Proof.
  intros issue_key w document items w1 Hfetch Hcomments Hok.
  unfold fetch_comments, bind. rewrite Hfetch.
  destruct document as [|m rest]; [discriminate|].
  cbn [truthy negb contains getitem lift ret]. rewrite Hcomments.
  cbn [negb lift ret iterate].
  rewrite (comment_bodies_of_ok_comments items Hok). reflexivity.
Qed.

(** X9. One comment that is not an object, or whose body is truthy and not
    a string, makes [fetch_comments] raise AttributeError, whatever the
    other comments are like after it. *)
Theorem fetch_comments_rejects_odd_body :
  forall issue_key w document before c after w1,
    fetch_with_retry net (CommentUrl issue_key) DEFAULT_RETRIES w
      = (Returned (JObj document), w1) ->
    lookup "comments" document = Some (JArr (before ++ c :: after)) ->
    Forall comment_ok before ->
    comment_bad c ->
    fetch_comments net py_strip issue_key w = (Raised AttributeError, w1).
Proof.
  intros issue_key w document before c after w1 Hfetch Hcomments Hok Hbad.
  unfold fetch_comments, bind. rewrite Hfetch.
  destruct document as [|m rest]; [discriminate|].
  cbn [truthy negb contains getitem lift ret]. rewrite Hcomments.
  cbn [negb lift ret iterate].
  rewrite (comment_bodies_of_bad_comment before c after Hok Hbad). reflexivity.
Qed.

End EnricherMore.

Lemma fetch_comments_returns_bodies_witness :
  exists w1,
    fetch_comments Samples.with_comments (fun s => s) (JStr "SPARK-1") Samples.fresh
      = (Returned [" first "; "second"]%string, w1).
Proof.
  eexists.
  apply (fetch_comments_returns_bodies Samples.with_comments (fun s => s)
           (JStr "SPARK-1") Samples.fresh Samples.comments_document
           [JObj [("body", JStr " first ")]; JObj [("author", JStr "nobody")];
            JObj [("body", JNull)]; JObj [("body", JStr EmptyString)];
            JObj [("body", JStr "second")]]%string).
  - reflexivity.
  - reflexivity.
  - repeat constructor.
    + eexists. split; [reflexivity|]. right. right. eexists. reflexivity.
    + eexists. split; [reflexivity|]. left. reflexivity.
    + eexists. split; [reflexivity|]. right. left. reflexivity.
    + eexists. split; [reflexivity|]. right. right. eexists. reflexivity.
    + eexists. split; [reflexivity|]. right. right. eexists. reflexivity.
Defined.

Lemma fetch_comments_rejects_odd_body_witness :
  exists w1,
    fetch_comments Samples.with_odd_comments (fun s => s) (JStr "SPARK-1") Samples.fresh
      = (Raised AttributeError, w1).
Proof.
  eexists.
  apply (fetch_comments_rejects_odd_body Samples.with_odd_comments (fun s => s)
           (JStr "SPARK-1") Samples.fresh Samples.odd_comments_document
           [JObj [("body", JStr "fine")]]%string
           (JObj [("body", JNum 7)]%string) []).
  - reflexivity.
  - reflexivity.
  - repeat constructor.
    eexists. split; [reflexivity|]. right. right. eexists. reflexivity.
  - exists (JNum 7). repeat split. intros s H. discriminate H.
Defined.

(* ===================================================================== *)
(** * Further properties: record normaliser                               *)
(* ===================================================================== *)

Section NormaliserMore.

Variable py_str : json -> string.

Lemma nested_err :
  forall fields k sub e, nested fields k sub = Err e -> e = AttributeError.
Proof.
  intros fields k sub e H. unfold nested in H.
  apply rbind_err in H. destruct H as [H|(inner & _ & H)]; eapply get_err; eassumption.
Qed.

Lemma display_name_err :
  forall fields k e, display_name fields k = Err e -> e = AttributeError.
Proof.
  intros fields k e H. unfold display_name in H.
  apply rbind_err in H. destruct H as [H|(person & _ & H)].
  - eapply get_err; eassumption.
  - destruct (truthy person); [eapply nested_err; eassumption | discriminate].
Qed.

Lemma extract_fields_err :
  forall issue comments e,
    extract_fields py_str issue comments = Err e -> e = AttributeError.
Proof.
  intros issue comments e H. unfold extract_fields in H.
  repeat (apply rbind_err in H;
          destruct H as [H|(? & _ & H)];
          [first [eapply get_err; eassumption
                 | eapply nested_err; eassumption
                 | eapply display_name_err; eassumption]|]).
  discriminate H.
Qed.

Lemma nested_of_optional_object :
  forall fields k sub,
    absent_or_object (lookup k fields) ->
    exists v, nested (JObj fields) k sub = Ok v.
Proof.
  intros fields k sub [Hnone|(members & Hsome)]; unfold nested; cbn [get].
  - rewrite Hnone. cbn. eexists. reflexivity.
  - rewrite Hsome. cbn. destruct (lookup sub members); eexists; reflexivity.
Qed.

Lemma display_name_of_optional_person :
  forall fields k,
    falsy_or_object (lookup k fields) ->
    exists v, display_name (JObj fields) k = Ok v.
Proof.
  intros fields k H. unfold display_name, nested, falsy_or_object in *. cbn [get].
  destruct (lookup k fields) as [person|]; cbn [rbind].
  - destruct H as [Hfalsy|(members & ->)].
    + rewrite Hfalsy. eexists. reflexivity.
    + destruct (truthy (JObj members)); [|eexists; reflexivity].
      cbn. destruct (lookup "displayName" members); eexists; reflexivity.
  - cbn. eexists. reflexivity.
Qed.

(** X10. Missing fields are tolerated.  For an issue object whose
    ["fields"] is an object (or missing), with project, status and priority
    objects or missing and reporter and assignee objects, falsy or missing,
    [extract_fields] succeeds; the record has the three sections, carries
    the comments as given, takes key, title and labels from the issue with
    null and the empty list as defaults, and replaces a missing or empty
    description by the empty string in the content and by the fixed
    sentence in the answer. *)
Theorem extract_fields_tolerates_missing :
  forall issue members fields comments,
    well_shaped issue members fields ->
    exists record sections,
      extract_fields py_str issue comments = Ok record /\
      record = JObj sections /\
      map fst sections = ["metadata"; "content"; "derived_tasks"]%string /\
      member2 record "content" "comments" = Some (JArr (map JStr comments)) /\
      member2 record "metadata" "key" = Some (member members "key") /\
      member2 record "metadata" "title" = Some (member fields "summary") /\
      member2 record "metadata" "labels"
        = Some (match lookup "labels" fields with Some v => v | None => JArr [] end) /\
      member2 record "content" "description"
        = Some (or_else (member fields "description") (JStr EmptyString)) /\
      (truthy (member fields "description") = false ->
       exists tasks qna,
         lookup "derived_tasks" sections = Some (JObj tasks) /\
         lookup "qna" tasks = Some (JObj qna) /\
         lookup "answer" qna = Some (JStr "No description available.")).
Proof.
  intros issue members fields comments
         (-> & Hfields & Hproject & Hstatus & Hpriority & Hreporter & Hassignee).
  assert (Hget : get (JObj members) "fields" (JObj []) = Ok (JObj fields)).
  { cbn [get]. destruct Hfields as [->|[-> ->]]; reflexivity. }
  destruct (nested_of_optional_object fields "project" "key" Hproject) as (project & Hp).
  destruct (nested_of_optional_object fields "status" "name" Hstatus) as (status & Hs).
  destruct (nested_of_optional_object fields "priority" "name" Hpriority) as (priority & Hq).
  destruct (display_name_of_optional_person fields "reporter" Hreporter) as (reporter & Hr).
  destruct (display_name_of_optional_person fields "assignee" Hassignee) as (assignee & Ha).
  unfold extract_fields. rewrite Hget. cbn [rbind].
  rewrite Hp, Hs, Hq, Hr, Ha. cbn [rbind get]. unfold member.
  destruct (lookup "id" members), (lookup "key" members), (lookup "summary" fields),
    (lookup "labels" fields), (lookup "created" fields), (lookup "updated" fields),
    (lookup "description" fields) as [description|];
    cbn [rbind]; eexists; eexists;
    (split; [reflexivity|]); (split; [reflexivity|]);
    repeat (split; [reflexivity|]);
    intros Hd; unfold or_else; rewrite Hd;
    eexists; eexists; repeat split; reflexivity.
Qed.

(** X11. [extract_fields] fails with AttributeError and nothing else; it
    does so on every issue that is not an object, on a ["fields"] that is
    present and not an object, and on a project, status or priority that is
    present and null, and it does not on a null reporter or assignee. *)
Theorem extract_fields_failures :
  forall comments,
    (forall issue e,
        extract_fields py_str issue comments = Err e -> e = AttributeError) /\
    (forall issue,
        (forall members, issue <> JObj members) ->
        extract_fields py_str issue comments = Err AttributeError) /\
    (forall members fields,
        lookup "fields" members = Some fields ->
        (forall inner, fields <> JObj inner) ->
        extract_fields py_str (JObj members) comments = Err AttributeError) /\
    (forall members fields k,
        lookup "fields" members = Some (JObj fields) ->
        k = "project"%string \/ k = "status"%string \/ k = "priority"%string ->
        lookup k fields = Some JNull ->
        extract_fields py_str (JObj members) comments = Err AttributeError) /\
    (forall fields k,
        lookup k fields = Some JNull ->
        display_name (JObj fields) k = Ok JNull).
Proof.
  intros comments.
  assert (Hfail : forall issue,
             (forall record, extract_fields py_str issue comments <> Ok record) ->
             extract_fields py_str issue comments = Err AttributeError).
  { intros issue Hno.
    destruct (extract_fields py_str issue comments) as [record|e] eqn:Hrun.
    - exfalso. eapply Hno. reflexivity.
    - apply extract_fields_err in Hrun. subst e. reflexivity. }
  split; [intros issue e; apply extract_fields_err|].
  split; [|split; [|split]].
  - intros issue Hnot. apply Hfail. intros record H.
    unfold extract_fields in H. apply rbind_ok in H. destruct H as (fields & Hget & _).
    destruct issue; try discriminate Hget. eapply Hnot. reflexivity.
  - intros members fields Hfields Hnot. apply Hfail. intros record H.
    unfold extract_fields in H.
    apply rbind_ok in H. destruct H as (fields' & Hget & H).
    cbn [get] in Hget. rewrite Hfields in Hget. injection Hget as <-.
    do 3 (apply rbind_ok in H; destruct H as (? & _ & H)).
    apply rbind_ok in H. destruct H as (title & Htitle & _).
    destruct fields; try discriminate Htitle. eapply Hnot. reflexivity.
  - intros members fields k Hfields Hk Hnull. apply Hfail. intros record H.
    unfold extract_fields in H.
    apply rbind_ok in H. destruct H as (fields' & Hget & H).
    cbn [get] in Hget. rewrite Hfields in Hget. injection Hget as <-.
    do 3 (apply rbind_ok in H; destruct H as (? & _ & H)).
    apply rbind_ok in H. destruct H as (project & Hproject & H).
    apply rbind_ok in H. destruct H as (status & Hstatus & H).
    apply rbind_ok in H. destruct H as (priority & Hpriority & _).
    unfold nested in Hproject, Hstatus, Hpriority. cbn [get] in Hproject, Hstatus, Hpriority.
    destruct Hk as [->|[->| ->]].
    + rewrite Hnull in Hproject. discriminate Hproject.
    + rewrite Hnull in Hstatus. discriminate Hstatus.
    + rewrite Hnull in Hpriority. discriminate Hpriority.
  - intros fields k Hnull. unfold display_name. cbn [get]. rewrite Hnull. reflexivity.
Qed.

(** X12. A record that [extract_fields] produced is counted by the
    statistics with the comments it was given: if the scan accepts its
    line, the issue count goes up by one, the comment total by the number
    of comments, and the count of issues with comments by one exactly when
    there are comments. *)
Theorem normalised_record_is_counted :
  forall issue comments record st st',
    extract_fields py_str issue comments = Ok record ->
    scan_line st (Parsed record) = Ok st' ->
    total_issues st' = total_issues st + 1 /\
    total_comments st' = total_comments st + Z.of_nat (List.length comments) /\
    issues_with_comments st' =
      issues_with_comments st + (match comments with [] => 0 | _ :: _ => 1 end).
Proof.
  intros issue comments record st st' Hrecord Hscan.
  unfold extract_fields in Hrecord.
  repeat (apply rbind_ok in Hrecord; destruct Hrecord as (? & _ & Hrecord)).
  injection Hrecord as <-.
  unfold scan_line in Hscan.
  do 10 (apply rbind_ok in Hscan; destruct Hscan as (? & _ & Hscan)).
  apply rbind_ok in Hscan. destruct Hscan as (content & Hcontent & Hscan).
  apply rbind_ok in Hscan. destruct Hscan as (cs & Hcs & Hscan).
  apply rbind_ok in Hscan. destruct Hscan as (n & Hn & Hscan).
  cbn in Hcontent. injection Hcontent as <-.
  cbn in Hcs. injection Hcs as <-.
  cbn [len] in Hn. injection Hn as <-.
  injection Hscan as <-. cbn [total_issues total_comments issues_with_comments].
  rewrite length_map.
  repeat split. destruct comments; cbn; lia.
Qed.

End NormaliserMore.

Lemma extract_fields_tolerates_missing_witness :
  exists record sections,
    extract_fields Samples.str_of Samples.plain_issue ["looks bad"]%string = Ok record /\
    record = JObj sections /\
    map fst sections = ["metadata"; "content"; "derived_tasks"]%string /\
    member2 record "content" "comments" = Some (JArr (map JStr ["looks bad"]%string)) /\
    member2 record "metadata" "key"
      = Some (member [("id", JStr "10"); ("key", JStr "SPARK-7")]%string "key") /\
    member2 record "metadata" "title"
      = Some (member [("summary", JStr "Crash on start")]%string "summary") /\
    member2 record "metadata" "labels" = Some (JArr []) /\
    member2 record "content" "description" = Some (JStr EmptyString) /\
    (truthy JNull = false ->
     exists tasks qna,
       lookup "derived_tasks" sections = Some (JObj tasks) /\
       lookup "qna" tasks = Some (JObj qna) /\
       lookup "answer" qna = Some (JStr "No description available.")).
Proof.
  apply (extract_fields_tolerates_missing Samples.str_of Samples.plain_issue
           [("id", JStr "10"); ("key", JStr "SPARK-7");
            ("fields", JObj [("summary", JStr "Crash on start");
                             ("project", JObj [("key", JStr "SPARK")]);
                             ("reporter", JObj [("displayName", JStr "Ada")]);
                             ("assignee", JNull);
                             ("created", JStr "2020-01-02")])]%string
           [("summary", JStr "Crash on start");
            ("project", JObj [("key", JStr "SPARK")]);
            ("reporter", JObj [("displayName", JStr "Ada")]);
            ("assignee", JNull);
            ("created", JStr "2020-01-02")]%string
           ["looks bad"]%string).
  unfold well_shaped. split; [reflexivity|]. split; [left; reflexivity|].
  split; [right; eexists; reflexivity|].
  split; [left; reflexivity|].
  split; [left; reflexivity|].
  split; [right; eexists; reflexivity|].
  left. reflexivity.
Defined.

Lemma extract_fields_failures_witness :
  extract_fields Samples.str_of (JNum 5) [] = Err AttributeError /\
  extract_fields Samples.str_of Samples.null_priority_issue [] = Err AttributeError /\
  display_name (JObj [("assignee", JNull)]%string) "assignee" = Ok JNull.
Proof.
  destruct (extract_fields_failures Samples.str_of []) as (_ & Hscalar & _ & Hnull & Hperson).
  split; [|split].
  - apply Hscalar. intros members H. discriminate H.
  - apply (Hnull [("key", JStr "SPARK-8"); ("fields", JObj [("priority", JNull)])]%string
                 [("priority", JNull)]%string "priority"%string).
    + reflexivity.
    + right. right. reflexivity.
    + reflexivity.
  - apply Hperson. reflexivity.
Defined.

Lemma normalised_record_is_counted_witness :
  exists record st',
    extract_fields Samples.str_of Samples.plain_issue ["a"; "b"]%string = Ok record /\
    scan_line empty_stats (Parsed record) = Ok st' /\
    total_issues st' = total_issues empty_stats + 1 /\
    total_comments st' = total_comments empty_stats + Z.of_nat (List.length ["a"; "b"]%string) /\
    issues_with_comments st' = issues_with_comments empty_stats + 1.
Proof.
  eexists. eexists.
  split; [reflexivity|]. split; [reflexivity|].
  eapply (normalised_record_is_counted Samples.str_of Samples.plain_issue
            ["a"; "b"]%string); reflexivity.
Defined.

(* ===================================================================== *)
(** * Further properties: statistics and transform routes                 *)
(* ===================================================================== *)

(** X13. Lines of the sink that do not parse have no effect on the
    statistics: the scan gives what it gives on the file with those lines
    removed, result or exception. *)
Theorem scan_skips_unparsable_lines :
  forall lines st,
    scan st lines = scan st (filter parses lines).
Proof.
  induction lines as [|line rest IH]; intros st; [reflexivity|].
  cbn [filter]. destruct (parses line) eqn:Hparses; cbn [scan].
  - destruct (scan_line st line) as [st'|e]; cbn [rbind]; [apply IH | reflexivity].
  - unfold scan_line. unfold parses in Hparses.
    destruct (loads line); [discriminate|]. cbn [rbind]. apply IH.
Qed.

Lemma bump_total :
  forall k counter, counter_total (bump k counter) = counter_total counter + 1.
Proof.
  intros k counter. unfold counter_total.
  induction counter as [|[k' n] rest IH]; cbn [bump fold_right snd].
  - lia.
  - destruct (key_eqb k k'); cbn [fold_right snd]; lia.
Qed.

Lemma count_if_truthy_total :
  forall v counter counter',
    count_if_truthy v counter = Ok counter' ->
    counter_total counter <= counter_total counter' <= counter_total counter + 1.
Proof.
  intros v counter counter' H. unfold count_if_truthy in H.
  destruct (truthy v).
  - apply rbind_ok in H. destruct H as (k & _ & H). injection H as <-.
    rewrite bump_total. lia.
  - injection H as <-. lia.
Qed.

Lemma tighten_not_null :
  forall cmp created bound r,
    truthy created = true ->
    tighten cmp created bound = Ok r ->
    r <> JNull.
Proof.
  intros cmp created bound r Hcreated H. unfold tighten in H.
  assert (Hc : created <> JNull) by (intros ->; discriminate Hcreated).
  destruct bound as [ |flag|n|s|items|members];
    try (injection H as <-; exact Hc);
    (apply rbind_ok in H; destruct H as (smaller & _ & H); injection H as <-;
     destruct smaller; [exact Hc | discriminate]).
Qed.

Lemma scan_line_consistent :
  forall st line st',
    stats_consistent st ->
    scan_line st line = Ok st' ->
    stats_consistent st'.
Proof.
  intros st line st' (Hwith & Hcomments & Hp & Hs & Hq & Hdates) H.
  unfold scan_line in H.
  destruct (loads line) as [issue|];
    [|injection H as <-; repeat split; solve [lia | apply Hdates]].
  apply rbind_ok in H. destruct H as (metadata & _ & H).
  apply rbind_ok in H. destruct H as (project & _ & H).
  apply rbind_ok in H. destruct H as (projects & Hprojects & H).
  apply rbind_ok in H. destruct H as (status & _ & H).
  apply rbind_ok in H. destruct H as (statuses & Hstatuses & H).
  apply rbind_ok in H. destruct H as (priority & _ & H).
  apply rbind_ok in H. destruct H as (priorities & Hpriorities & H).
  apply rbind_ok in H. destruct H as (created & _ & H).
  apply rbind_ok in H. destruct H as (earliest' & Hearliest & H).
  apply rbind_ok in H. destruct H as (latest' & Hlatest & H).
  apply rbind_ok in H. destruct H as (content & _ & H).
  apply rbind_ok in H. destruct H as (comments & _ & H).
  apply rbind_ok in H. destruct H as (n & Hn & H).
  injection H as <-.
  apply count_if_truthy_total in Hprojects, Hstatuses, Hpriorities.
  assert (Hlen : 0 <= n /\ (truthy comments = true -> 1 <= n)).
  { split; [|intros Ht; eapply truthy_len_positive; eassumption].
    destruct comments; cbn in Hn; try discriminate; injection Hn as <-; lia. }
  destruct Hlen as [Hn0 Hn1].
  unfold stats_consistent.
  cbn [total_issues by_project by_status by_priority earliest latest
       total_comments issues_with_comments].
  assert (Hdates' : earliest' = JNull <-> latest' = JNull).
  { destruct (truthy created) eqn:Hcreated.
    - pose proof (tighten_not_null _ _ _ _ Hcreated Hearliest).
      pose proof (tighten_not_null _ _ _ _ Hcreated Hlatest).
      split; intros; contradiction.
    - injection Hearliest as <-. injection Hlatest as <-. exact Hdates. }
  destruct (truthy comments).
  - specialize (Hn1 eq_refl). repeat split; solve [lia | apply Hdates'].
  - repeat split; solve [lia | apply Hdates'].
Qed.

Lemma scan_consistent :
  forall lines st st',
    stats_consistent st -> scan st lines = Ok st' -> stats_consistent st'.
Proof.
  induction lines as [|line rest IH]; intros st st' Hst H; cbn [scan] in H.
  - injection H as <-. exact Hst.
  - apply rbind_ok in H. destruct H as (st1 & H1 & H).
    eapply IH; [|exact H]. eapply scan_line_consistent; eassumption.
Qed.

(** X14. Whatever the sink holds, the statistics [get_stats] returns hang
    together: the issues with comments are at most the issues and at most
    the comments, each of the three breakdowns adds up to at most the
    number of issues, and the date range has both ends or none. *)
Theorem get_stats_consistent :
  forall w st now,
    fst (get_stats w) = Returned (st, now) ->
    stats_consistent st.
Proof.
  intros w st now H.
  unfold get_stats, bind, calculate_stats in H.
  destruct (output_file w) as [lines|]; [|discriminate H].
  unfold bind in H.
  destruct (scan empty_stats lines) as [st0|e] eqn:Hscan; cbn in H; [|discriminate H].
  injection H as <- _.
  eapply scan_consistent; [|exact Hscan].
  unfold stats_consistent. cbn. repeat split; lia.
Qed.

Lemma get_stats_consistent_witness :
  stats_consistent
    (mkStats 3 [(KStr "SPARK", 2); (KStr "KAFKA", 1)] [(KStr "Open", 3)] []
             (JStr "2019-05-01") (JStr "2021-03-04") 3 2).
Proof.
  apply (get_stats_consistent Samples.small_sink _ 3). reflexivity.
Defined.

Lemma loads_err :
  forall line e, loads line = Err e -> e = JSONDecodeError.
Proof.
  intros [j| |[|[j|]]] e H; try discriminate H; injection H as <-; reflexivity.
Qed.

Lemma transform_lines_prefix :
  forall lines written,
    snd (transform_lines lines written) = written ++ parsable_prefix lines /\
    fst (transform_lines lines written) =
      if forallb parses lines then Ok tt else Err JSONDecodeError.
Proof.
  induction lines as [|line rest IH]; intros written.
  - cbn. rewrite app_nil_r. split; reflexivity.
  - cbn [transform_lines parsable_prefix forallb]. unfold parses at 1.
    destruct (loads line) as [issue|e] eqn:Hline.
    + destruct (IH (written ++ [Parsed issue])) as [Hsnd Hfst].
      rewrite Hsnd, Hfst, <- app_assoc. split; reflexivity.
    + apply loads_err in Hline. subst e.
      cbn. rewrite app_nil_r. split; reflexivity.
Qed.

Lemma parsable_prefix_all :
  forall lines,
    forallb parses lines = true -> parsable_prefix lines = map finish lines.
Proof.
  induction lines as [|line rest IH]; [reflexivity|].
  cbn [forallb parsable_prefix map]. intros H.
  apply andb_true_iff in H. destruct H as [Hline Hrest].
  rewrite (IH Hrest).
  destruct line as [j| |[|[j|]]]; try discriminate Hline; reflexivity.
Qed.

Lemma finish_newline :
  forall lines,
    (forall f, ~ In (Unfinished f) lines) -> map finish lines = lines.
Proof.
  induction lines as [|line rest IH]; intros H; [reflexivity|].
  cbn [map]. rewrite IH by (intros f Hf; apply (H f); right; exact Hf).
  destruct line as [j| |f]; [reflexivity | reflexivity |].
  exfalso. apply (H f). left. reflexivity.
Qed.

Lemma parsable_prefix_some :
  forall lines,
    forallb parses lines = false ->
    (List.length (parsable_prefix lines) < List.length lines)%nat.
Proof.
  induction lines as [|line rest IH]; [discriminate|].
  cbn [forallb parsable_prefix]. unfold parses at 1.
  destruct (loads line); cbn [andb List.length]; intros H;
    [specialize (IH H) |]; lia.
Qed.

(** X15. [transform_to_jsonl] answers 404 and writes nothing when the sink
    is absent.  Otherwise it leaves the sink as it is and overwrites the
    transformed file with the lines of the sink up to the first one that
    does not parse: with the whole sink when every line parses (a last
    line that lacked its newline is written with one), and then the call
    succeeds; with a proper part of it otherwise, and then the call raises
    JSONDecodeError, where the statistics would have skipped the line. *)
Theorem transform_copies_parsable_prefix :
  forall w transformed,
    (output_file w = None ->
     transform_to_jsonl transformed w = (Raised (HTTPException 404), w, transformed)) /\
    (forall lines,
        output_file w = Some lines ->
        snd (transform_to_jsonl transformed w) = Some (parsable_prefix lines) /\
        snd (fst (transform_to_jsonl transformed w)) = w /\
        (forallb parses lines = true ->
         parsable_prefix lines = map finish lines /\
         ((forall f, ~ In (Unfinished f) lines) -> parsable_prefix lines = lines) /\
         fst (fst (transform_to_jsonl transformed w))
           = Returned (TRANSFORMED_FILE, clock w)) /\
        (forallb parses lines = false ->
         (List.length (parsable_prefix lines) < List.length lines)%nat /\
         fst (fst (transform_to_jsonl transformed w)) = Raised JSONDecodeError)).
Proof.
  intros w transformed. split.
  - intros Hsink. unfold transform_to_jsonl. rewrite Hsink. reflexivity.
  - intros lines Hsink. unfold transform_to_jsonl. rewrite Hsink.
    destruct (transform_lines_prefix lines []) as [Hsnd Hfst].
    destruct (transform_lines lines []) as [r written]. cbn [fst snd] in Hsnd, Hfst.
    cbn [app] in Hsnd. subst written r.
    pose proof (parsable_prefix_all lines) as Hall.
    pose proof (parsable_prefix_some lines) as Hsome.
    destruct (forallb parses lines); cbn [fst snd].
    + split; [reflexivity|]. split; [reflexivity|]. split.
      * intros _. split; [apply Hall; reflexivity|].
        split; [|reflexivity].
        intros Hnewlines. rewrite (Hall eq_refl). apply finish_newline, Hnewlines.
      * intros H. discriminate H.
    + split; [reflexivity|]. split; [reflexivity|]. split.
      * intros H. discriminate H.
      * intros _. split; [apply Hsome; reflexivity | reflexivity].
Qed.

Lemma transform_copies_parsable_prefix_witness :
  transform_to_jsonl None Samples.fresh
    = (Raised (HTTPException 404), Samples.fresh, None) /\
  snd (transform_to_jsonl None Samples.small_sink)
    = Some [Parsed (Samples.record "SPARK" "2020-01-02" [JStr "a"; JStr "b"])] /\
  fst (fst (transform_to_jsonl None Samples.small_sink)) = Raised JSONDecodeError.
Proof.
  destruct (transform_copies_parsable_prefix Samples.fresh None) as [Habsent _].
  destruct (transform_copies_parsable_prefix Samples.small_sink None) as [_ Hcopy].
  destruct (Hcopy _ eq_refl) as (Hfile & _ & _ & Hfail).
  split; [exact (Habsent eq_refl)|].
  split; [exact Hfile|].
  exact (proj2 (Hfail eq_refl)).
Defined.

(* ===================================================================== *)
(** * Further properties: ingestion engine                                *)
(* ===================================================================== *)

Lemma lookup_store_other :
  forall k q v members,
    q <> k -> lookup q (store k v members) = lookup q members.
Proof.
  intros k q v members Hq. induction members as [|[k' v'] rest IH]; cbn.
  - apply String.eqb_neq in Hq. rewrite Hq. reflexivity.
  - destruct (k =? k')%string eqn:Hk; cbn.
    + apply String.eqb_eq in Hk. subst k'.
      apply String.eqb_neq in Hq. rewrite Hq. reflexivity.
    + destruct (q =? k')%string; [reflexivity | exact IH].
Qed.

Lemma lines_of_same :
  forall w w', output_file w' = output_file w -> lines_of w' = lines_of w.
Proof.
  intros w w' H. unfold lines_of. rewrite H. reflexivity.
Qed.


Section EngineMore.

Variable net : nat -> url -> response.
Variable py_str : json -> string.
Variable py_strip : string -> string.

(** What processing one issue does to the sink: one record written to its
    end when it returns, nothing when it raises. *)
Lemma write_issue_sink :
  forall issue w r w',
    write_issue net py_str py_strip issue w = (r, w') ->
    r <> Diverged /\
    item_step w w' /\
    ((r = Returned tt /\ exists record, lines_of w' = append_record (lines_of w) record) \/
     (exists e, r = Raised e /\ output_file w' = output_file w)).
Proof.
  intros issue w r w' H. unfold write_issue, bind in H.
  destruct (get issue "key" JNull) as [issue_key|e]; cbn [lift ret raise] in H.
  2:{ injection H as <- <-. split; [discriminate|].
      split; [apply item_step_refl|]. right. eexists. split; reflexivity. }
  destruct (fetch_comments_frame net py_strip issue_key w) as (r0 & w1 & Hf & Hr0 & Hl).
  rewrite Hf in H.
  apply comment_fetch_is_item_step in Hl. destruct Hl as [Hstep Hout].
  destruct r0 as [comments|e|]; [| |contradiction].
  2:{ injection H as <- <-. split; [discriminate|].
      split; [assumption|]. right. eexists. split; [reflexivity | assumption]. }
  destruct (extract_fields py_str issue comments) as [cleaned|e]; cbn [lift ret raise] in H.
  2:{ injection H as <- <-. split; [discriminate|].
      split; [assumption|]. right. eexists. split; [reflexivity | assumption]. }
  unfold write_line in H. injection H as <- <-.
  split; [discriminate|]. split.
  - eapply item_step_trans; [exact Hstep|].
    unfold item_step. cbn. repeat split.
    exists [EvAppend cleaned]. split; [reflexivity|].
    constructor; [|constructor]. right. right. eexists. reflexivity.
  - left. split; [reflexivity|]. exists cleaned.
    unfold lines_of. cbn. rewrite Hout. reflexivity.
Qed.

(** The issues of a page are written in order until one raises. *)
Lemma for_each_sink :
  forall items w r w',
    for_each items (write_issue net py_str py_strip) w = (r, w') ->
    r <> Diverged /\
    item_step w w' /\
    exists more,
      lines_of w' = extend (lines_of w) more /\
      ((r = Returned tt /\ List.length more = List.length items) \/
       (exists e, r = Raised e /\ (List.length more < List.length items)%nat)).
Proof.
  induction items as [|issue rest IH]; intros w r w' H.
  - cbn in H. injection H as <- <-. split; [discriminate|].
    split; [apply item_step_refl|]. exists [].
    split; [reflexivity|]. left. split; reflexivity.
  - cbn [for_each] in H. unfold bind in H.
    destruct (write_issue net py_str py_strip issue w) as [r1 w1] eqn:H1.
    destruct (write_issue_sink issue w r1 w1 H1) as (Hr1 & Hstep1 & Hcase).
    destruct Hcase as [[-> (record & Hlines)]|(e & -> & Hout)].
    + destruct (IH w1 r w' H) as (Hr & Hstep & more & Hmore & Hcount).
      split; [assumption|]. split; [eapply item_step_trans; eassumption|].
      exists (record :: more). split.
      * rewrite Hmore, Hlines. reflexivity.
      * destruct Hcount as [[-> Hlen]|(e & -> & Hlen)].
        -- left. split; [reflexivity|]. cbn. rewrite Hlen. reflexivity.
        -- right. exists e. split; [reflexivity|]. cbn. lia.
    + injection H as <- <-. split; [discriminate|]. split; [assumption|].
      exists []. split; [apply lines_of_same; assumption|].
      right. exists e. split; [reflexivity|]. cbn. lia.
Qed.

Lemma write_page_sink :
  forall issues w r w',
    write_page net py_str py_strip issues w = (r, w') ->
    r <> Diverged /\
    item_step w w' /\
    exists more,
      lines_of w' = extend (lines_of w) more /\
      (r = Returned tt ->
       truthy issues = true ->
       exists items, issues = JArr items /\ List.length more = List.length items).
Proof.
  intros issues w r w' H. unfold write_page, bind, open_append in H.
  set (w0 := match output_file w with
             | Some _ => w
             | None => set_output (Some []) w
             end) in H.
  assert (H0 : item_step w w0 /\ lines_of w0 = lines_of w).
  { subst w0. unfold lines_of. destruct (output_file w) eqn:Ho.
    - split; [apply item_step_refl|]. rewrite Ho. reflexivity.
    - split; [|reflexivity]. unfold item_step. cbn. repeat split.
      exists []. split; [reflexivity | constructor]. }
  destruct H0 as [Hstep0 Hlines0].
  destruct (iterate issues) as [items|e] eqn:Hiter; cbn [lift ret raise] in H.
  - destruct (for_each_sink items w0 r w' H) as (Hr & Hstep & more & Hmore & Hcount).
    split; [assumption|]. split; [eapply item_step_trans; eassumption|].
    exists more. split; [rewrite Hmore, Hlines0; reflexivity|].
    intros -> Htruthy.
    destruct Hcount as [[_ Hlen]|(e & He & _)]; [|discriminate He].
    destruct issues as [ | | |s|elements|members]; try discriminate Hiter.
    + exfalso. cbn in Hiter. injection Hiter as <-.
      destruct s as [|c s]; [discriminate Htruthy|].
      cbn in H. unfold bind, write_issue, bind in H. cbn in H. discriminate H.
    + cbn in Hiter. injection Hiter as <-. exists elements. split; [reflexivity | exact Hlen].
    + exfalso. cbn in Hiter. injection Hiter as <-.
      destruct members as [|[k v] rest]; [discriminate Htruthy|].
      cbn in H. unfold bind, write_issue, bind in H. cbn in H. discriminate H.
  - injection H as <- <-. split; [discriminate|]. split; [assumption|].
    exists []. split; [assumption|].
    intros H. discriminate H.
Qed.

(** One turn of the loop, in full: either nothing was saved, and then the
    turn was a break or an exception, or the records of one page were
    appended and the checkpoint was saved with the offset advanced by their
    number. *)
Lemma page_body_effect :
  forall project start_at checkpoint w r w',
    page_body net py_str py_strip project start_at checkpoint w = (r, w') ->
    r <> Diverged /\
    status_file w' = status_file w /\
    scraping_status w' = scraping_status w /\
    exists more,
      lines_of w' = extend (lines_of w) more /\
      ((checkpoint_file w' = checkpoint_file w /\
        (forall sa ck, r <> Returned (Again sa ck)) /\
        (r = Returned Break -> more = [])) \/
       (exists s members,
           as_int start_at = Some s /\
           checkpoint = JObj members /\
           (1 <= List.length more)%nat /\
           checkpoint_file w'
             = Some (Parsed (JObj (store project
                                     (JNum (s + Z.of_nat (List.length more))) members))) /\
           (r = Returned Break \/
            r = Returned (Again (JNum (s + Z.of_nat (List.length more)))
                                (JObj (store project
                                         (JNum (s + Z.of_nat (List.length more))) members))) \/
            exists e, r = Raised e))).
Proof.
  intros project start_at checkpoint w r w' H. unfold page_body, bind in H.
  destruct (fetch_with_retry_returns net (SearchUrl project start_at MAX_RESULTS)
              DEFAULT_RETRIES w) as (data & w1 & Hf & (Ho1 & Hc1 & Hs1 & Hg1 & _)).
  rewrite Hf in H.
  assert (Hnothing : forall t,
             (forall sa ck, t <> Returned (Again sa ck)) ->
             t <> Diverged ->
             (t, w1) = (r, w') ->
             r <> Diverged /\
             status_file w' = status_file w /\
             scraping_status w' = scraping_status w /\
             exists more,
               lines_of w' = extend (lines_of w) more /\
               ((checkpoint_file w' = checkpoint_file w /\
                 (forall sa ck, r <> Returned (Again sa ck)) /\
                 (r = Returned Break -> more = [])) \/
                (exists s members,
                    as_int start_at = Some s /\
                    checkpoint = JObj members /\
                    (1 <= List.length more)%nat /\
                    checkpoint_file w'
                      = Some (Parsed (JObj (store project
                                (JNum (s + Z.of_nat (List.length more))) members))) /\
                    (r = Returned Break \/
                     r = Returned (Again (JNum (s + Z.of_nat (List.length more)))
                                    (JObj (store project
                                       (JNum (s + Z.of_nat (List.length more))) members))) \/
                     exists e, r = Raised e)))).
  { intros t Ht Hd Heq. injection Heq as <- <-.
    split; [assumption|]. split; [assumption|]. split; [assumption|].
    exists []. split; [apply lines_of_same; assumption|].
    left. split; [assumption|]. split; [assumption | intros _; reflexivity]. }
  destruct (negb (truthy data));
    [refine (Hnothing _ _ _ H); [intros ? ? Hx; discriminate Hx | discriminate]|].
  destruct (contains "issues" data) as [[|]|e]; cbn [lift ret raise negb] in H;
    try (refine (Hnothing _ _ _ H); [intros ? ? Hx; discriminate Hx | discriminate]).
  destruct (getitem data "issues") as [issues|e]; cbn [lift ret raise] in H;
    try (refine (Hnothing _ _ _ H); [intros ? ? Hx; discriminate Hx | discriminate]).
  destruct (truthy issues) eqn:Htruthy; cbn [negb] in H;
    try (refine (Hnothing _ _ _ H); [intros ? ? Hx; discriminate Hx | discriminate]).
  clear Hnothing.
  destruct (write_page net py_str py_strip issues w1) as [rp w2] eqn:Hwp.
  destruct (write_page_sink issues w1 rp w2 Hwp)
    as (Hrp & (Hc2 & Hs2 & Hg2 & _) & more & Hmore & Hlist).
  rewrite (lines_of_same w w1 Ho1) in Hmore.
  assert (Hunsaved : forall e w3,
             output_file w3 = output_file w2 ->
             checkpoint_file w3 = checkpoint_file w2 ->
             status_file w3 = status_file w2 ->
             scraping_status w3 = scraping_status w2 ->
             (Raised e, w3) = (r, w') ->
             r <> Diverged /\
             status_file w' = status_file w /\
             scraping_status w' = scraping_status w /\
             exists more,
               lines_of w' = extend (lines_of w) more /\
               ((checkpoint_file w' = checkpoint_file w /\
                 (forall sa ck, r <> Returned (Again sa ck)) /\
                 (r = Returned Break -> more = [])) \/
                (exists s members,
                    as_int start_at = Some s /\
                    checkpoint = JObj members /\
                    (1 <= List.length more)%nat /\
                    checkpoint_file w'
                      = Some (Parsed (JObj (store project
                                (JNum (s + Z.of_nat (List.length more))) members))) /\
                    (r = Returned Break \/
                     r = Returned (Again (JNum (s + Z.of_nat (List.length more)))
                                    (JObj (store project
                                       (JNum (s + Z.of_nat (List.length more))) members))) \/
                     exists e, r = Raised e)))).
  { intros e w3 Ho3 Hc3 Hs3 Hg3 Heq. injection Heq as <- <-.
    split; [discriminate|]. split; [congruence|]. split; [congruence|].
    exists more. split; [rewrite (lines_of_same w2 w3 Ho3); exact Hmore|].
    left. split; [congruence|]. split; [discriminate | intros Hb; discriminate Hb]. }
  destruct rp as [[]|e|]; [| |contradiction].
  2:{ apply (Hunsaved e w2); try reflexivity. exact H. }
  destruct (Hlist eq_refl Htruthy) as (items & -> & Hlen).
  cbn [len lift ret] in H.
  unfold add_int in H. destruct (as_int start_at) as [s|] eqn:Hint; cbn [lift ret raise] in H.
  2:{ apply (Hunsaved TypeError w2); try reflexivity. exact H. }
  destruct checkpoint as [ | | | | |members]; cbn [setitem lift ret raise] in H;
    try (apply (Hunsaved TypeError w2); try reflexivity; exact H).
  clear Hunsaved.
  unfold save_checkpoint, sleep in H.
  rewrite <- Hlen in H.
  assert (Hpos : (1 <= List.length more)%nat).
  { rewrite Hlen. destruct items; [discriminate Htruthy | cbn; lia]. }
  assert (Hsaved : forall t w3,
             output_file w3 = output_file w2 ->
             status_file w3 = status_file w2 ->
             scraping_status w3 = scraping_status w2 ->
             checkpoint_file w3
               = Some (Parsed (JObj (store project
                                       (JNum (s + Z.of_nat (List.length more))) members))) ->
             (t = Returned Break \/
              t = Returned (Again (JNum (s + Z.of_nat (List.length more)))
                              (JObj (store project
                                       (JNum (s + Z.of_nat (List.length more))) members))) \/
              exists e, t = Raised e) ->
             (t, w3) = (r, w') ->
             r <> Diverged /\
             status_file w' = status_file w /\
             scraping_status w' = scraping_status w /\
             exists more0,
               lines_of w' = extend (lines_of w) more0 /\
               ((checkpoint_file w' = checkpoint_file w /\
                 (forall sa ck, r <> Returned (Again sa ck)) /\
                 (r = Returned Break -> more0 = [])) \/
                (exists s0 members0,
                    Some s = Some s0 /\
                    JObj members = JObj members0 /\
                    (1 <= List.length more0)%nat /\
                    checkpoint_file w'
                      = Some (Parsed (JObj (store project
                                (JNum (s0 + Z.of_nat (List.length more0))) members0))) /\
                    (r = Returned Break \/
                     r = Returned (Again (JNum (s0 + Z.of_nat (List.length more0)))
                                    (JObj (store project
                                       (JNum (s0 + Z.of_nat (List.length more0))) members0))) \/
                     exists e, r = Raised e)))).
  { intros t w3 Ho3 Hs3 Hg3 Hc3 Ht Heq. injection Heq as <- <-.
    split; [destruct Ht as [->|[->|(e & ->)]]; discriminate|].
    split; [congruence|]. split; [congruence|].
    exists more. split; [rewrite (lines_of_same w2 w3 Ho3); exact Hmore|].
    right. exists s, members. repeat split; assumption. }
  destruct (get data "total" JNull) as [total|e]; cbn [lift ret raise] in H.
  2:{ eapply Hsaved; [| | | | |exact H]; try reflexivity.
      right. right. eexists. reflexivity. }
  destruct (truthy total).
  - destruct (py_ge (JNum (s + Z.of_nat (List.length more))) total) as [[|]|e];
      cbn [lift ret raise] in H;
      (eapply Hsaved; [| | | | |exact H]; try reflexivity).
    + left. reflexivity.
    + right. left. reflexivity.
    + right. right. eexists. reflexivity.
  - eapply Hsaved; [| | | | |exact H]; try reflexivity.
    right. left. reflexivity.
Qed.

End EngineMore.

Section ProgressFacts.

Variable net : nat -> url -> response.
Variable py_str : json -> string.
Variable py_strip : string -> string.

(** The loop as a whole: records are written to the end of the sink, the
    status is not touched, and what the checkpoint file gains for the
    partition is the number of records of the pages written in full. *)
Lemma scrape_pages_progress :
  forall fuel project start_at checkpoint w r w',
    scrape_pages net py_str py_strip fuel project start_at checkpoint w = (r, w') ->
    r <> Diverged ->
    status_file w' = status_file w /\
    scraping_status w' = scraping_status w /\
    exists more,
      lines_of w' = extend (lines_of w) more /\
      ((checkpoint_file w' = checkpoint_file w /\ (r = Returned tt -> more = [])) \/
       (exists s members members' k,
           as_int start_at = Some s /\
           checkpoint = JObj members /\
           (1 <= k <= List.length more)%nat /\
           (r = Returned tt -> k = List.length more) /\
           checkpoint_file w' = Some (Parsed (JObj members')) /\
           lookup project members' = Some (JNum (s + Z.of_nat k)) /\
           forall q, q <> project -> lookup q members' = lookup q members)).
Proof.
  induction fuel as [|fuel IH]; intros project start_at checkpoint w r w' H Hr.
  - cbn in H. injection H as <- _. contradiction.
  - cbn [scrape_pages] in H. unfold bind in H.
    destruct (page_body net py_str py_strip project start_at checkpoint w)
      as [rb w1] eqn:Hbody.
    destruct (page_body_effect net py_str py_strip project start_at checkpoint w rb w1 Hbody)
      as (Hrb & Hs1 & Hg1 & more1 & Hmore1 & Hcase).
    destruct Hcase as [(Hc1 & Hnot & Hbreak)|(s & members & Hint & Hck & Hpos & Hc1 & Hkind)].
    + destruct rb as [[|sa ck]|e|].
      * injection H as <- <-. split; [assumption|]. split; [assumption|].
        exists more1. split; [assumption|]. left. split; [assumption|].
        intros _. apply Hbreak. reflexivity.
      * exfalso. eapply Hnot. reflexivity.
      * injection H as <- <-. split; [assumption|]. split; [assumption|].
        exists more1. split; [assumption|]. left. split; [assumption|].
        intros Hx. discriminate Hx.
      * contradiction.
    + set (n := List.length more1) in *.
      set (members1 := store project (JNum (s + Z.of_nat n)) members) in *.
      assert (Hstop : forall t,
                 (t, w1) = (r, w') ->
                 status_file w' = status_file w /\
                 scraping_status w' = scraping_status w /\
                 exists more,
                   lines_of w' = extend (lines_of w) more /\
                   ((checkpoint_file w' = checkpoint_file w /\ (r = Returned tt -> more = [])) \/
                    (exists s0 members0 members' k,
                        as_int start_at = Some s0 /\
                        checkpoint = JObj members0 /\
                        (1 <= k <= List.length more)%nat /\
                        (r = Returned tt -> k = List.length more) /\
                        checkpoint_file w' = Some (Parsed (JObj members')) /\
                        lookup project members' = Some (JNum (s0 + Z.of_nat k)) /\
                        forall q, q <> project -> lookup q members' = lookup q members0))).
      { intros t Heq. injection Heq as <- <-.
        split; [assumption|]. split; [assumption|].
        exists more1. split; [assumption|]. right.
        exists s, members, members1, n. subst n members1.
        split; [assumption|]. split; [assumption|]. split; [lia|].
        split; [reflexivity|]. split; [assumption|].
        split; [apply lookup_store_same|].
        intros q Hq. apply lookup_store_other. assumption. }
      destruct Hkind as [->|[->|(e & ->)]]; [apply (Hstop _ H)| |apply (Hstop _ H)].
      clear Hstop.
      destruct (IH project (JNum (s + Z.of_nat n)) (JObj members1) w1 r w' H Hr)
        as (Hs2 & Hg2 & more2 & Hmore2 & Hcase2).
      split; [congruence|]. split; [congruence|].
      exists (more1 ++ more2). split; [rewrite Hmore2, Hmore1, extend_app; reflexivity|].
      right. rewrite length_app. fold n.
      destruct Hcase2 as [(Hc2 & Hnone)|(s2 & m2 & members' & k & Hint2 & Hck2 & Hk & Hkeq & Hc2 & Hl2 & Hothers)].
      * exists s, members, members1, n.
        split; [assumption|]. split; [assumption|]. split; [lia|].
        split; [intros Hret; rewrite (Hnone Hret); cbn; lia|].
        split; [congruence|].
        split; [apply lookup_store_same|].
        intros q Hq. apply lookup_store_other. assumption.
      * cbn in Hint2. injection Hint2 as <-. injection Hck2 as <-.
        exists s, members, members', (n + k)%nat.
        split; [assumption|]. split; [assumption|]. split; [lia|].
        split; [intros Hret; rewrite (Hkeq Hret); reflexivity|].
        split; [assumption|].
        split; [rewrite Hl2; f_equal; f_equal; lia|].
        intros q Hq. rewrite (Hothers q Hq). apply lookup_store_other. assumption.
Qed.

(** The same for one partition, from loading the checkpoint to marking the
    partition completed. *)
Lemma scrape_project_progress :
  forall fuel project w r w',
    scrape_project net py_str py_strip fuel project w = (r, w') ->
    r <> Diverged ->
    exists more,
      lines_of w' = extend (lines_of w) more /\
      ((checkpoint_file w' = checkpoint_file w /\ (r = Returned tt -> more = [])) \/
       (exists members start s members' k,
           fst (load_checkpoint w) = Returned (JObj members) /\
           get (JObj members) project (JNum 0) = Ok start /\
           as_int start = Some s /\
           (1 <= k <= List.length more)%nat /\
           (r = Returned tt -> k = List.length more) /\
           checkpoint_file w' = Some (Parsed (JObj members')) /\
           lookup project members' = Some (JNum (s + Z.of_nat k)) /\
           forall q, q <> project -> lookup q members' = lookup q members)).
Proof.
  intros fuel project w r w' H Hr. unfold scrape_project, bind in H.
  pose proof (load_checkpoint_reads_only w) as Hsame.
  destruct (load_checkpoint w) as [rl wl] eqn:Hload. cbn [snd] in Hsame. subst wl.
  assert (Hquiet : forall e, (Raised e, w) = (r, w') ->
             exists more,
               lines_of w' = extend (lines_of w) more /\
               ((checkpoint_file w' = checkpoint_file w /\ (r = Returned tt -> more = [])) \/
                (exists members start s members' k,
                    fst (rl, w) = Returned (JObj members) /\
                    get (JObj members) project (JNum 0) = Ok start /\
                    as_int start = Some s /\
                    (1 <= k <= List.length more)%nat /\
                    (r = Returned tt -> k = List.length more) /\
                    checkpoint_file w' = Some (Parsed (JObj members')) /\
                    lookup project members' = Some (JNum (s + Z.of_nat k)) /\
                    forall q, q <> project -> lookup q members' = lookup q members))).
  { intros e Heq. injection Heq as <- <-. exists [].
    split; [reflexivity|]. left. split; [reflexivity|]. intros Hx. discriminate Hx. }
  destruct rl as [checkpoint|e|]; [|apply (Hquiet e H)|injection H as <- _; contradiction].
  destruct (get checkpoint project (JNum 0)) as [start|e] eqn:Hget; cbn [lift ret raise] in H;
    [|apply (Hquiet e H)].
  clear Hquiet.
  unfold update_status in H. cbv beta iota in H.
  match type of H with
  | context [scrape_pages net py_str py_strip fuel project start checkpoint ?x] =>
      set (w0 := x) in H
  end.
  assert (H0 : lines_of w0 = lines_of w /\ checkpoint_file w0 = checkpoint_file w)
    by (split; reflexivity).
  destruct H0 as [Hl0 Hc0].
  destruct (scrape_pages net py_str py_strip fuel project start checkpoint w0)
    as [rp w1] eqn:Hpages.
  assert (Hend : rp <> Diverged /\ r = rp /\
                 lines_of w' = lines_of w1 /\ checkpoint_file w' = checkpoint_file w1).
  { destruct rp as [[]|e|]; injection H as <- <-; repeat split; try discriminate.
    contradiction. }
  destruct Hend as (Hrp & -> & Hl' & Hc').
  destruct (scrape_pages_progress fuel project start checkpoint w0 rp w1 Hpages Hrp)
    as (_ & _ & more & Hmore & Hcase).
  exists more. split; [congruence|].
  destruct Hcase as [(Hc1 & Hnone)|(s & members & members' & k & Hint & -> & Hk & Hkeq & Hc1 & Hl1 & Hothers)].
  - left. split; [congruence | assumption].
  - right. exists members, start, s, members', k.
    repeat split; try assumption; try lia. congruence.
Qed.


Lemma projects_append_only :
  forall fuel projects w r w',
    for_each projects (scrape_project net py_str py_strip fuel) w = (r, w') ->
    r <> Diverged ->
    exists more, lines_of w' = extend (lines_of w) more.
Proof.
  induction projects as [|project rest IH]; intros w r w' H Hr.
  - cbn in H. injection H as <- <-. exists []. reflexivity.
  - cbn [for_each] in H. unfold bind in H.
    destruct (scrape_project net py_str py_strip fuel project w) as [r1 w1] eqn:H1.
    destruct r1 as [[]|e|].
    + destruct (scrape_project_progress fuel project w _ w1 H1 ltac:(discriminate))
        as (more1 & Hmore1 & _).
      destruct (IH w1 r w' H Hr) as (more2 & Hmore2).
      exists (more1 ++ more2). rewrite Hmore2, Hmore1, extend_app. reflexivity.
    + injection H as <- <-.
      destruct (scrape_project_progress fuel project w _ w1 H1 ltac:(discriminate))
        as (more1 & Hmore1 & _).
      exists more1. assumption.
    + injection H as <- _. contradiction.
Qed.

(** X17. The sink is only written at its end: a run that ends, however
    it ends, leaves the old sink with the records of the run written to
    its end, one after the other.  When the old sink ended with a newline
    (or was empty or absent), every line it held is still in place and in
    order, and the new lines, one per record, follow them.  When its last
    line lacked the newline, that line is the only one that can change:
    the lines before it are still in place and in order. *)
Theorem run_scraper_appends_only :
  forall fuel w r w',
    run_scraper net py_str py_strip fuel w = (r, w') ->
    r <> Diverged ->
    exists more,
      lines_of w' = extend (lines_of w) more /\
      (ends_with_newline (lines_of w) = true ->
       lines_of w' = lines_of w ++ map Parsed more) /\
      exists rest, lines_of w' = removelast (lines_of w) ++ rest.
Proof.
  intros fuel w r w' H Hr. unfold run_scraper, try_finally in H.
  destruct (for_each PROJECTS (scrape_project net py_str py_strip fuel) w)
    as [rb w1] eqn:Hbody.
  assert (Hrb : rb <> Diverged /\ lines_of w' = lines_of w1).
  { destruct rb as [[]|e|]; cbn in H; injection H as <- <-; split;
      try discriminate; try reflexivity; contradiction. }
  destruct Hrb as [Hrb Hl].
  destruct (projects_append_only fuel PROJECTS w rb w1 Hbody Hrb) as (more & Hmore).
  exists more. rewrite Hl, Hmore.
  split; [reflexivity|]. split.
  - apply extend_after_newline.
  - apply extend_keeps_front.
Qed.

End ProgressFacts.


Lemma run_scraper_appends_only_witness :
  exists more,
    lines_of (snd (run_scraper Samples.two_issues Samples.str_of (fun s => s) 3
                     Samples.unterminated_sink))
      = extend (lines_of Samples.unterminated_sink) more /\
    (ends_with_newline (lines_of Samples.unterminated_sink) = true ->
     lines_of (snd (run_scraper Samples.two_issues Samples.str_of (fun s => s) 3
                      Samples.unterminated_sink))
       = lines_of Samples.unterminated_sink ++ map Parsed more) /\
    exists rest,
      lines_of (snd (run_scraper Samples.two_issues Samples.str_of (fun s => s) 3
                       Samples.unterminated_sink))
        = removelast (lines_of Samples.unterminated_sink) ++ rest.
Proof.
  apply (run_scraper_appends_only Samples.two_issues Samples.str_of (fun s => s) 3
           Samples.unterminated_sink
           (fst (run_scraper Samples.two_issues Samples.str_of (fun s => s) 3
                   Samples.unterminated_sink))).
  - apply surjective_pairing.
  - vm_compute. discriminate.
Defined.

Section AbortFacts.

Variable net : nat -> url -> response.
Variable py_str : json -> string.
Variable py_strip : string -> string.

Lemma marked_completed :
  forall now p s,
    p <> EmptyString ->
    In p (projects_completed (updated_status now None None (Some p) s)).
Proof.
  intros now p s Hp. rewrite mark_completed_list.
  assert (Hne : negb (p =? EmptyString)%string = true)
    by (apply negb_true_iff, String.eqb_neq; assumption).
  rewrite Hne. cbn [andb].
  destruct (existsb (String.eqb p) (projects_completed s)) eqn:Hex; cbn [negb].
  - apply existsb_eqb_In. assumption.
  - apply in_or_app. right. left. reflexivity.
Qed.

Lemma marked_completed_keeps_current :
  forall now p s,
    current_project (updated_status now None None (Some p) s) = current_project s.
Proof.
  intros now p s. unfold updated_status.
  destruct (negb (p =? EmptyString)%string
            && negb (existsb (String.eqb p) (projects_completed s))); reflexivity.
Qed.

(** X18. A partition whose first page cannot be fetched, because the
    search answers 404 or because all five attempts end in a retryable
    outcome, is not an error: [scrape_project] returns, writes nothing to
    sink or checkpoint, and records the partition as completed. *)
Theorem scrape_project_completes_unfetched_partition :
  forall fuel project w members start,
    fst (load_checkpoint w) = Returned (JObj members) ->
    get (JObj members) project (JNum 0) = Ok start ->
    (exists body,
        net (requests_so_far w) (SearchUrl project start MAX_RESULTS) = Response 404 body) \/
    (forall i, (i < 5)%nat ->
               retryable (net (requests_so_far w + i) (SearchUrl project start MAX_RESULTS))
                 = true) ->
    project <> EmptyString ->
    exists w',
      scrape_project net py_str py_strip (S fuel) project w = (Returned tt, w') /\
      output_file w' = output_file w /\
      checkpoint_file w' = checkpoint_file w /\
      current_project (scraping_status w') = Some project /\
      In project (projects_completed (scraping_status w')).
Proof.
  intros fuel project w members start Hload Hget Habsent Hp.
  set (u := SearchUrl project start MAX_RESULTS) in *.
  set (w0 := snd (update_status None (Some project) None w)).
  assert (Hnull : exists w1,
             fetch_with_retry net u DEFAULT_RETRIES w0 = (Returned JNull, w1) /\
             output_file w1 = output_file w /\
             checkpoint_file w1 = checkpoint_file w /\
             scraping_status w1 = scraping_status w0).
  { destruct (fetch_with_retry_returns net u DEFAULT_RETRIES w0)
      as (v & w1 & Hf & Ho & Hc & _ & Hg & _).
    exists w1. split; [|repeat split; assumption].
    rewrite Hf. f_equal. f_equal.
    unfold fetch_with_retry, DEFAULT_RETRIES in Hf.
    destruct Habsent as [(body & H404)|Hall].
    - cbn [fetch_attempts] in Hf. unfold bind in Hf.
      rewrite (attempt_once_404 net u 0 w0 body H404) in Hf.
      injection Hf as <- _. reflexivity.
    - destruct (fetch_attempts_exhausted net u 5 0 w0 Hall) as (w2 & Hrun & _).
      rewrite Hrun in Hf. injection Hf as <- _. reflexivity. }
  destruct Hnull as (w1 & Hf & Ho & Hc & Hg).
  eexists. split.
  - unfold scrape_project, bind.
    pose proof (load_checkpoint_reads_only w) as Hsame.
    destruct (load_checkpoint w) as [rl wl]. cbn [fst snd] in Hload, Hsame. subst rl wl.
    rewrite Hget. cbn [lift ret].
    change (update_status None (Some project) None w) with (Returned tt, w0).
    cbn [scrape_pages]. unfold bind, page_body, bind. fold u. rewrite Hf.
    cbn [truthy negb ret]. unfold update_status. reflexivity.
  - cbn [output_file checkpoint_file scraping_status set_status_file set_scraping_status].
    split; [assumption|]. split; [assumption|].
    rewrite Hg. split.
    + rewrite marked_completed_keeps_current. reflexivity.
    + apply marked_completed. assumption.
Qed.



(** What one partition's run does to the completed list. *)
Lemma scrape_project_status :
  forall fuel project w r w',
    scrape_project net py_str py_strip fuel project w = (r, w') ->
    r <> Diverged ->
    (r = Returned tt /\
     projects_completed (scraping_status w')
       = projects_completed
           (updated_status 0 None None (Some project) (scraping_status w))) \/
    (exists e, r = Raised e /\
               projects_completed (scraping_status w')
                 = projects_completed (scraping_status w)).
Proof.
  intros fuel project w r w' H Hr. unfold scrape_project, bind in H.
  pose proof (load_checkpoint_reads_only w) as Hsame.
  destruct (load_checkpoint w) as [rl wl]. cbn [snd] in Hsame. subst wl.
  destruct rl as [checkpoint|e|];
    [|injection H as <- <-; right; eexists; split; reflexivity
     |injection H as <- _; contradiction].
  destruct (get checkpoint project (JNum 0)) as [start|e]; cbn [lift ret raise] in H;
    [|injection H as <- <-; right; eexists; split; reflexivity].
  unfold update_status in H. cbv beta iota in H.
  match type of H with
  | context [scrape_pages net py_str py_strip fuel project start checkpoint ?x] =>
      set (w0 := x) in H
  end.
  destruct (scrape_pages net py_str py_strip fuel project start checkpoint w0)
    as [rp w1] eqn:Hpages.
  destruct rp as [[]|e|].
  - destruct (scrape_pages_progress net py_str py_strip fuel project start checkpoint
                w0 _ w1 Hpages ltac:(discriminate)) as (_ & Hg & _).
    injection H as <- <-. left. split; [reflexivity|].
    cbn [scraping_status set_status_file set_scraping_status].
    rewrite Hg. subst w0. unfold updated_status. cbn.
    destruct (negb (project =? EmptyString)%string
              && negb (existsb (String.eqb project)
                               (projects_completed (scraping_status w))));
      reflexivity.
  - destruct (scrape_pages_progress net py_str py_strip fuel project start checkpoint
                w0 _ w1 Hpages ltac:(discriminate)) as (_ & Hg & _).
    injection H as <- <-. right. exists e. split; [reflexivity|].
    rewrite Hg. reflexivity.
  - injection H as <- _. contradiction.
Qed.

(** X20. A run started with an empty completed list ends with the
    partitions completed so far, in the configured order: all three when
    it returns, and those before the partition that raised when it ends in
    an exception; the partitions after that one are not attempted. *)
Theorem run_scraper_completes_a_prefix :
  forall fuel w r w',
    projects_completed (scraping_status w) = [] ->
    run_scraper net py_str py_strip fuel w = (r, w') ->
    r <> Diverged ->
    exists k,
      projects_completed (scraping_status w') = firstn k PROJECTS /\
      (r = Returned tt -> k = 3%nat) /\
      ((exists e, r = Raised e) -> (k < 3)%nat).
Proof.
  intros fuel w r w' Hempty H Hr.
  unfold run_scraper, try_finally in H.
  cbn [PROJECTS for_each] in H. unfold bind in H.
  destruct (scrape_project net py_str py_strip fuel "SPARK" w) as [r1 w1] eqn:H1.
  assert (Hfinal : forall t w2 k,
             t <> Diverged ->
             projects_completed (scraping_status w2) = firstn k PROJECTS ->
             (t = Returned tt -> k = 3%nat) ->
             ((exists e, t = Raised e) -> (k < 3)%nat) ->
             match update_status (Some false) None None w2 with
             | (Returned _, w3) => (t, w3)
             | (Raised e, w3) => (Raised e, w3)
             | (Diverged, w3) => (Diverged, w3)
             end = (r, w') ->
             exists k,
               projects_completed (scraping_status w') = firstn k PROJECTS /\
               (r = Returned tt -> k = 3%nat) /\
               ((exists e, r = Raised e) -> (k < 3)%nat)).
  { intros t w2 k Ht Hpc Hret Hraise Heq. cbn in Heq. injection Heq as <- <-.
    exists k. split; [exact Hpc|]. split; assumption. }
  destruct r1 as [[]|e|].
  2:{ destruct (scrape_project_status fuel "SPARK" w _ w1 H1 ltac:(discriminate))
        as [[Hx _]|(e' & _ & Hpc)]; [discriminate Hx|].
      apply (Hfinal (Raised e) w1 0%nat); try assumption; try discriminate.
      - rewrite Hpc, Hempty. reflexivity.
      - intros _. repeat constructor. }
  2:{ cbn in H. injection H as <- _. contradiction. }
  destruct (scrape_project_status fuel "SPARK" w _ w1 H1 ltac:(discriminate))
    as [[_ Hpc1]|(e' & Hx & _)]; [|discriminate Hx].
  rewrite mark_completed_list, Hempty in Hpc1. cbn in Hpc1.
  destruct (scrape_project net py_str py_strip fuel "HADOOP" w1) as [r2 w2] eqn:H2.
  destruct r2 as [[]|e|].
  2:{ destruct (scrape_project_status fuel "HADOOP" w1 _ w2 H2 ltac:(discriminate))
        as [[Hx _]|(e' & _ & Hpc)]; [discriminate Hx|].
      apply (Hfinal (Raised e) w2 1%nat); try assumption; try discriminate.
      - rewrite Hpc, Hpc1. reflexivity.
      - intros _. repeat constructor. }
  2:{ cbn in H. injection H as <- _. contradiction. }
  destruct (scrape_project_status fuel "HADOOP" w1 _ w2 H2 ltac:(discriminate))
    as [[_ Hpc2]|(e' & Hx & _)]; [|discriminate Hx].
  rewrite mark_completed_list, Hpc1 in Hpc2. cbn in Hpc2.
  destruct (scrape_project net py_str py_strip fuel "KAFKA" w2) as [r3 w3] eqn:H3.
  destruct r3 as [[]|e|].
  2:{ destruct (scrape_project_status fuel "KAFKA" w2 _ w3 H3 ltac:(discriminate))
        as [[Hx _]|(e' & _ & Hpc)]; [discriminate Hx|].
      apply (Hfinal (Raised e) w3 2%nat); try assumption; try discriminate.
      - rewrite Hpc, Hpc2. reflexivity.
      - intros _. repeat constructor. }
  2:{ cbn in H. injection H as <- _. contradiction. }
  destruct (scrape_project_status fuel "KAFKA" w2 _ w3 H3 ltac:(discriminate))
    as [[_ Hpc3]|(e' & Hx & _)]; [|discriminate Hx].
  rewrite mark_completed_list, Hpc2 in Hpc3. cbn in Hpc3.
  apply (Hfinal (Returned tt) w3 3%nat); try assumption; try discriminate.
  - intros _. reflexivity.
  - intros (e & He). discriminate He.
Qed.

End AbortFacts.

Lemma scrape_project_completes_unfetched_partition_witness :
  exists w',
    scrape_project Samples.not_found Samples.str_of (fun s => s) 1 "SPARK" Samples.fresh
      = (Returned tt, w') /\
    output_file w' = output_file Samples.fresh /\
    checkpoint_file w' = checkpoint_file Samples.fresh /\
    current_project (scraping_status w') = Some "SPARK"%string /\
    In "SPARK"%string (projects_completed (scraping_status w')).
Proof.
  apply (scrape_project_completes_unfetched_partition
           Samples.not_found Samples.str_of (fun s => s) 0 "SPARK" Samples.fresh
           [("SPARK", JNum 0); ("HADOOP", JNum 0); ("KAFKA", JNum 0)]%string (JNum 0)).
  - reflexivity.
  - reflexivity.
  - left. exists None. reflexivity.
  - discriminate.
Defined.


Lemma run_scraper_completes_a_prefix_witness :
  (exists k,
     projects_completed (scraping_status
        (snd (run_scraper Samples.three_pages Samples.str_of (fun s => s) 3 Samples.started)))
       = firstn k PROJECTS /\
     (fst (run_scraper Samples.three_pages Samples.str_of (fun s => s) 3 Samples.started)
        = Returned tt -> k = 3%nat) /\
     ((exists e,
         fst (run_scraper Samples.three_pages Samples.str_of (fun s => s) 3 Samples.started)
           = Raised e) -> (k < 3)%nat)) /\
  (exists k,
     projects_completed (scraping_status
        (snd (run_scraper Samples.broken Samples.str_of (fun s => s) 3 Samples.started)))
       = firstn k PROJECTS /\
     (fst (run_scraper Samples.broken Samples.str_of (fun s => s) 3 Samples.started)
        = Returned tt -> k = 3%nat) /\
     ((exists e,
         fst (run_scraper Samples.broken Samples.str_of (fun s => s) 3 Samples.started)
           = Raised e) -> (k < 3)%nat)).
Proof.
  split.
  - apply (run_scraper_completes_a_prefix Samples.three_pages Samples.str_of (fun s => s)
             3 Samples.started).
    + reflexivity.
    + apply surjective_pairing.
    + vm_compute. discriminate.
  - apply (run_scraper_completes_a_prefix Samples.broken Samples.str_of (fun s => s)
             3 Samples.started).
    + reflexivity.
    + apply surjective_pairing.
    + vm_compute. discriminate.
Defined.
